(** * jobymatch: the unified job scraper (src/mixed_scraper.py)

    A shallow embedding of [UnifiedJobScraper]: search-term derivation,
    the site collectors, the match scorer and the filter / sort /
    deduplicate / truncate pipeline of [scrape_and_match].

    Modelling conventions.
    - Python [str] is [string]; [lower], [split], [strip] and [in] are
      written out on the ASCII range (code points above 127 are left
      untouched by [lower] and are never white space).
    - Python [float] scores are exact rationals ([Q]); [round(x, 2)] is
      rounding of [100 * x] to the nearest integer, ties to even.
    - A dictionary with a fixed set of keys is a record; a key that may be
      absent is an [option] field, and [d.get(k, default)] is [default]
      applied to it.  The records hold text; for a value that is there
      without being text ([None], [nan]) the converter and the scorer
      are given again over [cell] values in [Module Raw] and shown to
      agree with the ones on text.
    - Code that may raise returns [exc A]; [try ... except Exception] is
      [catch]; calls that leave the process (browser, job boards, the CV
      file, the clock) are fields of a [World] record. *)

From Stdlib Require Import ZArith QArith Qround Qabs String Ascii List Lia Lqa Bool.
From stdpp Require Import base option list gmap strings sorting.

Local Open Scope string_scope.
Local Open Scope list_scope.

(* ===================================================================== *)
(** ** Exceptions *)
(* ===================================================================== *)

Inductive exn : Type :=
  | IndexError
  | KeyError (k : string)
  | ZeroDivisionError
  | FileNotFoundError
  | ValueError
  | AttributeError
  | OtherException (msg : string).

Inductive exc (A : Type) : Type :=
  | Ok (a : A)
  | Raise (e : exn).
Arguments Ok {A} a.
Arguments Raise {A} e.

Definition ebind {A B} (m : exc A) (k : A -> exc B) : exc B :=
  match m with
  | Ok a => k a
  | Raise e => Raise e
  end.

(** [try: body  except Exception: handler] *)
Definition catch {A} (body : exc A) (handler : exn -> exc A) : exc A :=
  match body with
  | Ok a => Ok a
  | Raise e => handler e
  end.

Notation "x <-! m ; k" := (ebind m (fun x => k))
  (at level 100, m at next level, right associativity, only parsing).

Definition is_ok {A} (m : exc A) : bool :=
  match m with Ok _ => true | Raise _ => false end.

(* ===================================================================== *)
(** ** Python string primitives *)
(* ===================================================================== *)

Module PyStr.

Definition is_upper (c : ascii) : bool :=
  let n := nat_of_ascii c in (65 <=? n)%nat && (n <=? 90)%nat.

Definition lower_char (c : ascii) : ascii :=
  if is_upper c then ascii_of_nat (nat_of_ascii c + 32) else c.

(** [s.lower()] *)
Fixpoint lower (s : string) : string :=
  match s with
  | EmptyString => EmptyString
  | String c r => String (lower_char c) (lower r)
  end.

(** [c.isspace()] on ASCII: tab, LF, VT, FF, CR, FS, GS, RS, US, space. *)
Definition is_space (c : ascii) : bool :=
  let n := nat_of_ascii c in
  ((9 <=? n)%nat && (n <=? 13)%nat) || ((28 <=? n)%nat && (n <=? 32)%nat).

(** truthiness of a string: [bool(s)] *)
Definition nonempty (s : string) : bool :=
  match s with EmptyString => false | String _ _ => true end.

Definition starts_word (s : string) : bool :=
  match s with
  | EmptyString => false
  | String c _ => negb (is_space c)
  end.

(** [s.split()]: maximal runs of non-space characters, in order. *)
Fixpoint split (s : string) : list string :=
  match s with
  | EmptyString => []
  | String c r =>
      if is_space c then split r
      else if starts_word r then
        match split r with
        | w :: ws => String c w :: ws
        | [] => [String c EmptyString]
        end
      else String c EmptyString :: split r
  end.

(** [s.startswith(p)] *)
Fixpoint startswith (s p : string) {struct p} : bool :=
  match p, s with
  | EmptyString, _ => true
  | String _ _, EmptyString => false
  | String a p', String b s' => Ascii.eqb a b && startswith s' p'
  end.

(** [p in s] *)
Fixpoint str_in (p s : string) : bool :=
  startswith s p ||
  match s with
  | EmptyString => false
  | String _ s' => str_in p s'
  end.

(** [s[:n]] for [n >= 0] *)
Fixpoint take_str (n : nat) (s : string) : string :=
  match n, s with
  | O, _ => EmptyString
  | S _, EmptyString => EmptyString
  | S n', String c r => String c (take_str n' r)
  end.

Fixpoint lstrip (s : string) : string :=
  match s with
  | EmptyString => EmptyString
  | String c r => if is_space c then lstrip r else s
  end.

Fixpoint rstrip (s : string) : string :=
  match s with
  | EmptyString => EmptyString
  | String c r =>
      match rstrip r with
      | EmptyString => if is_space c then EmptyString else String c EmptyString
      | r' => String c r'
      end
  end.

(** [s.strip()] *)
Definition strip (s : string) : string := rstrip (lstrip s).

End PyStr.

(* ===================================================================== *)
(** ** Python sequence primitives *)
(* ===================================================================== *)

(** [l[:n]] for a Python integer [n]: a negative bound counts from the end. *)
Definition slice_to {A} (n : Z) (l : list A) : list A :=
  if (0 <=? n)%Z then take (Z.to_nat n) l
  else take (length l - Z.to_nat (- n)) l.

(** [l[0]] *)
Definition index0 {A} (l : list A) : exc A :=
  match l with
  | x :: _ => Ok x
  | [] => Raise IndexError
  end.

(** truthiness of a list: [bool(l)] *)
Definition nonempty_list {A} (l : list A) : bool :=
  match l with [] => false | _ :: _ => true end.

(* ===================================================================== *)
(** ** The candidate profile and the search term *)
(* ===================================================================== *)

(** [cv_data['job_search_intent']] *)
Record Intent := {
  domains : option (list string);
  location_preference : option string
}.

(** [cv_data['skills']] *)
Record Skills := {
  technical : option (list string)
}.

(** The parsed CV, as far as the scraper reads it. *)
Record CvData := {
  cv_title : option string;
  job_search_intent : option Intent;
  skills : option Skills
}.

(** The [keywords] dictionary of [extract_search_keywords]. *)
Record Keywords := {
  kw_title : string;
  kw_domains : list string;
  kw_skills : list string;
  kw_location : string
}.

Definition extract_search_keywords (cv_data : CvData) : Keywords :=
  let title := default "" (cv_title cv_data) in
  let '(doms, loc) :=
    match job_search_intent cv_data with
    | Some intent =>
        (default [] (domains intent), default "" (location_preference intent))
    | None => ([], "")
    end in
  let sk :=
    match skills cv_data with
    | Some s =>
        match technical s with
        | Some t => slice_to 10 t
        | None => []
        end
    | None => []
    end in
  {| kw_title := title; kw_domains := doms; kw_skills := sk; kw_location := loc |}.

Definition default_term : string := "informatique".

Definition build_search_term (keywords : Keywords) : exc string :=
  if PyStr.nonempty (kw_title keywords)
     && (length (PyStr.split (kw_title keywords)) <=? 4)%nat
  then Ok (kw_title keywords)
  else
    if nonempty_list (kw_domains keywords)
       && match kw_domains keywords with d :: _ => PyStr.nonempty d | [] => false end
    then
      domain <-! index0 (kw_domains keywords);
      if PyStr.nonempty domain then index0 (PyStr.split domain)
      else Ok default_term
    else
      if nonempty_list (kw_skills keywords) then index0 (kw_skills keywords)
      else Ok default_term.

(** The selection rule in the words of the specification: the title when
    it has at most four words, else the first domain, else the first
    skill, else the default term. *)
Definition build_search_term_spec (keywords : Keywords) : string :=
  if (length (PyStr.split (kw_title keywords)) <=? 4)%nat then kw_title keywords
  else match kw_domains keywords with
       | d :: _ => d
       | [] => match kw_skills keywords with
               | s :: _ => s
               | [] => default_term
               end
       end.

(* ===================================================================== *)
(** ** Job postings *)
(* ===================================================================== *)

(** A job dictionary.  The collectors always set the string keys; the
    scorer reads them with [job.get], so every key may be absent.
    [is_remote] is set by the JobSpy converter only and [match_score] by
    [scrape_and_match] only. *)
Record Job := {
  title : option string;
  company : option string;
  location : option string;
  description : option string;
  url : option string;
  site : option string;
  date_posted : option string;
  is_remote : option bool;
  scraped_at : option string;
  match_score : option Q
}.

(** [job['match_score'] = v] *)
Definition set_match_score (job : Job) (v : Q) : Job :=
  {| title := title job; company := company job; location := location job;
     description := description job; url := url job; site := site job;
     date_posted := date_posted job; is_remote := is_remote job;
     scraped_at := scraped_at job; match_score := Some v |}.

(* ===================================================================== *)
(** ** Matching and scoring *)
(* ===================================================================== *)

(** [a / b] on numbers *)
Definition py_div (a b : Q) : exc Q :=
  if Qeq_bool b 0 then Raise ZeroDivisionError else Ok (a / b)%Q.

(** [min(a, b)]: the first argument unless the second is smaller. *)
Definition py_min (a b : Q) : Q :=
  if Qle_bool a b then a else b.

(** [sum(...)] of integers *)
Definition py_sum (l : list Z) : Z := foldl Z.add 0%Z l.

(** [len(l)] as a number *)
Definition len {A} (l : list A) : Q := inject_Z (Z.of_nat (length l)).

(** [f"{job.get('title', '')} {job.get('description', '')}".lower()] *)
Definition job_text (job : Job) : string :=
  PyStr.lower (default "" (title job) +:+ " " +:+ default "" (description job)).

(** [if job.get('title'): score += 10] *)
Definition check_presence (job : Job) (score : Q) : Q :=
  if PyStr.nonempty (default "" (title job)) then (score + 10)%Q else score.

(** [[w.lower() for w in domain.split() if len(w) > 4]] *)
Definition domain_words (domain : string) : list string :=
  map PyStr.lower
      (List.filter (fun w => (4 <? String.length w)%nat) (PyStr.split domain)).

(** the loop extending [domain_keywords] *)
Definition collect_domain_keywords (doms : list string) : list string :=
  foldl (fun domain_keywords domain => domain_keywords ++ domain_words domain) [] doms.

(** [sum(1 for kw in kws if kw in text)] *)
Definition count_matching (kws : list string) (text : string) : Z :=
  py_sum (map (fun _ => 1%Z) (List.filter (fun kw => PyStr.str_in kw text) kws)).

(** Check domains (30 points) *)
Definition check_domains (text : string) (cv_data : CvData) (score : Q) : exc Q :=
  match job_search_intent cv_data with
  | Some intent =>
      match domains intent with
      | Some doms =>
          if nonempty_list doms then
            let domain_keywords := collect_domain_keywords doms in
            if nonempty_list domain_keywords then
              let matching := count_matching domain_keywords text in
              r <-! py_div (inject_Z matching) (len domain_keywords);
              Ok (score + r * 30)%Q
            else Ok score
          else Ok score
      | None => Ok score
      end
  | None => Ok score
  end.

(** one iteration of [for skill in skills] *)
Definition skill_step (text : string) (matching_skills : Q) (skill : string) : Q :=
  let skill_lower := PyStr.lower skill in
  if PyStr.str_in skill_lower text then (matching_skills + 1)%Q
  else
    let skill_words := PyStr.split skill_lower in
    if existsb (fun word => PyStr.str_in word text)
               (List.filter (fun word => (3 <? String.length word)%nat) skill_words)
    then (matching_skills + (1 # 2))%Q
    else matching_skills.

(** Check skills (35 points) *)
Definition check_skills (text : string) (cv_data : CvData) (score : Q) : exc Q :=
  match skills cv_data with
  | Some sk =>
      match technical sk with
      | Some tech =>
          let skills := slice_to 20 tech in
          if nonempty_list skills then
            let matching_skills := foldl (skill_step text) 0%Q skills in
            r <-! py_div matching_skills (len skills);
            Ok (score + r * 35)%Q
          else Ok score
      | None => Ok score
      end
  | None => Ok score
  end.

(** Location bonus (15 points) *)
Definition check_location (job : Job) (score : Q) : Q :=
  if PyStr.str_in "tunis" (PyStr.lower (default "" (location job)))
     || default false (is_remote job)
  then (score + 15)%Q else score.

(** Title match (10 points) *)
Definition check_title (job : Job) (cv_data : CvData) (score : Q) : exc Q :=
  let cv_title := PyStr.lower (default "" (cv_title cv_data)) in
  let job_title := PyStr.lower (default "" (title job)) in
  if PyStr.nonempty cv_title && PyStr.nonempty job_title then
    let title_words :=
      List.filter (fun w => (3 <? String.length w)%nat) (PyStr.split cv_title) in
    if nonempty_list title_words then
      let matching := count_matching title_words job_title in
      r <-! py_div (inject_Z matching) (len title_words);
      Ok (score + r * 10)%Q
    else Ok score
  else Ok score.

Definition calculate_match_score (job : Job) (cv_data : CvData) : exc Q :=
  let score := 0%Q in
  let text := job_text job in
  let score := check_presence job score in
  score <-! check_domains text cv_data score;
  score <-! check_skills text cv_data score;
  let score := check_location job score in
  score <-! check_title job cv_data score;
  Ok (py_min score 100).

(** [round(x, 2)]: nearest multiple of 1/100, ties to the even one. *)
Definition round_half_even (x : Q) : Z :=
  let f := Qfloor x in
  let r := (x - inject_Z f)%Q in
  match Qcompare r (1 # 2) with
  | Lt => f
  | Gt => (f + 1)%Z
  | Eq => if Z.even f then f else (f + 1)%Z
  end.

Definition round2 (x : Q) : Q := (inject_Z (round_half_even (x * 100)) / 100)%Q.

(** The skill-overlap signal in the words of the specification. *)
Definition skill_points (text skill : string) : Q :=
  if PyStr.str_in (PyStr.lower skill) text then 1%Q
  else if existsb (fun w => (3 <? String.length w)%nat && PyStr.str_in w text)
                  (PyStr.split (PyStr.lower skill))
  then (1 # 2)%Q else 0%Q.

Fixpoint Qsum (l : list Q) : Q :=
  match l with
  | [] => 0%Q
  | x :: r => (x + Qsum r)%Q
  end.

Definition skill_overlap_spec (text : string) (tech : list string) : Q :=
  let considered := take 20 tech in
  (Qsum (map (skill_points text) considered) / len considered * 35)%Q.

(* ===================================================================== *)
(** ** Collectors: the Tunisia sites *)
(* ===================================================================== *)

(** A parsed page is represented by what the parsers ask of it: each
    field below is the answer of one BeautifulSoup query, with
    [get_text(strip=True)] already applied where the code applies it. *)

(** An [<a href=...>] element: its text and its [href]. *)
Record Anchor := { a_text : string; a_href : string }.

(** The job container of a heading on Emploitunisie.com. *)
Record EmploiContainer := {
  ec_company : option string;    (* link to /recruteur/ *)
  ec_text : string;              (* card.get_text() *)
  ec_desc : option string        (* first <p> *)
}.

(** An [<h3>] of the result page: its first link and the outcome of
    [find_parent]. *)
Record EmploiCard := {
  e_link : option Anchor;
  e_parent : exc (option EmploiContainer)
}.

(** The first of [h2, h3, h4, a] in a Tanitjobs card. *)
Record TanitTitle := {
  tt_text : string;
  tt_name : string;
  tt_href : option string
}.

Record TanitCard := {
  t_title_elem : option TanitTitle;
  t_company : option string;     (* span/div matching entreprise|société *)
  t_location : option string;    (* text node matching tunis|sfax|sousse|nabeul *)
  t_desc : option string
}.

Record KeejobContainer := {
  kc_company : option string;    (* link to /companies/ *)
  kc_strings : list string;      (* card.find_all(string=True) *)
  kc_desc : option string
}.

Record KeejobCard := {
  k_link : option Anchor;
  k_parent : exc (option KeejobContainer)
}.

(** The three candidate card lists of the Tanitjobs page; reading a card
    may itself raise. *)
Record TanitPage := {
  tp_job_item : list (exc TanitCard);
  tp_offer : list (exc TanitCard);
  tp_article : list (exc TanitCard)
}.

(** One row of a JobSpy data frame; [None] is an absent column. *)
Record Row := {
  r_title : option string;
  r_company : option string;
  r_location : option string;
  r_description : option string;
  r_job_url : option string;
  r_date_posted : option string;
  r_is_remote : option bool
}.

(** The keyword arguments of one [scrape_jobs] call. *)
Record JobSpyQuery := {
  q_site_name : list string;
  q_search_term : string;
  q_location : string;
  q_country_indeed : option string;
  q_results_wanted : Z;
  q_hours_old : Z;
  q_linkedin_fetch_description : bool
}.

(** Everything outside the process.  [SELENIUM_AVAILABLE] stands for
    [SELENIUM_AVAILABLE and self.driver]; the page fields are
    [driver.get(url)] followed by the [find_all] of that site, as a
    function of the search term; [now] is
    [datetime.now().isoformat()].  The code reads the clock once for
    each posting; here one reading serves the whole run, so the stamps
    of a run are not told apart. *)
Record World := {
  SELENIUM_AVAILABLE : bool;
  JOBSPY_AVAILABLE : bool;
  now : string;
  load_cv_profile : string -> exc CvData;
  emploi_page : string -> exc (list EmploiCard);
  tanit_page : string -> exc TanitPage;
  keejob_page : string -> exc (list KeejobCard);
  scrape_jobs : JobSpyQuery -> exc (option (list Row))
}.

(** The dictionary literal that opens each Tunisia parser. *)
Definition new_job (site_name scraped : string) : Job :=
  {| title := Some ""; company := Some ""; location := Some "Tunisie";
     description := Some ""; url := Some ""; site := Some site_name;
     date_posted := Some ""; is_remote := None;
     scraped_at := Some scraped; match_score := None |}.

Definition set_title (job : Job) (v : string) : Job :=
  {| title := Some v; company := company job; location := location job;
     description := description job; url := url job; site := site job;
     date_posted := date_posted job; is_remote := is_remote job;
     scraped_at := scraped_at job; match_score := match_score job |}.

Definition set_company (job : Job) (v : string) : Job :=
  {| title := title job; company := Some v; location := location job;
     description := description job; url := url job; site := site job;
     date_posted := date_posted job; is_remote := is_remote job;
     scraped_at := scraped_at job; match_score := match_score job |}.

Definition set_location (job : Job) (v : string) : Job :=
  {| title := title job; company := company job; location := Some v;
     description := description job; url := url job; site := site job;
     date_posted := date_posted job; is_remote := is_remote job;
     scraped_at := scraped_at job; match_score := match_score job |}.

Definition set_description (job : Job) (v : string) : Job :=
  {| title := title job; company := company job; location := location job;
     description := Some v; url := url job; site := site job;
     date_posted := date_posted job; is_remote := is_remote job;
     scraped_at := scraped_at job; match_score := match_score job |}.

Definition set_url (job : Job) (v : string) : Job :=
  {| title := title job; company := company job; location := location job;
     description := description job; url := Some v; site := site job;
     date_posted := date_posted job; is_remote := is_remote job;
     scraped_at := scraped_at job; match_score := match_score job |}.

(** [job if job['title'] else None] *)
Definition job_if_title (job : Job) : option Job :=
  if PyStr.nonempty (default "" (title job)) then Some job else None.

(** the title link of Emploitunisie.com and Keejob: text, and the
    [href] made absolute *)
Definition read_title_link (base : string) (link : option Anchor) (job : Job) : Job :=
  match link with
  | Some title_link =>
      let job := set_title job (a_text title_link) in
      let job := set_url job (a_href title_link) in
      if negb (PyStr.startswith (default "" (url job)) "http")
      then set_url job (base +:+ default "" (url job))
      else job
  | None => job
  end.

Definition read_company (company_elem : option string) (job : Job) : Job :=
  match company_elem with
  | Some c => set_company job c
  | None => job
  end.

(** [desc_elem.get_text(strip=True)[:500]] *)
Definition read_description (desc_elem : option string) (job : Job) : Job :=
  match desc_elem with
  | Some d => set_description job (PyStr.take_str 500 d)
  | None => job
  end.

(** [for loc in location_patterns: if loc in text: ...; break] *)
Definition first_location (patterns : list string) (text : string) (job : Job) : Job :=
  match List.find (fun loc => PyStr.str_in loc text) patterns with
  | Some loc => set_location job loc
  | None => job
  end.

Definition _parse_emploi_tn_job (scraped : string) (card : EmploiContainer)
    (title_elem : option EmploiCard) : option Job :=
  let job := new_job "Emploitunisie.com" scraped in
  let job :=
    match title_elem with
    | Some h => read_title_link "https://www.emploitunisie.com" (e_link h) job
    | None => job
    end in
  let job := read_company (ec_company card) job in
  let location_patterns :=
    ["Tunis"; "Sfax"; "Sousse"; "Ariana"; "Nabeul"; "Monastir"; "Lac"] in
  let job := first_location location_patterns (ec_text card) job in
  let job := read_description (ec_desc card) job in
  job_if_title job.

Definition _parse_tanitjobs_job (scraped : string) (card : TanitCard) : option Job :=
  let job := new_job "Tanitjobs" scraped in
  let job :=
    match t_title_elem card with
    | Some title_elem =>
        let job := set_title job (tt_text title_elem) in
        if String.eqb (tt_name title_elem) "a"
           && PyStr.nonempty (default "" (tt_href title_elem))
        then
          let job := set_url job (default "" (tt_href title_elem)) in
          if negb (PyStr.startswith (default "" (url job)) "http")
          then set_url job ("https://www.tanitjobs.com" +:+ default "" (url job))
          else job
        else job
    | None => job
    end in
  let job := read_company (t_company card) job in
  let job :=
    match t_location card with
    | Some location_elem => set_location job (PyStr.strip location_elem)
    | None => job
    end in
  let job := read_description (t_desc card) job in
  job_if_title job.

(** the location loop of the Keejob parser over the text nodes *)
Fixpoint keejob_location (location_patterns : list string) (texts : list string)
    (job : Job) : Job :=
  match texts with
  | [] => job
  | text_elem :: rest =>
      let text := PyStr.strip text_elem in
      let job := first_location location_patterns text job in
      if negb (String.eqb (default "" (location job)) "Tunisie") then job
      else keejob_location location_patterns rest job
  end.

Definition _parse_keejob_job (scraped : string) (card : KeejobContainer)
    (title_elem : option KeejobCard) : option Job :=
  let job := new_job "Keejob" scraped in
  let job :=
    match title_elem with
    | Some h => read_title_link "https://www.keejob.com" (k_link h) job
    | None => job
    end in
  let job := read_company (kc_company card) job in
  let location_patterns :=
    ["Tunis"; "Sfax"; "Sousse"; "Ariana"; "Nabeul"; "Monastir"; "Ben Arous"] in
  let job := keejob_location location_patterns (kc_strings card) job in
  let job := read_description (kc_desc card) job in
  job_if_title job.

(** [for card in cards: try: ... jobs.append(job)  except: continue] *)
Definition append_each {C} (parse : C -> exc (option Job)) (cards : list C)
    (jobs : list Job) : list Job :=
  foldl (fun jobs card =>
           match parse card with
           | Ok (Some job) => jobs ++ [job]
           | Ok None => jobs
           | Raise _ => jobs
           end) jobs cards.

Definition scrape_emploi_tn (w : World) (search_term : string) (max_jobs : Z)
    : exc (list Job) :=
  if negb (SELENIUM_AVAILABLE w) then Ok []
  else
    let jobs := [] in
    catch
      (job_cards <-! emploi_page w search_term;
       Ok (append_each
             (fun card =>
                job_container <-! e_parent card;
                match job_container with
                | Some c => Ok (_parse_emploi_tn_job (now w) c (Some card))
                | None => Ok None
                end)
             (slice_to max_jobs job_cards) jobs))
      (fun _ => Ok jobs).

(** [a or b or c] on lists *)
Definition first_nonempty {A} (a b c : list A) : list A :=
  if nonempty_list a then a else if nonempty_list b then b else c.

Definition scrape_tanitjobs (w : World) (search_term : string) (max_jobs : Z)
    : exc (list Job) :=
  if negb (SELENIUM_AVAILABLE w) then Ok []
  else
    let jobs := [] in
    catch
      (page <-! tanit_page w search_term;
       let job_cards :=
         first_nonempty (slice_to max_jobs (tp_job_item page))
                        (slice_to max_jobs (tp_offer page))
                        (slice_to max_jobs (tp_article page)) in
       Ok (append_each
             (fun card => c <-! card; Ok (_parse_tanitjobs_job (now w) c))
             job_cards jobs))
      (fun _ => Ok jobs).

Definition scrape_keejob (w : World) (search_term : string) (max_jobs : Z)
    : exc (list Job) :=
  if negb (SELENIUM_AVAILABLE w) then Ok []
  else
    let jobs := [] in
    catch
      (job_titles <-! keejob_page w search_term;
       Ok (append_each
             (fun title_elem =>
                job_container <-! k_parent title_elem;
                match job_container with
                | Some c => Ok (_parse_keejob_job (now w) c (Some title_elem))
                | None => Ok None
                end)
             (slice_to max_jobs job_titles) jobs))
      (fun _ => Ok jobs).

(* ===================================================================== *)
(** ** Collectors: the international boards (JobSpy) *)
(* ===================================================================== *)

(** the dictionary built for one row *)
Definition jobspy_job (scraped site_name : string) (job : Row) : Job :=
  {| title := Some (default "N/A" (r_title job));
     company := Some (default "N/A" (r_company job));
     location := Some (default "N/A" (r_location job));
     description := Some (PyStr.take_str 5000 (default "" (r_description job)));
     url := Some (default "" (r_job_url job));
     site := Some site_name;
     date_posted := Some (default "" (r_date_posted job));
     is_remote := Some (default false (r_is_remote job));
     scraped_at := Some scraped;
     match_score := None |}.

Definition _convert_jobspy_to_dict (scraped : string) (jobs_df : list Row)
    (site_name : string) : list Job :=
  foldl (fun jobs job => jobs ++ [jobspy_job scraped site_name job]) [] jobs_df.

(** One of the four [try: jobs = scrape_jobs(...) ... except Exception]
    blocks: the new value of [all_jobs]. *)
Definition sub_market (w : World) (query : JobSpyQuery) (site_name : string)
    (all_jobs : list Job) : exc (list Job) :=
  catch
    (jobs <-! scrape_jobs w query;
     match jobs with
     | Some df =>
         if nonempty_list df
         then Ok (all_jobs ++ _convert_jobspy_to_dict (now w) df site_name)
         else Ok all_jobs
     | None => Ok all_jobs
     end)
    (fun _ => Ok all_jobs).

(** [a or b] on strings *)
Definition str_or (a b : string) : string :=
  if PyStr.nonempty a then a else b.

Definition linkedin_query (search_term loc : string) (results_wanted hours_old : Z)
    : JobSpyQuery :=
  {| q_site_name := ["linkedin"]; q_search_term := search_term;
     q_location := str_or loc "Tunisia"; q_country_indeed := None;
     q_results_wanted := results_wanted; q_hours_old := hours_old;
     q_linkedin_fetch_description := true |}.

Definition indeed_usa_query (search_term : string) (results_wanted hours_old : Z)
    : JobSpyQuery :=
  {| q_site_name := ["indeed"]; q_search_term := search_term +:+ " remote";
     q_location := ""; q_country_indeed := Some "USA";
     q_results_wanted := results_wanted; q_hours_old := hours_old;
     q_linkedin_fetch_description := false |}.

Definition indeed_france_query (search_term : string) (results_wanted hours_old : Z)
    : JobSpyQuery :=
  {| q_site_name := ["indeed"]; q_search_term := search_term;
     q_location := ""; q_country_indeed := Some "France";
     q_results_wanted := (results_wanted / 2)%Z; q_hours_old := hours_old;
     q_linkedin_fetch_description := false |}.

Definition ziprecruiter_query (search_term : string) (results_wanted hours_old : Z)
    : JobSpyQuery :=
  {| q_site_name := ["zip_recruiter"]; q_search_term := search_term +:+ " remote";
     q_location := ""; q_country_indeed := None;
     q_results_wanted := (results_wanted / 2)%Z; q_hours_old := hours_old;
     q_linkedin_fetch_description := false |}.

Definition scrape_international_jobs (w : World) (search_term loc : string)
    (results_wanted hours_old : Z) : exc (list Job) :=
  if negb (JOBSPY_AVAILABLE w) then Ok []
  else
    let all_jobs := [] in
    all_jobs <-! sub_market w (linkedin_query search_term loc results_wanted hours_old)
                   "LinkedIn" all_jobs;
    all_jobs <-! sub_market w (indeed_usa_query search_term results_wanted hours_old)
                   "Indeed USA" all_jobs;
    all_jobs <-! sub_market w (indeed_france_query search_term results_wanted hours_old)
                   "Indeed France" all_jobs;
    all_jobs <-! sub_market w (ziprecruiter_query search_term results_wanted hours_old)
                   "ZipRecruiter" all_jobs;
    Ok all_jobs.

(* ===================================================================== *)
(** ** Main scraping workflow *)
(* ===================================================================== *)

(** "1. Tunisia sites (Selenium)": the three [all_jobs.extend] calls under
    one [try]; an exception keeps what was appended before it. *)
Definition collect_tunisia (w : World) (search_term : string) (all_jobs : list Job)
    : list Job :=
  if SELENIUM_AVAILABLE w then
    match scrape_emploi_tn w search_term 30 with
    | Raise _ => all_jobs
    | Ok e =>
        let all_jobs := all_jobs ++ e in
        match scrape_tanitjobs w search_term 30 with
        | Raise _ => all_jobs
        | Ok t =>
            let all_jobs := all_jobs ++ t in
            match scrape_keejob w search_term 30 with
            | Raise _ => all_jobs
            | Ok k => all_jobs ++ k
            end
        end
    end
  else all_jobs.

(** "2. International sites (JobSpy)" *)
Definition collect_international (w : World) (search_term : string)
    (keywords : Keywords) (hours_old : Z) (all_jobs : list Job) : list Job :=
  if JOBSPY_AVAILABLE w then
    match scrape_international_jobs w search_term
            (str_or (kw_location keywords) "Tunisia") 50 hours_old with
    | Raise _ => all_jobs
    | Ok intl_jobs => all_jobs ++ intl_jobs
    end
  else all_jobs.

(** "Scrape all sources": the collection phase of [scrape_and_match]. *)
Definition collect_all (w : World) (search_term : string) (keywords : Keywords)
    (hours_old : Z) : list Job :=
  let all_jobs := [] in
  let all_jobs := collect_tunisia w search_term all_jobs in
  collect_international w search_term keywords hours_old all_jobs.

(** "Calculate match scores": the filter is on [score], the stored value
    is [round(score, 2)]. *)
Fixpoint score_loop (cv_data : CvData) (min_score : Q) (all_jobs : list Job)
    (matched_jobs : list Job) : exc (list Job) :=
  match all_jobs with
  | [] => Ok matched_jobs
  | job :: rest =>
      score <-! calculate_match_score job cv_data;
      if Qle_bool min_score score
      then score_loop cv_data min_score rest
             (matched_jobs ++ [set_match_score job (round2 score)])
      else score_loop cv_data min_score rest matched_jobs
  end.

(** [x['match_score']] *)
Definition get_match_score (job : Job) : exc Q :=
  match match_score job with
  | Some v => Ok v
  | None => Raise (KeyError "match_score")
  end.

(** [[f(x) for x in l]] for an [f] that may raise *)
Fixpoint map_exc {A B} (f : A -> exc B) (l : list A) : exc (list B) :=
  match l with
  | [] => Ok []
  | x :: r => y <-! f x; ys <-! map_exc f r; Ok (y :: ys)
  end.

(** [list.sort(key=..., reverse=True)] is a stable sort: the result is in
    descending key order and elements with equal keys keep their
    original order.  Written as an insertion sort, which is the one
    function with that property. *)
Section StableSort.
Context {A : Type} (key : A -> Q).

Fixpoint insert_desc (x : A) (l : list A) : list A :=
  match l with
  | [] => [x]
  | y :: r =>
      if Qle_bool (key y) (key x) then x :: y :: r
      else y :: insert_desc x r
  end.

Definition sort_desc (l : list A) : list A := foldr insert_desc [] l.
End StableSort.

(** [matched_jobs.sort(key=lambda x: x['match_score'], reverse=True)]:
    the keys are computed first (and may raise), then the list is sorted
    on them. *)
Definition sort_by_match_score (matched_jobs : list Job) : exc (list Job) :=
  keys <-! map_exc get_match_score matched_jobs;
  Ok (map snd (sort_desc fst (zip keys matched_jobs))).

Definition dedup_key (job : Job) : string * string :=
  (PyStr.lower (default "" (title job)), PyStr.lower (default "" (company job))).

(** "Remove duplicates based on title+company" *)
Fixpoint dedup_loop (jobs : list Job) (seen : gset (string * string))
    (unique_jobs : list Job) : list Job :=
  match jobs with
  | [] => unique_jobs
  | job :: rest =>
      let key := dedup_key job in
      if decide (key ∈ seen) then dedup_loop rest seen unique_jobs
      else dedup_loop rest ({[key]} ∪ seen) (unique_jobs ++ [job])
  end.

(** [scrape_and_match] after the collection phase (from
    [if not all_jobs] to the [return]). *)
Definition rank_jobs (cv_data : CvData) (min_score : Q) (max_results : Z)
    (all_jobs : list Job) : exc (list Job) :=
  if negb (nonempty_list all_jobs) then Ok []
  else
    matched_jobs <-! score_loop cv_data min_score all_jobs [];
    matched_jobs <-! sort_by_match_score matched_jobs;
    let unique_jobs := dedup_loop matched_jobs ∅ [] in
    Ok (slice_to max_results unique_jobs).

Definition scrape_and_match (w : World) (cv_json_path : string) (min_score : Q)
    (max_results : Z) (hours_old : Z) : exc (list Job) :=
  cv_data <-! load_cv_profile w cv_json_path;
  let keywords := extract_search_keywords cv_data in
  search_term <-! build_search_term keywords;
  let all_jobs := collect_all w search_term keywords hours_old in
  rank_jobs cv_data min_score max_results all_jobs.

(* ===================================================================== *)
(** ** Vocabulary of the statements *)
(* ===================================================================== *)

(** What each block of [calculate_match_score] adds, read off the block
    started from zero. *)
Definition presence_signal (job : Job) : Q := check_presence job 0.

Definition domain_signal (text : string) (cv_data : CvData) : Q :=
  match check_domains text cv_data 0 with Ok r => r | Raise _ => 0%Q end.

Definition location_signal (job : Job) : Q := check_location job 0.

Definition title_signal (job : Job) (cv_data : CvData) : Q :=
  match check_title job cv_data 0 with Ok r => r | Raise _ => 0%Q end.

(** a string field that is absent or empty *)
Definition no_text (o : option string) : Prop := o = None \/ o = Some "".

(** the profile declares no domains: key absent at either level, or [[]] *)
Definition no_domains (cv_data : CvData) : Prop :=
  match job_search_intent cv_data with
  | None => True
  | Some intent => domains intent = None \/ domains intent = Some []
  end.

(** the profile declares no technical skills *)
Definition no_skills (cv_data : CvData) : Prop :=
  match skills cv_data with
  | None => True
  | Some sk => technical sk = None \/ technical sk = Some []
  end.

(** the stored score of a ranked entry ([0] stands for an absent key) *)
Definition stored_score (job : Job) : Q := default 0%Q (match_score job).

(** What the scoring loop does with one posting: drop it when its score
    is below [min_score], else keep it with the rounded score stored. *)
Definition score_entry (cv_data : CvData) (min_score : Q) (job : Job) : option Job :=
  match calculate_match_score job cv_data with
  | Ok score =>
      if Qle_bool min_score score then Some (set_match_score job (round2 score))
      else None
  | Raise _ => None
  end.

(** The duplicate filter as a function of the keys already seen. *)
Fixpoint firsts (seen : gset (string * string)) (jobs : list Job) : list Job :=
  match jobs with
  | [] => []
  | job :: rest =>
      if decide (dedup_key job ∈ seen) then firsts seen rest
      else job :: firsts ({[dedup_key job]} ∪ seen) rest
  end.

(** The list [scrape_and_match] sorts, and the list it deduplicates. *)
Definition matched_of (cv_data : CvData) (min_score : Q) (all_jobs : list Job)
    : list Job :=
  omap (score_entry cv_data min_score) all_jobs.

Definition sorted_of (cv_data : CvData) (min_score : Q) (all_jobs : list Job)
    : list Job :=
  sort_desc stored_score (matched_of cv_data min_score all_jobs).

(** [e] is posting [job] with its rounded score stored. *)
Definition ranked_from (cv_data : CvData) (job e : Job) : Prop :=
  exists s, calculate_match_score job cv_data = Ok s /\
            e = set_match_score job (round2 s).

#[global] Instance Qeq_decision (x y : Q) : Decision (x == y)%Q := Qeq_dec x y.

(** *** Sources *)

(** The sources in the order [scrape_and_match] visits them. *)
Inductive Source : Type :=
  | Emploi | Tanitjobs | Keejob
  | LinkedIn | IndeedUSA | IndeedFrance | ZipRecruiter.

Definition all_sources : list Source :=
  [Emploi; Tanitjobs; Keejob; LinkedIn; IndeedUSA; IndeedFrance; ZipRecruiter].

(** Whether [scrape_and_match] visits the source at all. *)
Definition source_enabled (w : World) (s : Source) : bool :=
  match s with
  | Emploi | Tanitjobs | Keejob => SELENIUM_AVAILABLE w
  | LinkedIn | IndeedUSA | IndeedFrance | ZipRecruiter => JOBSPY_AVAILABLE w
  end.

(** The posting of one raw item, if it yields one. *)
Definition emploi_posting (scraped : string) (card : EmploiCard) : option Job :=
  match e_parent card with
  | Ok (Some c) => _parse_emploi_tn_job scraped c (Some card)
  | Ok None | Raise _ => None
  end.

Definition tanit_posting (scraped : string) (card : exc TanitCard) : option Job :=
  match card with
  | Ok c => _parse_tanitjobs_job scraped c
  | Raise _ => None
  end.

Definition keejob_posting (scraped : string) (card : KeejobCard) : option Job :=
  match k_parent card with
  | Ok (Some c) => _parse_keejob_job scraped c (Some card)
  | Ok None | Raise _ => None
  end.

Definition jobspy_postings (scraped site_name : string) (df : option (list Row))
    : list Job :=
  match df with
  | Some rows => map (jobspy_job scraped site_name) rows
  | None => []
  end.

(** The fetch of one source taken alone: the error it fails with, or the
    postings its raw result yields. *)
Definition source_outcome (w : World) (search_term : string) (keywords : Keywords)
    (hours_old : Z) (s : Source) : exc (list Job) :=
  let loc := str_or (kw_location keywords) "Tunisia" in
  match s with
  | Emploi =>
      cards <-! emploi_page w search_term;
      Ok (omap (emploi_posting (now w)) (take 30 cards))
  | Tanitjobs =>
      page <-! tanit_page w search_term;
      Ok (omap (tanit_posting (now w))
               (first_nonempty (take 30 (tp_job_item page))
                               (take 30 (tp_offer page))
                               (take 30 (tp_article page))))
  | Keejob =>
      cards <-! keejob_page w search_term;
      Ok (omap (keejob_posting (now w)) (take 30 cards))
  | LinkedIn =>
      df <-! scrape_jobs w (linkedin_query search_term loc 50 hours_old);
      Ok (jobspy_postings (now w) "LinkedIn" df)
  | IndeedUSA =>
      df <-! scrape_jobs w (indeed_usa_query search_term 50 hours_old);
      Ok (jobspy_postings (now w) "Indeed USA" df)
  | IndeedFrance =>
      df <-! scrape_jobs w (indeed_france_query search_term 50 hours_old);
      Ok (jobspy_postings (now w) "Indeed France" df)
  | ZipRecruiter =>
      df <-! scrape_jobs w (ziprecruiter_query search_term 50 hours_old);
      Ok (jobspy_postings (now w) "ZipRecruiter" df)
  end.

(** What a source adds to the collected list: its postings when it is
    visited and its fetch succeeds, nothing otherwise. *)
Definition contribution (w : World) (search_term : string) (keywords : Keywords)
    (hours_old : Z) (s : Source) : list Job :=
  if source_enabled w s then
    match source_outcome w search_term keywords hours_old s with
    | Ok jobs => jobs
    | Raise _ => []
    end
  else [].

(** a posting with a title that is present and not empty *)
Definition has_title (job : Job) : Prop :=
  exists t, title job = Some t /\ t <> "".

(* ===================================================================== *)
(** ** Concrete inputs *)
(* ===================================================================== *)

(** A profile whose title has five words and whose first domain has two. *)
Definition kw_web : Keywords :=
  {| kw_title := "Senior Full Stack Software Engineer";
     kw_domains := ["web development"; "cloud"];
     kw_skills := ["Python"]; kw_location := "" |}.

(** A posting and a profile with every key absent. *)
Definition bare_job : Job :=
  {| title := None; company := None; location := None; description := None;
     url := None; site := None; date_posted := None; is_remote := None;
     scraped_at := None; match_score := None |}.

Definition bare_cv : CvData :=
  {| cv_title := None; job_search_intent := None; skills := None |}.

(** A profile with three technical skills and a posting that names the
    first and one word of the second. *)
Definition skills_cv : CvData :=
  {| cv_title := None; job_search_intent := None;
     skills := Some {| technical :=
                         Some ["Python"; "Machine Learning"; "Kubernetes"] |} |}.

Definition python_job : Job :=
  {| title := Some "Python developer"; company := Some "Acme";
     location := Some "Paris";
     description := Some "deep learning pipelines";
     url := None; site := None; date_posted := None; is_remote := None;
     scraped_at := None; match_score := None |}.

(** A run with JobSpy only.  LinkedIn returns four rows, the Indeed USA
    search raises, Indeed France returns one row with an empty title,
    ZipRecruiter returns nothing. *)
Definition row (t c l : string) : Row :=
  {| r_title := Some t; r_company := Some c; r_location := Some l;
     r_description := Some ""; r_job_url := Some ""; r_date_posted := Some "";
     r_is_remote := Some false |}.

Definition linkedin_rows : list Row :=
  [ row "alpha engineer" "Acme" "Paris";
    row "Alpha Engineer" "ACME" "Tunis";
    row "gamma analyst" "Beta" "Lyon";
    row "betas tester" "Gamma" "Nice" ].

Definition empty_title_row : Row := row "" "Zed" "Lille".

Definition demo_cv : CvData :=
  {| cv_title := Some "alpha betas gamma"; job_search_intent := None;
     skills := None |}.

Definition demo_scrape_jobs (q : JobSpyQuery) : exc (option (list Row)) :=
  match q_site_name q, q_country_indeed q with
  | [s], None =>
      if String.eqb s "linkedin" then Ok (Some linkedin_rows) else Ok None
  | [_], Some c =>
      if String.eqb c "USA" then Raise (OtherException "timeout")
      else Ok (Some [empty_title_row])
  | _, _ => Ok None
  end.

Definition demo_world : World :=
  {| SELENIUM_AVAILABLE := false; JOBSPY_AVAILABLE := true;
     now := "2024-01-01T00:00:00";
     load_cv_profile := fun _ => Ok demo_cv;
     emploi_page := fun _ => Raise (OtherException "no browser");
     tanit_page := fun _ => Raise (OtherException "no browser");
     keejob_page := fun _ => Raise (OtherException "no browser");
     scrape_jobs := demo_scrape_jobs |}.

(** the posting built from a row of the run, with a stored score *)
Definition demo_entry (site_name : string) (r : Row) (v : Q) : Job :=
  set_match_score (jobspy_job "2024-01-01T00:00:00" site_name r) v.

(** what the run returns for [min_score = 13] and [max_results = 50] *)
Definition demo_result : list Job :=
  [ demo_entry "LinkedIn" (row "Alpha Engineer" "ACME" "Tunis") (round2 (85 # 3));
    demo_entry "LinkedIn" (row "gamma analyst" "Beta" "Lyon") (round2 (40 # 3));
    demo_entry "LinkedIn" (row "betas tester" "Gamma" "Nice") (round2 (40 # 3)) ].

(** The ranking example of the design notes: a security profile, a
    matching posting and an unrelated one. *)
Definition security_cv : CvData :=
  {| cv_title := None;
     job_search_intent :=
       Some {| domains := Some ["cybersecurity"]; location_preference := None |};
     skills := Some {| technical := Some ["Python"; "Linux"; "SQL"] |} |}.

Definition posting_a : Job :=
  {| title := Some "Python Security Engineer"; company := Some "Acme";
     location := Some "Paris";
     description := Some "Linux hardening and network security";
     url := None; site := None; date_posted := None; is_remote := None;
     scraped_at := None; match_score := None |}.

Definition posting_b : Job :=
  {| title := Some "Sales Associate"; company := Some "Shop";
     location := Some "Paris"; description := Some "Retail floor";
     url := None; site := None; date_posted := None; is_remote := None;
     scraped_at := None; match_score := None |}.

(** no white space in a string *)
Fixpoint no_space (s : string) : bool :=
  match s with
  | EmptyString => true
  | String c r => negb (PyStr.is_space c) && no_space r
  end.

(* ===================================================================== *)
(** ** Reporting: command line and saved document *)
(* ===================================================================== *)

(** [d[k]] on a key that may be absent *)
Definition get_key {A} (k : string) (o : option A) : exc A :=
  match o with
  | Some v => Ok v
  | None => Raise (KeyError k)
  end.

(** What [main] prints for one job of the top ten: the fields it reads
    with [job[...]], and the url cut to 80 characters when there is a
    non-empty one. *)
Record Shown := {
  sh_score : Q;
  sh_title : string;
  sh_company : string;
  sh_location : string;
  sh_site : string;
  sh_url : option string
}.

Definition show_job (job : Job) : exc Shown :=
  score <-! get_key "match_score" (match_score job);
  t <-! get_key "title" (title job);
  c <-! get_key "company" (company job);
  l <-! get_key "location" (location job);
  s <-! get_key "site" (site job);
  if PyStr.nonempty (default "" (url job))
  then u <-! get_key "url" (url job);
       Ok {| sh_score := score; sh_title := t; sh_company := c; sh_location := l;
             sh_site := s; sh_url := Some (PyStr.take_str 80 u) |}
  else Ok {| sh_score := score; sh_title := t; sh_company := c; sh_location := l;
             sh_site := s; sh_url := None |}.

(** [for i, job in enumerate(matched_jobs[:10], 1): print(...)] *)
Definition show_top (matched_jobs : list Job) : exc (list Shown) :=
  map_exc show_job (slice_to 10 matched_jobs).

(** one iteration of the grouping loop of [save_results] *)
Definition count_site (sources : gmap string Z) (job : Job) : gmap string Z :=
  let site_name := default "Unknown" (site job) in
  <[site_name := (default 0%Z (sources !! site_name) + 1)%Z]> sources.

(** "Group jobs by source for summary" *)
Definition sources_summary (jobs : list Job) : gmap string Z :=
  foldl count_site ∅ jobs.

(** The document [save_results] hands to [json.dump]. *)
Record Output := {
  search_date : string;
  total_matches : Z;
  out_sources_summary : gmap string Z;
  source_info : string;
  out_jobs : list Job
}.

Definition save_results (w : World) (jobs : list Job) : Output :=
  {| search_date := now w;
     total_matches := Z.of_nat (length jobs);
     out_sources_summary := sources_summary jobs;
     source_info :=
       "Tunisia: Emploi.tn, Tanitjobs, Keejob | International: LinkedIn, Indeed, ZipRecruiter";
     out_jobs := jobs |}.

(** [sum(...)] of numbers, left to right from 0 *)
Definition py_sum_Q (l : list Q) : Q := foldl Qplus 0%Q l.

(** The summary statistics of the result page of [app.py]: under
    [if jobs:], the number of jobs, the average match, the number of
    matches of 70 and more, and the number of jobs located in Tunisia. *)
Record Statistics := {
  st_total : Z;
  st_avg_score : Q;
  st_high_match : Z;
  st_tunisia_jobs : Z
}.

Definition summary_statistics (jobs : list Job) : exc (option Statistics) :=
  if nonempty_list jobs then
    avg_score <-! py_div (py_sum_Q (map (fun job => default 0%Q (match_score job)) jobs))
                         (len jobs);
    let high_match :=
      length (List.filter (fun j => Qle_bool 70 (default 0%Q (match_score j))) jobs) in
    let tunisia_jobs :=
      length (List.filter
                (fun j => PyStr.str_in "tunis" (PyStr.lower (default "" (location j))))
                jobs) in
    Ok (Some {| st_total := Z.of_nat (length jobs); st_avg_score := avg_score;
                st_high_match := Z.of_nat high_match;
                st_tunisia_jobs := Z.of_nat tunisia_jobs |})
  else Ok None.

(** *** More vocabulary *)

(** a string made of white space only (the empty string included) *)
Fixpoint blank (s : string) : bool :=
  match s with
  | EmptyString => true
  | String c r => PyStr.is_space c && blank r
  end.

(** the title test of [build_search_term] fails *)
Definition title_unusable (keywords : Keywords) : Prop :=
  kw_title keywords = "" \/ (4 < length (PyStr.split (kw_title keywords)))%nat.

Definition skill_signal (text : string) (cv_data : CvData) : Q :=
  match check_skills text cv_data 0 with Ok r => r | Raise _ => 0%Q end.

(** the [site] value each source writes *)
Definition site_label (s : Source) : string :=
  match s with
  | Emploi => "Emploitunisie.com"
  | Tanitjobs => "Tanitjobs"
  | Keejob => "Keejob"
  | LinkedIn => "LinkedIn"
  | IndeedUSA => "Indeed USA"
  | IndeedFrance => "Indeed France"
  | ZipRecruiter => "ZipRecruiter"
  end.

Definition is_tunisia_source (s : Source) : bool :=
  match s with
  | Emploi | Tanitjobs | Keejob => true
  | _ => false
  end.

(** the posting with its three text fields in lower case *)
Definition lower_posting (job : Job) : Job :=
  {| title := PyStr.lower <$> title job; company := company job;
     location := PyStr.lower <$> location job;
     description := PyStr.lower <$> description job;
     url := url job; site := site job; date_posted := date_posted job;
     is_remote := is_remote job; scraped_at := scraped_at job;
     match_score := match_score job |}.

(** [job['is_remote'] = v] *)
Definition set_is_remote (job : Job) (v : bool) : Job :=
  {| title := title job; company := company job; location := location job;
     description := description job; url := url job; site := site job;
     date_posted := date_posted job; is_remote := Some v;
     scraped_at := scraped_at job; match_score := match_score job |}.

(** *** The postings of the collectors, written out *)

(** every key a collector writes is there, and no score yet *)
Definition complete_posting (job : Job) : Prop :=
  is_Some (title job) /\ is_Some (company job) /\ is_Some (location job) /\
  is_Some (description job) /\ is_Some (url job) /\ is_Some (site job) /\
  is_Some (date_posted job) /\ is_Some (scraped_at job) /\
  match_score job = None.

(** [href] made absolute against the site *)
Definition absolute_url (base href : string) : string :=
  if PyStr.startswith href "http" then href else base +:+ href.

Definition emploi_patterns : list string :=
  ["Tunis"; "Sfax"; "Sousse"; "Ariana"; "Nabeul"; "Monastir"; "Lac"].

Definition keejob_patterns : list string :=
  ["Tunis"; "Sfax"; "Sousse"; "Ariana"; "Nabeul"; "Monastir"; "Ben Arous"].

(** the first pattern, in list order, that occurs in the text *)
Definition first_pattern (patterns : list string) (text : string) : option string :=
  List.find (fun loc => PyStr.str_in loc text) patterns.

(** the first pattern of the first stripped text node that has one *)
Fixpoint first_hit (patterns : list string) (texts : list string) : option string :=
  match texts with
  | [] => None
  | t :: rest =>
      match first_pattern patterns (PyStr.strip t) with
      | Some loc => Some loc
      | None => first_hit patterns rest
      end
  end.

Definition cut_description (desc_elem : option string) : string :=
  match desc_elem with
  | Some d => PyStr.take_str 500 d
  | None => ""
  end.

Definition emploi_job (scraped : string) (card : EmploiContainer) (link : Anchor) : Job :=
  {| title := Some (a_text link);
     company := Some (default "" (ec_company card));
     location := Some (default "Tunisie" (first_pattern emploi_patterns (ec_text card)));
     description := Some (cut_description (ec_desc card));
     url := Some (absolute_url "https://www.emploitunisie.com" (a_href link));
     site := Some "Emploitunisie.com";
     date_posted := Some ""; is_remote := None;
     scraped_at := Some scraped; match_score := None |}.

Definition keejob_job (scraped : string) (card : KeejobContainer) (link : Anchor) : Job :=
  {| title := Some (a_text link);
     company := Some (default "" (kc_company card));
     location := Some (default "Tunisie" (first_hit keejob_patterns (kc_strings card)));
     description := Some (cut_description (kc_desc card));
     url := Some (absolute_url "https://www.keejob.com" (a_href link));
     site := Some "Keejob";
     date_posted := Some ""; is_remote := None;
     scraped_at := Some scraped; match_score := None |}.

Definition tanit_job (scraped : string) (card : TanitCard) (title_elem : TanitTitle) : Job :=
  {| title := Some (tt_text title_elem);
     company := Some (default "" (t_company card));
     location := Some (match t_location card with
                       | Some l => PyStr.strip l
                       | None => "Tunisie"
                       end);
     description := Some (cut_description (t_desc card));
     url := Some (if String.eqb (tt_name title_elem) "a"
                     && PyStr.nonempty (default "" (tt_href title_elem))
                  then absolute_url "https://www.tanitjobs.com"
                         (default "" (tt_href title_elem))
                  else "");
     site := Some "Tanitjobs";
     date_posted := Some ""; is_remote := None;
     scraped_at := Some scraped; match_score := None |}.

(** An Emploitunisie.com card whose text names two listed cities. *)
Definition demo_container : EmploiContainer :=
  {| ec_company := Some "Acme";
     ec_text := "Developpeur web - Sfax, Tunisie";
     ec_desc := Some "Stage de fin d'etudes" |}.

Definition demo_heading : EmploiCard :=
  {| e_link := Some {| a_text := "Developpeur web"; a_href := "/offre/42" |};
     e_parent := Ok (Some demo_container) |}.

(** the profile with its title, domains and technical skills in lower case *)
Definition lower_cv (cv_data : CvData) : CvData :=
  {| cv_title := PyStr.lower <$> cv_title cv_data;
     job_search_intent :=
       (fun intent =>
          {| domains := map PyStr.lower <$> domains intent;
             location_preference := location_preference intent |})
       <$> job_search_intent cv_data;
     skills :=
       (fun sk => {| technical := map PyStr.lower <$> technical sk |})
       <$> skills cv_data |}.

(** [job.get('site', 'Unknown')] *)
Definition site_of (job : Job) : string := default "Unknown" (site job).

(** how many jobs of the list have the given site *)
Definition count_of_site (k : string) (jobs : list Job) : nat :=
  length (filter (fun job => site_of job = k) jobs).

(** the sum of the counts of a summary *)
Definition sum_counts (sources : gmap string Z) : Z :=
  map_fold (fun _ count acc => (count + acc)%Z) 0%Z sources.

(** A run with the browser only: the Emploitunisie.com page has the
    heading above and a heading without link, the two other sites fail. *)
Definition tunisia_world : World :=
  {| SELENIUM_AVAILABLE := true; JOBSPY_AVAILABLE := false;
     now := "2024-01-01T00:00:00";
     load_cv_profile := fun _ => Ok demo_cv;
     emploi_page := fun _ =>
       Ok [demo_heading; {| e_link := None; e_parent := Ok (Some demo_container) |}];
     tanit_page := fun _ => Raise (OtherException "timeout");
     keejob_page := fun _ => Raise (OtherException "timeout");
     scrape_jobs := fun _ => Raise (OtherException "not installed") |}.

(** the profile with its technical skills replaced *)
Definition with_technical (cv_data : CvData) (tech : list string) : CvData :=
  {| cv_title := cv_title cv_data;
     job_search_intent := job_search_intent cv_data;
     skills := Some {| technical := Some tech |} |}.

(** A run in which the browser is missing and every JobSpy search fails. *)
Definition silent_world : World :=
  {| SELENIUM_AVAILABLE := false; JOBSPY_AVAILABLE := true;
     now := "2024-01-01T00:00:00";
     load_cv_profile := fun _ => Ok demo_cv;
     emploi_page := fun _ => Raise (OtherException "no browser");
     tanit_page := fun _ => Raise (OtherException "no browser");
     keejob_page := fun _ => Raise (OtherException "no browser");
     scrape_jobs := fun _ => Raise (OtherException "rate limited") |}.

(* ===================================================================== *)
(** ** The application: cleaning data before it is saved (app.py) *)
(* ===================================================================== *)

(** A Python value as [json.load] and the scraper produce them. *)
#[local] Unset Elimination Schemes.
Inductive json : Type :=
  | JNone
  | JBool (b : bool)
  | JInt (z : Z)
  | JFloat (x : Q)
  | JStr (s : string)
  | JList (items : list json)
  | JDict (items : list (string * json)).
#[local] Set Elimination Schemes.

Section CleanJson.
(** [str(n)] on numbers and the round trip
    [s.encode('utf-8', 'ignore').decode('utf-8')] are taken as given. *)
Variable str_int : Z -> string.
Variable str_float : Q -> string.
Variable utf8_ignore : string -> string.

(** The [isinstance] chain of [clean_json_data]: [bool] is a subclass of
    [int], so a boolean takes the number branch. *)
Fixpoint clean_json_data (data : json) : json :=
  match data with
  | JDict items =>
      JDict (map (fun kv => (fst kv, clean_json_data (snd kv))) items)
  | JList items => JList (map clean_json_data items)
  | JStr s => JStr (utf8_ignore s)
  | JInt z => JStr (str_int z)
  | JFloat x => JStr (str_float x)
  | JBool b => JStr (if b then "True" else "False")
  | JNone => JStr ""
  end.
End CleanJson.

(** every leaf is a string *)
Fixpoint only_strings (data : json) : bool :=
  match data with
  | JStr _ => true
  | JList items => forallb only_strings items
  | JDict items => forallb (fun kv => only_strings (snd kv)) items
  | _ => false
  end.

(** the keys of dictionaries and the lengths of lists, position by position *)
Fixpoint same_shape (a b : json) : bool :=
  match a, b with
  | JDict xs, JDict ys =>
      (fix go (xs : list (string * json)) (ys : list (string * json)) : bool :=
         match xs, ys with
         | [], [] => true
         | x :: xs', y :: ys' =>
             String.eqb (fst x) (fst y) && same_shape (snd x) (snd y) && go xs' ys'
         | _, _ => false
         end) xs ys
  | JList xs, JList ys =>
      (fix go (xs ys : list json) : bool :=
         match xs, ys with
         | [], [] => true
         | x :: xs', y :: ys' => same_shape x y && go xs' ys'
         | _, _ => false
         end) xs ys
  | JDict _, _ | JList _, _ => false
  | _, JDict _ | _, JList _ => false
  | _, _ => true
  end.

(** a string that the round trip through UTF-8 leaves as it is *)
Definition encodable (utf8_ignore : string -> string) (s : string) : Prop :=
  utf8_ignore s = s.

(** a result list as the application hands it to [save_jobs_to_folder] *)
Definition demo_saved : json :=
  JList [ JDict [ ("title", JStr "Alpha Engineer"); ("is_remote", JBool true);
                  ("date_posted", JNone); ("match_score", JFloat (2833 # 100)) ];
          JDict [ ("title", JStr "gamma analyst"); ("is_remote", JBool false);
                  ("hours_old", JInt 720); ("match_score", JFloat (1333 # 100)) ] ].

(** stand-ins for [str] on numbers, enough to run the cleaning *)
Definition demo_str_int (z : Z) : string :=
  if (z =? 720)%Z then "720" else "0".

Definition demo_str_float (x : Q) : string :=
  if Qeq_bool x (2833 # 100) then "28.33" else "13.33".

(* ===================================================================== *)
(** ** Values that are not text *)
(* ===================================================================== *)

(** What a cell of a JobSpy data frame, a value of a posting dictionary
    or the [title] of a profile read from JSON can hold besides text: a
    truth value, [None] (JSON [null]), or the float [nan] that pandas
    writes for a missing value. *)
Inductive cell : Type :=
  | CStr (s : string)
  | CBool (b : bool)
  | CNone
  | CNaN.

(** [str(c)], which is also what an f-string writes *)
Definition py_str (c : cell) : string :=
  match c with
  | CStr s => s
  | CBool true => "True"
  | CBool false => "False"
  | CNone => "None"
  | CNaN => "nan"
  end.

(** [bool(c)] *)
Definition truthy (c : cell) : bool :=
  match c with
  | CStr s => PyStr.nonempty s
  | CBool b => b
  | CNone => false
  | CNaN => true
  end.

(** [c.lower()]: only [str] has the method *)
Definition cell_lower (c : cell) : exc string :=
  match c with
  | CStr s => Ok (PyStr.lower s)
  | _ => Raise AttributeError
  end.

(** the value is there and is not text *)
Definition not_text (o : option cell) : Prop :=
  match o with
  | Some (CStr _) | None => False
  | Some _ => True
  end.

(** the profile as the domain and skill blocks read it: they do not look
    at its title *)
Definition declared_part (intent : option Intent) (sk : option Skills) : CvData :=
  {| cv_title := None; job_search_intent := intent; skills := sk |}.

(** The converter and the scorer on such values.  The records are those
    above with a [cell] where they have a string. *)
Module Raw.

Record Row := {
  r_title : option cell;
  r_company : option cell;
  r_location : option cell;
  r_description : option cell;
  r_job_url : option cell;
  r_date_posted : option cell;
  r_is_remote : option cell
}.

Record Job := {
  title : option cell;
  company : option cell;
  location : option cell;
  description : option cell;
  url : option cell;
  site : option cell;
  date_posted : option cell;
  is_remote : option cell;
  scraped_at : option cell;
  match_score : option Q
}.

Record CvData := {
  cv_title : option cell;
  job_search_intent : option Intent;
  skills : option Skills
}.

(** the dictionary built for one row: [title], [company], [location]
    and [job_url] are copied as they are, [description] and
    [date_posted] go through [str], [is_remote] through [bool] *)
Definition jobspy_job (scraped site_name : string) (job : Row) : Job :=
  {| title := Some (default (CStr "N/A") (r_title job));
     company := Some (default (CStr "N/A") (r_company job));
     location := Some (default (CStr "N/A") (r_location job));
     description :=
       Some (CStr (PyStr.take_str 5000
                     (py_str (default (CStr "") (r_description job)))));
     url := Some (default (CStr "") (r_job_url job));
     site := Some (CStr site_name);
     date_posted := Some (CStr (py_str (default (CStr "") (r_date_posted job))));
     is_remote := Some (CBool (truthy (default (CBool false) (r_is_remote job))));
     scraped_at := Some (CStr scraped);
     match_score := None |}.

Definition _convert_jobspy_to_dict (scraped : string) (jobs_df : list Row)
    (site_name : string) : list Job :=
  foldl (fun jobs job => jobs ++ [jobspy_job scraped site_name job]) [] jobs_df.

(** [f"{job.get('title', '')} {job.get('description', '')}".lower()] *)
Definition job_text (job : Job) : string :=
  PyStr.lower (py_str (default (CStr "") (title job)) +:+ " "
               +:+ py_str (default (CStr "") (description job))).

(** [if job.get('title'): score += 10] *)
Definition check_presence (job : Job) (score : Q) : Q :=
  if from_option truthy false (title job) then (score + 10)%Q else score.

(** the part of the profile the domain and skill blocks read *)
Definition declared (cv_data : CvData) :=
  declared_part (job_search_intent cv_data) (skills cv_data).

(** Location bonus (15 points): [.lower()] is called on the value before
    [or] looks at [is_remote] *)
Definition check_location (job : Job) (score : Q) : exc Q :=
  job_location <-! cell_lower (default (CStr "") (location job));
  if PyStr.str_in "tunis" job_location || from_option truthy false (is_remote job)
  then Ok (score + 15)%Q else Ok score.

(** Title match (10 points) *)
Definition check_title (job : Job) (cv_data : CvData) (score : Q) : exc Q :=
  cv_title <-! cell_lower (default (CStr "") (cv_title cv_data));
  job_title <-! cell_lower (default (CStr "") (title job));
  if PyStr.nonempty cv_title && PyStr.nonempty job_title then
    let title_words :=
      List.filter (fun w => (3 <? String.length w)%nat) (PyStr.split cv_title) in
    if nonempty_list title_words then
      let matching := count_matching title_words job_title in
      r <-! py_div (inject_Z matching) (len title_words);
      Ok (score + r * 10)%Q
    else Ok score
  else Ok score.

Definition calculate_match_score (job : Job) (cv_data : CvData) : exc Q :=
  let score := 0%Q in
  let text := job_text job in
  let score := check_presence job score in
  score <-! check_domains text (declared cv_data) score;
  score <-! check_skills text (declared cv_data) score;
  score <-! check_location job score;
  score <-! check_title job cv_data score;
  Ok (py_min score 100).

End Raw.

(** a posting and a profile made of text, as values of the wider types *)
Definition of_row (r : Row) : Raw.Row :=
  {| Raw.r_title := CStr <$> r_title r;
     Raw.r_company := CStr <$> r_company r;
     Raw.r_location := CStr <$> r_location r;
     Raw.r_description := CStr <$> r_description r;
     Raw.r_job_url := CStr <$> r_job_url r;
     Raw.r_date_posted := CStr <$> r_date_posted r;
     Raw.r_is_remote := CBool <$> r_is_remote r |}.

Definition of_job (job : Job) : Raw.Job :=
  {| Raw.title := CStr <$> title job;
     Raw.company := CStr <$> company job;
     Raw.location := CStr <$> location job;
     Raw.description := CStr <$> description job;
     Raw.url := CStr <$> url job;
     Raw.site := CStr <$> site job;
     Raw.date_posted := CStr <$> date_posted job;
     Raw.is_remote := CBool <$> is_remote job;
     Raw.scraped_at := CStr <$> scraped_at job;
     Raw.match_score := match_score job |}.

Definition of_cv (cv_data : CvData) : Raw.CvData :=
  {| Raw.cv_title := CStr <$> cv_title cv_data;
     Raw.job_search_intent := job_search_intent cv_data;
     Raw.skills := skills cv_data |}.

(** A LinkedIn row without location: the cell holds [None]. *)
Definition no_location_row : Raw.Row :=
  {| Raw.r_title := Some (CStr "Alpha Engineer");
     Raw.r_company := Some (CStr "ACME");
     Raw.r_location := Some CNone;
     Raw.r_description := Some (CStr "alpha work");
     Raw.r_job_url := Some (CStr "https://example.org/1");
     Raw.r_date_posted := Some (CStr "2024-01-01");
     Raw.r_is_remote := Some (CBool false) |}.

(** ** Profiles used in the statements on errors and letter case *)

(** A profile with a long title whose first domain is white space. *)
Definition blank_domain_cv : CvData :=
  {| cv_title := Some "Senior Full Stack Software Engineer";
     job_search_intent :=
       Some {| domains := Some ["  "; "web development"];
               location_preference := None |};
     skills := Some {| technical := Some ["Python"] |} |}.

Definition blank_domain_world : World :=
  {| SELENIUM_AVAILABLE := false; JOBSPY_AVAILABLE := true;
     now := "2024-01-01T00:00:00";
     load_cv_profile := fun _ => Ok blank_domain_cv;
     emploi_page := fun _ => Raise (OtherException "no browser");
     tanit_page := fun _ => Raise (OtherException "no browser");
     keejob_page := fun _ => Raise (OtherException "no browser");
     scrape_jobs := demo_scrape_jobs |}.

(** every character of the string is in the ASCII range *)
Definition is_ascii (s : string) : bool :=
  forallb (fun c => (nat_of_ascii c <? 128)%nat) (list_ascii_of_string s).

(** The domains of the profile are ASCII text.  The domain block tests
    [len(w) > 4] on a word before it lowers it, and on ASCII text
    [str.lower] keeps the length of a word. *)
Definition ascii_domains (cv_data : CvData) : bool :=
  match job_search_intent cv_data with
  | Some intent => forallb is_ascii (default [] (domains intent))
  | None => true
  end.

Definition upper_case_cv : CvData :=
  {| cv_title := Some "Security Engineer";
     job_search_intent :=
       Some {| domains := Some ["Network SECURITY"]; location_preference := None |};
     skills := Some {| technical := Some ["Python"; "LINUX"; "SQL"] |} |}.

(* ===================================================================== *)
(** * Properties *)
(* ===================================================================== *)

(** ** Strings *)

Lemma startswith_spec (p s : string) :
  PyStr.startswith s p = true <-> exists b, s = p +:+ b.
Proof.
  revert s. induction p as [|a p IH]; intros s; simpl.
  - split; [intros _; exists s; reflexivity | reflexivity].
  - destruct s as [|b s]; simpl.
    + split; [discriminate | intros [x Hx]; discriminate].
    + rewrite andb_true_iff, Ascii.eqb_eq, IH. split.
      * intros [-> [x ->]]. exists x. reflexivity.
      * intros [x Hx]. injection Hx as -> ->. split; [reflexivity | eauto].
Qed.

(** [p in s] holds exactly when [s] is [a + p + b] for some [a], [b]. *)
Lemma str_in_spec (p s : string) :
  PyStr.str_in p s = true <-> exists a b, s = a +:+ p +:+ b.
Proof.
  induction s as [|c s IH].
  - simpl. rewrite orb_false_r, startswith_spec. split.
    + intros [b Hb]. exists "", b. exact Hb.
    + intros [a [b H]]. destruct a; [exists b; exact H | discriminate].
  - cbn [PyStr.str_in]. rewrite orb_true_iff, startswith_spec, IH. split.
    + intros [[b Hb] | [a [b Hab]]].
      * exists "", b. exact Hb.
      * exists (String c a), b. subst s. reflexivity.
    + intros [a [b H]]. destruct a as [|c' a].
      * left. exists b. exact H.
      * right. change (String c s = String c' (a +:+ p +:+ b)) in H.
        injection H as _ ->. eauto.
Qed.

Example lower_example : PyStr.lower "PyThon 3.X" = "python 3.x".
Proof. reflexivity. Qed.

Example split_example :
  PyStr.split "  Senior   Data Engineer " = ["Senior"; "Data"; "Engineer"].
Proof. reflexivity. Qed.

Example split_blank_example : PyStr.split "   " = [].
Proof. reflexivity. Qed.

Example strip_example : PyStr.strip "  Tunis, Lac 2 " = "Tunis, Lac 2".
Proof. reflexivity. Qed.

Example str_in_example :
  PyStr.str_in "learning" "deep learning pipelines" = true /\
  PyStr.str_in "machine" "deep learning pipelines" = false /\
  PyStr.str_in "" "" = true.
Proof. repeat split. Qed.

Example slice_to_example :
  slice_to 2 [1; 2; 3] = [1; 2] /\ slice_to 5 [1; 2; 3] = [1; 2; 3] /\
  slice_to (-1) [1; 2; 3] = [1; 2] /\ slice_to (-7) [1; 2; 3] = [].
Proof. repeat split. Qed.

(** the words of [split] are non-empty and free of white space *)
Lemma split_words (s : string) :
  Forall (fun w => PyStr.nonempty w = true /\ no_space w = true) (PyStr.split s).
Proof.
  induction s as [|c r IH]; [constructor |].
  cbn [PyStr.split]. destruct (PyStr.is_space c) eqn:Hc; [exact IH |].
  destruct (PyStr.starts_word r) eqn:Hr.
  - destruct (PyStr.split r) as [|w ws].
    + constructor; [| constructor]. simpl. rewrite Hc. auto.
    + apply Forall_cons in IH as [[_ Hw] Hws].
      constructor; [| exact Hws]. simpl. rewrite Hc, Hw. auto.
  - constructor; [| exact IH]. simpl. rewrite Hc. auto.
Qed.

(** ** The search term *)

Lemma index0_cons {A} (x : A) (l : list A) : index0 (x :: l) = Ok x.
Proof. reflexivity. Qed.

Lemma nonempty_false (s : string) : PyStr.nonempty s = false <-> s = "".
Proof. destruct s; simpl; split; congruence. Qed.

Lemma nonempty_true (s : string) : PyStr.nonempty s = true <-> s <> "".
Proof. destruct s; simpl; split; congruence. Qed.

Lemma split_cons_nonempty (d w : string) (ws : list string) :
  PyStr.split d = w :: ws -> PyStr.nonempty d = true.
Proof. destruct d; simpl; [discriminate | reflexivity]. Qed.

(** ** Scoring: arithmetic helpers *)

Lemma len_pos {A} (l : list A) : nonempty_list l = true -> (0 < len l)%Q.
Proof.
  destruct l; simpl; [discriminate |]. intros _.
  unfold len, Qlt. simpl. lia.
Qed.

Lemma len_nonneg {A} (l : list A) : (0 <= len l)%Q.
Proof. unfold len, Qle. simpl. lia. Qed.

Lemma py_div_pos (a b : Q) : (0 < b)%Q -> py_div a b = Ok (a / b)%Q.
Proof.
  intros Hb. unfold py_div. destruct (Qeq_bool b 0) eqn:E; [|reflexivity].
  apply Qeq_bool_eq in E. rewrite E in Hb. exfalso. lra.
Qed.

Lemma div_nonneg (a b : Q) : (0 <= a)%Q -> (0 < b)%Q -> (0 <= a / b)%Q.
Proof.
  intros Ha Hb. apply Qle_shift_div_l; [exact Hb |]. lra.
Qed.

Lemma div_le_1 (a b : Q) : (a <= b)%Q -> (0 < b)%Q -> (a / b <= 1)%Q.
Proof.
  intros Ha Hb. apply Qle_shift_div_r; [exact Hb |]. lra.
Qed.

Lemma py_sum_ones_acc {A} (l : list A) (a : Z) :
  foldl Z.add a (map (fun _ => 1%Z) l) = (a + Z.of_nat (length l))%Z.
Proof.
  revert a. induction l as [|x l IH]; intros a; simpl; [lia |].
  rewrite IH. lia.
Qed.

Lemma count_matching_length (kws : list string) (text : string) :
  count_matching kws text =
  Z.of_nat (length (List.filter (fun kw => PyStr.str_in kw text) kws)).
Proof. unfold count_matching, py_sum. rewrite py_sum_ones_acc. lia. Qed.

Lemma filter_length_le {A} (f : A -> bool) (l : list A) :
  (length (List.filter f l) <= length l)%nat.
Proof.
  induction l as [|x l IH]; simpl; [lia |]. destruct (f x); simpl; lia.
Qed.

Lemma count_matching_bounds (kws : list string) (text : string) :
  (0 <= inject_Z (count_matching kws text))%Q /\
  (inject_Z (count_matching kws text) <= len kws)%Q.
Proof.
  rewrite count_matching_length.
  pose proof (filter_length_le (fun kw => PyStr.str_in kw text) kws).
  unfold len, Qle; simpl. lia.
Qed.

Lemma existsb_filter {A} (p f : A -> bool) (l : list A) :
  existsb f (List.filter p l) = existsb (fun w => p w && f w) l.
Proof.
  induction l as [|x l IH]; simpl; [reflexivity |].
  destruct (p x); simpl; rewrite IH; reflexivity.
Qed.

Lemma skill_points_bounds (text skill : string) :
  (0 <= skill_points text skill)%Q /\ (skill_points text skill <= 1)%Q.
Proof.
  unfold skill_points.
  destruct (PyStr.str_in _ text); [split; lra |].
  destruct (existsb _ _); split; lra.
Qed.

Lemma skill_step_points (text : string) (m : Q) (skill : string) :
  (skill_step text m skill == m + skill_points text skill)%Q.
Proof.
  unfold skill_step, skill_points. cbv zeta.
  destruct (PyStr.str_in (PyStr.lower skill) text); [reflexivity |].
  rewrite existsb_filter. destruct (existsb _ _); lra.
Qed.

(** the accumulation loop computes the sum of the per-skill points *)
Lemma skill_loop_sum (text : string) (l : list string) (m : Q) :
  (foldl (skill_step text) m l == m + Qsum (map (skill_points text) l))%Q.
Proof.
  revert m. induction l as [|s l IH]; intros m; simpl; [lra |].
  rewrite IH, skill_step_points. lra.
Qed.

Lemma Qsum_points_bounds (text : string) (l : list string) :
  (0 <= Qsum (map (skill_points text) l))%Q /\
  (Qsum (map (skill_points text) l) <= len l)%Q.
Proof.
  induction l as [|s l [IH1 IH2]]; simpl.
  - split; [lra | apply len_nonneg].
  - pose proof (skill_points_bounds text s) as [H1 H2].
    assert (len (s :: l) == 1 + len l)%Q as ->.
    { unfold len. cbn [length]. rewrite Nat2Z.inj_succ, <- Z.add_1_l, inject_Z_plus.
      reflexivity. }
    split; lra.
Qed.

Lemma slice_to_20 {A} (l : list A) : slice_to 20 l = take 20 l.
Proof. reflexivity. Qed.

(** ** Scoring: each block returns, and adds between 0 and its weight *)

Lemma check_presence_bounds (job : Job) (score : Q) :
  (score <= check_presence job score <= score + 10)%Q.
Proof. unfold check_presence. destruct (PyStr.nonempty _); split; lra. Qed.

Lemma check_location_bounds (job : Job) (score : Q) :
  (score <= check_location job score <= score + 15)%Q.
Proof. unfold check_location. destruct (_ || _); split; lra. Qed.

Lemma fraction_times (m n weight : Q) :
  (0 <= m)%Q -> (m <= n)%Q -> (0 < n)%Q -> (0 <= weight)%Q ->
  (0 <= m / n * weight)%Q /\ (m / n * weight <= weight)%Q.
Proof.
  intros Hm Hmn Hn Hw.
  pose proof (div_nonneg m n Hm Hn). pose proof (div_le_1 m n Hmn Hn).
  split; nra.
Qed.

Lemma check_domains_bounds (text : string) (cv_data : CvData) (score : Q) :
  exists s, check_domains text cv_data score = Ok s /\
            (score <= s)%Q /\ (s <= score + 30)%Q.
Proof.
  unfold check_domains.
  destruct (job_search_intent cv_data) as [intent|];
    [| exists score; repeat split; lra].
  destruct (domains intent) as [doms|]; [| exists score; repeat split; lra].
  destruct (nonempty_list doms); [| exists score; repeat split; lra].
  cbv zeta.
  destruct (nonempty_list (collect_domain_keywords doms)) eqn:Hk;
    [| exists score; repeat split; lra].
  pose proof (len_pos _ Hk) as Hlen.
  rewrite (py_div_pos _ _ Hlen). simpl.
  destruct (count_matching_bounds (collect_domain_keywords doms) text) as [H0 H1].
  destruct (fraction_times _ _ 30 H0 H1 Hlen) as [Ha Hb]; [lra |].
  eexists; split; [reflexivity |]. split; lra.
Qed.

Lemma skill_loop_bounds (text : string) (l : list string) :
  (0 <= foldl (skill_step text) 0 l)%Q /\ (foldl (skill_step text) 0 l <= len l)%Q.
Proof.
  pose proof (skill_loop_sum text l 0) as E.
  pose proof (Qsum_points_bounds text l) as [H1 H2].
  split; lra.
Qed.

Lemma check_skills_bounds (text : string) (cv_data : CvData) (score : Q) :
  exists s, check_skills text cv_data score = Ok s /\
            (score <= s)%Q /\ (s <= score + 35)%Q.
Proof.
  unfold check_skills.
  destruct (skills cv_data) as [sk|]; [| exists score; repeat split; lra].
  destruct (technical sk) as [tech|]; [| exists score; repeat split; lra].
  cbv zeta.
  destruct (nonempty_list (slice_to 20 tech)) eqn:Hk;
    [| exists score; repeat split; lra].
  pose proof (len_pos _ Hk) as Hlen.
  rewrite (py_div_pos _ _ Hlen). simpl.
  destruct (skill_loop_bounds text (slice_to 20 tech)) as [H0 H1].
  destruct (fraction_times _ _ 35 H0 H1 Hlen) as [Ha Hb]; [lra |].
  eexists; split; [reflexivity |]. split; lra.
Qed.

Lemma check_title_bounds (job : Job) (cv_data : CvData) (score : Q) :
  exists s, check_title job cv_data score = Ok s /\
            (score <= s)%Q /\ (s <= score + 10)%Q.
Proof.
  unfold check_title. cbv zeta.
  destruct (_ && _); [| exists score; repeat split; lra].
  destruct (nonempty_list _) eqn:Hk; [| exists score; repeat split; lra].
  pose proof (len_pos _ Hk) as Hlen.
  rewrite (py_div_pos _ _ Hlen). simpl.
  match goal with |- context [count_matching ?k ?t] =>
    destruct (count_matching_bounds k t) as [H0 H1] end.
  destruct (fraction_times _ _ 10 H0 H1 Hlen) as [Ha Hb]; [lra |].
  eexists; split; [reflexivity |]. split; lra.
Qed.


Lemma py_min_id (s : Q) : (s <= 100)%Q -> py_min s 100 = s.
Proof.
  intros Hs. unfold py_min. apply Qle_bool_iff in Hs. rewrite Hs. reflexivity.
Qed.

(** [calculate_match_score] returns on every input: the three divisions
    are guarded by the emptiness tests in front of them. *)
Lemma calculate_match_score_returns (job : Job) (cv_data : CvData) :
  exists s, calculate_match_score job cv_data = Ok s.
Proof.
  unfold calculate_match_score. cbv zeta.
  destruct (check_domains_bounds (job_text job) cv_data (check_presence job 0))
    as (s1 & -> & _). cbn [ebind].
  destruct (check_skills_bounds (job_text job) cv_data s1) as (s2 & -> & _).
  cbn [ebind].
  destruct (check_title_bounds job cv_data (check_location job s2)) as (s3 & -> & _).
  cbn [ebind]. eauto.
Qed.

(** ** Scoring: the blocks are additive *)

Lemma check_domains_signal (text : string) (cv_data : CvData) (score : Q) :
  exists r, check_domains text cv_data score = Ok r /\
            (r == score + domain_signal text cv_data)%Q.
Proof.
  unfold domain_signal, check_domains.
  destruct (job_search_intent cv_data) as [intent|]; [| exists score; split; [easy | lra]].
  destruct (domains intent) as [doms|]; [| exists score; split; [easy | lra]].
  destruct (nonempty_list doms); [| exists score; split; [easy | lra]].
  cbv zeta.
  destruct (nonempty_list (collect_domain_keywords doms)) eqn:Hk;
    [| exists score; split; [easy | lra]].
  rewrite (py_div_pos _ _ (len_pos _ Hk)). simpl.
  eexists; split; [reflexivity | lra].
Qed.

Lemma check_title_signal (job : Job) (cv_data : CvData) (score : Q) :
  exists r, check_title job cv_data score = Ok r /\
            (r == score + title_signal job cv_data)%Q.
Proof.
  unfold title_signal, check_title. cbv zeta.
  destruct (_ && _); [| exists score; split; [easy | lra]].
  destruct (nonempty_list _) eqn:Hk; [| exists score; split; [easy | lra]].
  rewrite (py_div_pos _ _ (len_pos _ Hk)). simpl.
  eexists; split; [reflexivity | lra].
Qed.

Lemma check_presence_signal (job : Job) (score : Q) :
  (check_presence job score == score + presence_signal job)%Q.
Proof.
  unfold presence_signal, check_presence. destruct (PyStr.nonempty _); lra.
Qed.

Lemma check_location_signal (job : Job) (score : Q) :
  (check_location job score == score + location_signal job)%Q.
Proof.
  unfold location_signal, check_location. destruct (_ || _); lra.
Qed.

Lemma check_location_proper (job : Job) (a b : Q) :
  (a == b)%Q -> (check_location job a == check_location job b)%Q.
Proof. intros E. rewrite !check_location_signal. lra. Qed.

(** the skill block, for a profile that has technical skills *)
Lemma check_skills_spec (text : string) (cv_data : CvData) (sk : Skills)
    (tech : list string) (score : Q) :
  skills cv_data = Some sk -> technical sk = Some tech -> tech <> [] ->
  exists r, check_skills text cv_data score = Ok r /\
            (r == score + skill_overlap_spec text tech)%Q.
Proof.
  intros Hs Ht Hne. unfold check_skills, skill_overlap_spec.
  rewrite Hs, Ht. cbv zeta. rewrite slice_to_20.
  assert (nonempty_list (take 20 tech) = true) as Hk
    by (destruct tech; [congruence | reflexivity]).
  rewrite Hk, (py_div_pos _ _ (len_pos _ Hk)). simpl.
  eexists; split; [reflexivity |].
  pose proof (skill_loop_sum text (take 20 tech) 0) as E.
  rewrite E. pose proof (len_pos _ Hk). field. lra.
Qed.

Example round2_examples :
  round2 (40 # 3) = 1333 # 100 /\ round2 (85 # 3) = 2833 # 100 /\
  round2 (11875 # 1000) = 1188 # 100 /\ round2 (11625 # 1000) = 1162 # 100 /\
  round2 15 = 1500 # 100.
Proof. repeat split. Qed.

(** the ranking example: the matching posting scores 10 + 2/3 * 35, the
    unrelated one 10 *)
Example posting_a_beats_posting_b :
  exists a b,
    calculate_match_score posting_a security_cv = Ok a /\
    calculate_match_score posting_b security_cv = Ok b /\
    (a == 100 # 3)%Q /\ (b == 10)%Q /\ (b < a)%Q.
Proof.
  eexists. eexists. split; [vm_compute; reflexivity |].
  split; [vm_compute; reflexivity |]. repeat split.
Qed.

(** ** C1 *)


(** ** C8 *)

(** On a posting and a profile whose values are text: whatever key is
    absent or empty, [calculate_match_score] returns without raising (in
    particular no division by zero), and a block whose input is absent
    or empty leaves the running score unchanged: no domains, no
    technical skills, no profile title, no posting title (presence and
    title match), no location and no remote flag. *)
Theorem missing_fields_contribute_zero (job : Job) (cv_data : CvData) (score : Q) :
  is_ok (calculate_match_score job cv_data) = true /\
  (no_domains cv_data -> check_domains (job_text job) cv_data score = Ok score) /\
  (no_skills cv_data -> check_skills (job_text job) cv_data score = Ok score) /\
  (no_text (cv_title cv_data) -> check_title job cv_data score = Ok score) /\
  (no_text (title job) ->
     check_presence job score = score /\ check_title job cv_data score = Ok score) /\
  (no_text (location job) -> is_remote job = None ->
     check_location job score = score).
Proof.
  split.
  { destruct (calculate_match_score_returns job cv_data) as (s & ->). reflexivity. }
  split.
  { unfold no_domains, check_domains.
    destruct (job_search_intent cv_data) as [i|]; [| reflexivity].
    intros [-> | ->]; reflexivity. }
  split.
  { unfold no_skills, check_skills.
    destruct (skills cv_data) as [sk|]; [| reflexivity].
    intros [-> | ->]; reflexivity. }
  split.
  { unfold check_title. intros [-> | ->]; reflexivity. }
  split.
  { unfold check_presence, check_title. intros [-> | ->]; simpl;
      rewrite andb_false_r; split; reflexivity. }
  { unfold check_location. intros [-> | ->] ->; reflexivity. }
Qed.

(** *** Values that are not text *)

(** On text the converter and the scorer over cells are the ones above. *)
Lemma raw_converter_agrees (scraped site_name : string) (r : Row) :
  Raw.jobspy_job scraped site_name (of_row r) = of_job (jobspy_job scraped site_name r).
Proof.
  unfold Raw.jobspy_job, jobspy_job, of_row, of_job. cbn.
  destruct (r_title r), (r_company r), (r_location r), (r_description r),
    (r_job_url r), (r_date_posted r), (r_is_remote r); reflexivity.
Qed.

Lemma raw_job_text (job : Job) : Raw.job_text (of_job job) = job_text job.
Proof.
  unfold Raw.job_text, job_text, of_job. cbn.
  destruct (title job), (description job); reflexivity.
Qed.

Lemma raw_check_presence (job : Job) (score : Q) :
  Raw.check_presence (of_job job) score = check_presence job score.
Proof.
  unfold Raw.check_presence, check_presence, of_job. cbn.
  destruct (title job); reflexivity.
Qed.

Lemma raw_check_location (job : Job) (score : Q) :
  Raw.check_location (of_job job) score = Ok (check_location job score).
Proof.
  unfold Raw.check_location, check_location, of_job.
  cbn [Raw.location Raw.is_remote].
  destruct (location job) as [l|], (is_remote job) as [b|];
    cbn [fmap option_fmap option_map default from_option id cell_lower ebind truthy];
    destruct (_ || _); reflexivity.
Qed.

Lemma raw_check_title (job : Job) (cv_data : CvData) (score : Q) :
  Raw.check_title (of_job job) (of_cv cv_data) score = check_title job cv_data score.
Proof.
  unfold Raw.check_title, check_title, of_job, of_cv. cbn.
  destruct (cv_title cv_data), (title job); reflexivity.
Qed.

Lemma raw_scorer_agrees (job : Job) (cv_data : CvData) :
  Raw.calculate_match_score (of_job job) (of_cv cv_data) =
  calculate_match_score job cv_data.
Proof.
  unfold Raw.calculate_match_score, calculate_match_score. cbv zeta.
  rewrite raw_job_text, raw_check_presence.
  change (check_domains (job_text job) (Raw.declared (of_cv cv_data)))
    with (check_domains (job_text job) cv_data).
  destruct (check_domains (job_text job) cv_data (check_presence job 0)) as [s1|e];
    [| reflexivity].
  cbn [ebind].
  change (check_skills (job_text job) (Raw.declared (of_cv cv_data)))
    with (check_skills (job_text job) cv_data).
  destruct (check_skills (job_text job) cv_data s1) as [s2|e]; [| reflexivity].
  cbn [ebind]. rewrite raw_check_location. cbn [ebind].
  rewrite raw_check_title. reflexivity.
Qed.

Lemma cell_lower_not_text (o : option cell) :
  not_text o -> cell_lower (default (CStr "") o) = Raise AttributeError.
Proof. destruct o as [[s | b | |]|]; cbn; intros H; (reflexivity || destruct H). Qed.

Lemma cell_lower_cases (c : cell) :
  (exists s, cell_lower c = Ok s) \/ cell_lower c = Raise AttributeError.
Proof. destruct c; cbn; eauto. Qed.

(** C8, at the input where the code departs from it.  The scorer reads
    [job.get('location', '')], [cv_data.get('title', '')] and
    [job.get('title', '')] and calls [.lower()] on what it gets: the
    default covers an absent key, not a value that is there and is not
    text.  On such a value the scorer raises [AttributeError], whatever
    the rest of the posting and of the profile.  The JobSpy converter
    copies the location cell as it is, so a row whose location is [None]
    or [nan] gives such a posting; the last part is the run on one such
    row. *)
Theorem scorer_raises_on_value_without_text :
  (forall job cv_data,
     not_text (Raw.location job) \/ not_text (Raw.cv_title cv_data) \/
     not_text (Raw.title job) ->
     Raw.calculate_match_score job cv_data = Raise AttributeError) /\
  (forall scraped site_name row,
     not_text (Raw.r_location row) ->
     not_text (Raw.location (Raw.jobspy_job scraped site_name row))) /\
  Raw._convert_jobspy_to_dict "2024-01-01T00:00:00" [no_location_row] "LinkedIn" =
    [Raw.jobspy_job "2024-01-01T00:00:00" "LinkedIn" no_location_row] /\
  Raw.location (Raw.jobspy_job "2024-01-01T00:00:00" "LinkedIn" no_location_row) =
    Some CNone /\
  Raw.calculate_match_score
    (Raw.jobspy_job "2024-01-01T00:00:00" "LinkedIn" no_location_row)
    (of_cv demo_cv) = Raise AttributeError.
Proof.
  assert (forall job cv_data,
     not_text (Raw.location job) \/ not_text (Raw.cv_title cv_data) \/
     not_text (Raw.title job) ->
     Raw.calculate_match_score job cv_data = Raise AttributeError) as General.
  { intros job cv_data H. unfold Raw.calculate_match_score. cbv zeta.
    destruct (check_domains_bounds (Raw.job_text job) (Raw.declared cv_data)
                (Raw.check_presence job 0)) as (s1 & -> & _). cbn [ebind].
    destruct (check_skills_bounds (Raw.job_text job) (Raw.declared cv_data) s1)
      as (s2 & -> & _). cbn [ebind].
    unfold Raw.check_location.
    destruct (cell_lower_cases (default (CStr "") (Raw.location job)))
      as [[loc Hloc] | Hloc]; rewrite Hloc; [| reflexivity].
    cbn [ebind].
    assert (not_text (Raw.cv_title cv_data) \/ not_text (Raw.title job)) as H'.
    { destruct H as [H | H]; [| exact H].
      rewrite (cell_lower_not_text _ H) in Hloc. discriminate. }
    assert (forall s, Raw.check_title job cv_data s = Raise AttributeError) as Ht.
    { intros s. unfold Raw.check_title.
      destruct (cell_lower_cases (default (CStr "") (Raw.cv_title cv_data)))
        as [[t Hcv] | Hcv]; rewrite Hcv; [| reflexivity].
      cbn [ebind]. destruct H' as [H' | H'].
      - rewrite (cell_lower_not_text _ H') in Hcv. discriminate.
      - rewrite (cell_lower_not_text _ H'). reflexivity. }
    destruct (_ || _); cbn [ebind]; rewrite Ht; reflexivity. }
  split; [exact General |].
  split.
  { intros scraped site_name row. cbn.
    destruct (Raw.r_location row) as [[s | b | |]|]; cbn; intros H; exact H. }
  split; [reflexivity |]. split; [reflexivity |].
  apply General. left. exact I.
Qed.

(** The score is the plain sum of the five signals: their weights add up
    to 100, so the closing [min(score, 100.0)] changes nothing. *)
Lemma calculate_match_score_sum (job : Job) (cv_data : CvData) (skill_part : Q) :
  (forall score, exists r,
      check_skills (job_text job) cv_data score = Ok r /\ (r == score + skill_part)%Q) ->
  exists s, calculate_match_score job cv_data = Ok s /\
    (s == presence_signal job + domain_signal (job_text job) cv_data
          + skill_part + location_signal job + title_signal job cv_data)%Q.
Proof.
  intros Hskill. unfold calculate_match_score. cbv zeta.
  pose proof (check_presence_bounds job 0) as [P1 P2].
  pose proof (check_presence_signal job 0) as EP.
  destruct (check_domains_signal (job_text job) cv_data (check_presence job 0))
    as (s1 & H1 & E1).
  destruct (check_domains_bounds (job_text job) cv_data (check_presence job 0))
    as (s1' & H1' & D1 & D2).
  rewrite H1 in H1'. injection H1' as <-. rewrite H1. simpl.
  destruct (Hskill s1) as (s2 & H2 & E2).
  destruct (check_skills_bounds (job_text job) cv_data s1) as (s2' & H2' & S1 & S2).
  rewrite H2 in H2'. injection H2' as <-. rewrite H2. simpl.
  pose proof (check_location_bounds job s2) as [L1 L2].
  pose proof (check_location_signal job s2) as EL.
  destruct (check_title_signal job cv_data (check_location job s2)) as (s3 & H3 & E3).
  destruct (check_title_bounds job cv_data (check_location job s2))
    as (s3' & H3' & T1 & T2).
  rewrite H3 in H3'. injection H3' as <-. rewrite H3. simpl.
  eexists; split; [reflexivity |].
  rewrite py_min_id by lra. lra.
Qed.

(** ** C9 *)

(** C9. For a profile with non-empty technical skills, the skill block
    adds to the running score exactly: the sum, over the first 20
    technical skills, of 1 when the lower-cased skill occurs in the
    posting text (lower-cased title, a space, description), else 1/2
    when a word of the skill longer than 3 characters occurs in it, else
    0; divided by the number of skills considered; times 35.  The score
    returned by [calculate_match_score] is the sum of that term and the
    four other signals. *)
Theorem skill_overlap_contribution (job : Job) (cv_data : CvData) (sk : Skills)
    (tech : list string) :
  skills cv_data = Some sk -> technical sk = Some tech -> tech <> [] ->
  (forall score, exists r,
      check_skills (job_text job) cv_data score = Ok r /\
      (r == score + skill_overlap_spec (job_text job) tech)%Q) /\
  exists s, calculate_match_score job cv_data = Ok s /\
    (s == presence_signal job + domain_signal (job_text job) cv_data
          + skill_overlap_spec (job_text job) tech
          + location_signal job + title_signal job cv_data)%Q.
Proof.
  intros Hs Ht Hne.
  assert (forall score, exists r,
      check_skills (job_text job) cv_data score = Ok r /\
      (r == score + skill_overlap_spec (job_text job) tech)%Q) as Hskill.
  { intros score. eapply check_skills_spec; eassumption. }
  split; [exact Hskill |].
  apply calculate_match_score_sum. exact Hskill.
Qed.

(** ** The stable descending sort *)

Section StableSortFacts.
Context {A : Type} (key : A -> Q).

Lemma insert_desc_perm (x : A) (l : list A) : insert_desc key x l ≡ₚ x :: l.
Proof.
  induction l as [|y r IH]; simpl; [reflexivity |].
  destruct (Qle_bool (key y) (key x)); [reflexivity |].
  rewrite IH. apply Permutation_swap.
Qed.

Lemma sort_desc_perm (l : list A) : sort_desc key l ≡ₚ l.
Proof.
  induction l as [|x l IH]; simpl; [reflexivity |].
  rewrite insert_desc_perm, IH. reflexivity.
Qed.

Lemma insert_desc_sorted (x : A) (l : list A) :
  StronglySorted (fun a b => key b <= key a)%Q l ->
  StronglySorted (fun a b => key b <= key a)%Q (insert_desc key x l).
Proof.
  induction l as [|y r IH]; intros Hs; simpl.
  - repeat constructor.
  - apply StronglySorted_cons in Hs as [Hy Hr].
    destruct (Qle_bool (key y) (key x)) eqn:E.
    + apply Qle_bool_iff in E.
      apply StronglySorted_cons. split.
      * constructor; [exact E |].
        eapply Forall_impl; [exact Hy |]. simpl. intros z Hz. lra.
      * apply StronglySorted_cons. split; assumption.
    + assert (key x < key y)%Q as Hlt.
      { destruct (Qlt_le_dec (key x) (key y)) as [H | H]; [exact H |].
        apply Qle_bool_iff in H. congruence. }
      apply StronglySorted_cons. split; [| apply IH; exact Hr].
      rewrite insert_desc_perm. constructor; [lra | exact Hy].
Qed.

Lemma sort_desc_sorted (l : list A) :
  StronglySorted (fun a b => key b <= key a)%Q (sort_desc key l).
Proof.
  induction l as [|x l IH]; simpl; [constructor |].
  apply insert_desc_sorted, IH.
Qed.

(** Inserting never moves an element past one with the same key. *)
Lemma filter_insert_desc (v : Q) (x : A) (l : list A) :
  filter (fun y => key y == v)%Q (insert_desc key x l) =
  filter (fun y => key y == v)%Q (x :: l).
Proof.
  induction l as [|y r IH]; simpl; [reflexivity |].
  destruct (Qle_bool (key y) (key x)) eqn:E; [reflexivity |].
  assert (~ (key y <= key x)%Q) as Hlt.
  { intros H. apply Qle_bool_iff in H. congruence. }
  rewrite (filter_cons _ y), IH, !filter_cons.
  destruct (decide (key y == v)%Q) as [Hy | Hy];
    destruct (decide (key x == v)%Q) as [Hx | Hx]; try reflexivity.
  exfalso. apply Hlt. rewrite Hy, Hx. lra.
Qed.

(** Stability: entries with equal keys keep their original order. *)
Lemma sort_desc_stable (v : Q) (l : list A) :
  filter (fun y => key y == v)%Q (sort_desc key l) =
  filter (fun y => key y == v)%Q l.
Proof.
  induction l as [|x l IH]; simpl; [reflexivity |].
  rewrite filter_insert_desc, !filter_cons, IH. reflexivity.
Qed.

(** Sorting commutes with a decoration that leaves the key alone. *)
Lemma insert_desc_map {B} (key' : B -> Q) (g : A -> B) (x : A) (l : list A) :
  (forall y, key' (g y) = key y) ->
  insert_desc key' (g x) (map g l) = map g (insert_desc key x l).
Proof.
  intros Hg. induction l as [|y r IH]; simpl; [reflexivity |].
  rewrite !Hg. destruct (Qle_bool (key y) (key x)); simpl; [reflexivity |].
  rewrite IH. reflexivity.
Qed.

Lemma sort_desc_map {B} (key' : B -> Q) (g : A -> B) (l : list A) :
  (forall y, key' (g y) = key y) ->
  sort_desc key' (map g l) = map g (sort_desc key l).
Proof.
  intros Hg. unfold sort_desc.
  induction l as [|x l IH]; simpl; [reflexivity |].
  rewrite IH. apply insert_desc_map, Hg.
Qed.
End StableSortFacts.

(** ** The reducer, stage by stage *)

Lemma score_loop_matched (cv_data : CvData) (min_score : Q) (all_jobs acc : list Job) :
  score_loop cv_data min_score all_jobs acc =
  Ok (acc ++ matched_of cv_data min_score all_jobs).
Proof.
  revert acc. induction all_jobs as [|job rest IH]; intros acc.
  - simpl. rewrite app_nil_r. reflexivity.
  - unfold matched_of. cbn [score_loop omap list_omap]. unfold score_entry at 1.
    destruct (calculate_match_score_returns job cv_data) as (s & ->).
    cbn [ebind]. destruct (Qle_bool min_score s).
    + rewrite IH, <- app_assoc. reflexivity.
    + rewrite IH. reflexivity.
Qed.

Lemma elem_of_matched (cv_data : CvData) (min_score : Q) (all_jobs : list Job)
    (e : Job) :
  e ∈ matched_of cv_data min_score all_jobs <->
  exists job s, job ∈ all_jobs /\ calculate_match_score job cv_data = Ok s /\
                (min_score <= s)%Q /\ e = set_match_score job (round2 s).
Proof.
  unfold matched_of. rewrite list_elem_of_omap. unfold score_entry. split.
  - intros (job & Hin & Hs).
    destruct (calculate_match_score job cv_data) as [s|] eqn:E; [| discriminate].
    destruct (Qle_bool min_score s) eqn:Hle; [| discriminate].
    injection Hs as <-. apply Qle_bool_iff in Hle.
    exists job, s. repeat split; assumption.
  - intros (job & s & Hin & E & Hle & ->). exists job. split; [exact Hin |].
    rewrite E. apply Qle_bool_iff in Hle. rewrite Hle. reflexivity.
Qed.

Lemma matched_scored (cv_data : CvData) (min_score : Q) (all_jobs : list Job) :
  Forall (fun e => match_score e = Some (stored_score e))
         (matched_of cv_data min_score all_jobs).
Proof.
  apply Forall_forall. intros e He.
  apply elem_of_matched in He as (job & s & _ & _ & _ & ->). reflexivity.
Qed.

Lemma map_exc_get_match_score (l : list Job) :
  Forall (fun e => match_score e = Some (stored_score e)) l ->
  map_exc get_match_score l = Ok (map stored_score l).
Proof.
  induction 1 as [|e l He _ IH]; simpl; [reflexivity |].
  unfold get_match_score at 1. rewrite He. simpl. rewrite IH. reflexivity.
Qed.

Lemma zip_map_self {A B} (f : A -> B) (l : list A) :
  zip (map f l) l = map (fun x => (f x, x)) l.
Proof. induction l as [|x l IH]; simpl; [reflexivity | rewrite IH; reflexivity]. Qed.

Lemma sort_by_match_score_eq (l : list Job) :
  Forall (fun e => match_score e = Some (stored_score e)) l ->
  sort_by_match_score l = Ok (sort_desc stored_score l).
Proof.
  intros Hl. unfold sort_by_match_score.
  rewrite (map_exc_get_match_score l Hl). simpl.
  rewrite zip_map_self.
  rewrite (sort_desc_map stored_score fst (fun x => (stored_score x, x)))
    by reflexivity.
  rewrite map_map. simpl. rewrite map_id. reflexivity.
Qed.

Lemma dedup_loop_firsts (jobs : list Job) (seen : gset (string * string))
    (acc : list Job) :
  dedup_loop jobs seen acc = acc ++ firsts seen jobs.
Proof.
  revert seen acc. induction jobs as [|job rest IH]; intros seen acc; simpl.
  - rewrite app_nil_r. reflexivity.
  - destruct (decide (dedup_key job ∈ seen)); rewrite IH; [reflexivity |].
    rewrite <- app_assoc. reflexivity.
Qed.

Lemma slice_to_nil {A} (n : Z) : slice_to n (@nil A) = [].
Proof. unfold slice_to. destruct (0 <=? n)%Z; apply take_nil. Qed.

Lemma slice_to_prefix {A} (n : Z) (l : list A) : exists k, slice_to n l = take k l.
Proof. unfold slice_to. destruct (0 <=? n)%Z; eauto. Qed.

Lemma slice_to_all {A} (n : Z) (l : list A) :
  (Z.of_nat (length l) <= n)%Z -> slice_to n l = l.
Proof.
  intros H. unfold slice_to.
  destruct (0 <=? n)%Z eqn:E; [| apply Z.leb_gt in E; lia].
  apply take_ge. lia.
Qed.

(** [rank_jobs] always returns: the first-occurrence filter of the
    sorted matches, cut to [max_results]. *)
Lemma rank_jobs_eq (cv_data : CvData) (min_score : Q) (max_results : Z)
    (all_jobs : list Job) :
  rank_jobs cv_data min_score max_results all_jobs =
  Ok (slice_to max_results (firsts ∅ (sorted_of cv_data min_score all_jobs))).
Proof.
  unfold rank_jobs, sorted_of. destruct all_jobs as [|job rest].
  - simpl. rewrite slice_to_nil. reflexivity.
  - cbn [nonempty_list negb]. rewrite score_loop_matched. cbn [ebind app].
    rewrite sort_by_match_score_eq by apply matched_scored. cbn [ebind].
    rewrite dedup_loop_firsts. reflexivity.
Qed.

(** ** The duplicate filter *)

Lemma firsts_sublist (seen : gset (string * string)) (l : list Job) :
  firsts seen l `sublist_of` l.
Proof.
  revert seen. induction l as [|x l IH]; intros seen; simpl; [constructor |].
  destruct (decide (dedup_key x ∈ seen)).
  - apply sublist_cons, IH.
  - apply sublist_skip, IH.
Qed.

Lemma firsts_fresh (seen : gset (string * string)) (l : list Job) (e : Job) :
  e ∈ firsts seen l -> dedup_key e ∉ seen.
Proof.
  revert seen. induction l as [|x l IH]; intros seen; simpl.
  - intros H. inversion H.
  - destruct (decide (dedup_key x ∈ seen)) as [Hx | Hx]; [apply IH |].
    intros H. apply elem_of_cons in H as [-> | H]; [exact Hx |].
    apply IH in H. intros Hs. apply H, elem_of_union. right. exact Hs.
Qed.

Lemma firsts_keys_NoDup (seen : gset (string * string)) (l : list Job) :
  NoDup (dedup_key <$> firsts seen l).
Proof.
  revert seen. induction l as [|x l IH]; intros seen; simpl; [constructor |].
  destruct (decide (dedup_key x ∈ seen)) as [Hx | Hx]; [apply IH |].
  rewrite fmap_cons. constructor; [| apply IH].
  intros Hin. apply list_elem_of_fmap_1 in Hin as (e & He & Hin).
  apply firsts_fresh in Hin. apply Hin, elem_of_union. left.
  apply elem_of_singleton. congruence.
Qed.

(** a survivor is the first entry of the input with its key *)
Lemma firsts_first (seen : gset (string * string)) (l : list Job) (e : Job) :
  e ∈ firsts seen l ->
  exists l1 l2, l = l1 ++ e :: l2 /\ forall x, x ∈ l1 -> dedup_key x <> dedup_key e.
Proof.
  revert seen. induction l as [|x l IH]; intros seen; simpl.
  - intros H. inversion H.
  - destruct (decide (dedup_key x ∈ seen)) as [Hx | Hx].
    + intros H. pose proof (firsts_fresh _ _ _ H) as Hf.
      destruct (IH _ H) as (l1 & l2 & -> & Hl1).
      exists (x :: l1), l2. split; [reflexivity |].
      intros y Hy. apply elem_of_cons in Hy as [-> | Hy]; [congruence | auto].
    + intros H. apply elem_of_cons in H as [-> | H].
      * exists [], l. split; [reflexivity |]. intros y Hy. inversion Hy.
      * pose proof (firsts_fresh _ _ _ H) as Hf.
        destruct (IH _ H) as (l1 & l2 & -> & Hl1).
        exists (x :: l1), l2. split; [reflexivity |].
        intros y Hy. apply elem_of_cons in Hy as [-> | Hy]; [| auto].
        intros Hk. apply Hf, elem_of_union. left.
        apply elem_of_singleton. congruence.
Qed.

(** every key of the input is represented *)
Lemma firsts_complete (seen : gset (string * string)) (l : list Job) (x : Job) :
  x ∈ l -> dedup_key x ∈ seen \/
           exists e, e ∈ firsts seen l /\ dedup_key e = dedup_key x.
Proof.
  revert seen. induction l as [|y l IH]; intros seen Hx; [inversion Hx |].
  simpl. apply elem_of_cons in Hx as [-> | Hx].
  - destruct (decide (dedup_key y ∈ seen)); [left; assumption |].
    right. exists y. split; [left | reflexivity].
  - destruct (decide (dedup_key y ∈ seen)) as [Hy | Hy]; [apply IH, Hx |].
    destruct (IH ({[dedup_key y]} ∪ seen) Hx) as [H | (e & He & Hk)].
    + apply elem_of_union in H as [H | H]; [| left; exact H].
      apply elem_of_singleton in H. right. exists y. split; [left | congruence].
    + right. exists e. split; [right; exact He | exact Hk].
Qed.

(** ** Rounding to two decimals *)

Lemma round_half_even_near (x : Q) :
  (x - (1 # 2) <= inject_Z (round_half_even x) <= x + (1 # 2))%Q.
Proof.
  unfold round_half_even. cbv zeta.
  pose proof (Qfloor_le x) as Hlo. pose proof (Qlt_floor x) as Hhi.
  rewrite inject_Z_plus in Hhi. change (inject_Z 1) with 1%Q in Hhi.
  destruct (Qcompare_spec (x - inject_Z (Qfloor x)) (1 # 2)) as [E | E | E].
  - destruct (Z.even (Qfloor x)); [| rewrite inject_Z_plus; change (inject_Z 1) with 1%Q];
      split; lra.
  - split; lra.
  - rewrite inject_Z_plus. change (inject_Z 1) with 1%Q. split; lra.
Qed.

Lemma round_half_even_mono (x y : Q) :
  (x <= y)%Q -> (round_half_even x <= round_half_even y)%Z.
Proof.
  intros Hxy. pose proof (Qfloor_resp_le x y Hxy) as Hf.
  destruct (Z.eq_dec (Qfloor x) (Qfloor y)) as [Heq | Hne].
  - unfold round_half_even. cbv zeta. rewrite <- Heq.
    destruct (Qcompare_spec (x - inject_Z (Qfloor x)) (1 # 2)) as [Ex | Ex | Ex];
      destruct (Qcompare_spec (y - inject_Z (Qfloor x)) (1 # 2)) as [Ey | Ey | Ey];
      try destruct (Z.even (Qfloor x)); try lia; exfalso; lra.
  - assert (round_half_even x <= Qfloor x + 1)%Z.
    { unfold round_half_even. cbv zeta.
      destruct (Qcompare _ _); try destruct (Z.even _); lia. }
    assert (Qfloor y <= round_half_even y)%Z.
    { unfold round_half_even. cbv zeta.
      destruct (Qcompare _ _); try destruct (Z.even _); lia. }
    lia.
Qed.

Lemma round_half_even_int (x : Q) (k : Z) :
  (x == inject_Z k)%Q -> round_half_even x = k.
Proof.
  intros E. unfold round_half_even. cbv zeta.
  rewrite (Qfloor_comp _ _ E), Qfloor_Z.
  destruct (Qcompare_spec (x - inject_Z k) (1 # 2)) as [H | H | H];
    [exfalso; lra | reflexivity | exfalso; lra].
Qed.

Lemma round2_near (x : Q) : (x - (1 # 200) <= round2 x <= x + (1 # 200))%Q.
Proof.
  unfold round2. pose proof (round_half_even_near (x * 100)) as [H1 H2].
  split.
  - apply Qle_shift_div_l; lra.
  - apply Qle_shift_div_r; lra.
Qed.

Lemma round2_mono (x y : Q) : (x <= y)%Q -> (round2 x <= round2 y)%Q.
Proof.
  intros H. unfold round2.
  assert (x * 100 <= y * 100)%Q as H' by lra.
  apply round_half_even_mono in H'. rewrite Zle_Qle in H'.
  apply Qle_shift_div_l; [lra |].
  unfold Qdiv. rewrite <- Qmult_assoc.
  assert (/ 100 * 100 == 1)%Q as -> by reflexivity. lra.
Qed.

Lemma round2_hundredths (x : Q) (k : Z) :
  (x == inject_Z k / 100)%Q -> (round2 x == x)%Q.
Proof.
  intros E. unfold round2.
  rewrite (round_half_even_int (x * 100) k); [symmetry; exact E |].
  rewrite E. field.
Qed.

(** ** Order-preserving selections *)

Lemma filter_sublist_mono {A} (P : A -> Prop) `{!forall x, Decision (P x)}
    (l1 l2 : list A) :
  l1 `sublist_of` l2 -> filter P l1 `sublist_of` filter P l2.
Proof.
  induction 1 as [|x l1 l2 _ IH|x l1 l2 _ IH]; [constructor | |].
  - rewrite !filter_cons. destruct (decide (P x)); [apply sublist_skip|]; exact IH.
  - rewrite filter_cons. destruct (decide (P x)); [apply sublist_cons|]; exact IH.
Qed.

Lemma StronglySorted_sublist {A} (R : A -> A -> Prop) (l1 l2 : list A) :
  l1 `sublist_of` l2 -> StronglySorted R l2 -> StronglySorted R l1.
Proof.
  induction 1 as [|x l1 l2 Hsub IH|x l1 l2 Hsub IH]; intros Hs; [constructor | |].
  - apply StronglySorted_cons in Hs as [Hx Hs].
    apply StronglySorted_cons. split; [| apply IH, Hs].
    apply Forall_forall. intros y Hy.
    eapply Forall_forall in Hx; [exact Hx |]. eapply elem_of_sublist; eassumption.
  - apply StronglySorted_cons in Hs as [_ Hs]. apply IH, Hs.
Qed.

Lemma lookup_pair_sublist {A} (l : list A) (p q : nat) (a b : A) :
  (p < q)%nat -> l !! p = Some a -> l !! q = Some b -> [a; b] `sublist_of` l.
Proof.
  revert p q. induction l as [|x l IH]; intros p q Hpq Hp Hq; [discriminate |].
  destruct p as [|p].
  - injection Hp as ->. destruct q as [|q]; [lia |]. simpl in Hq.
    apply sublist_skip. apply singleton_sublist_l.
    eapply list_elem_of_lookup_2. exact Hq.
  - destruct q as [|q]; [lia |]. simpl in Hp, Hq.
    apply sublist_cons. eapply (IH p q); [lia | assumption | assumption].
Qed.

Lemma pair_sublist_split {A} (l : list A) (a b : A) :
  [a; b] `sublist_of` l <-> exists l1 l2 l3, l = l1 ++ a :: l2 ++ b :: l3.
Proof.
  rewrite sublist_cons_l. split.
  - intros (k1 & k2 & -> & Hb). apply singleton_sublist_l in Hb.
    apply list_elem_of_split in Hb as (l2 & l3 & ->). eauto.
  - intros (l1 & l2 & l3 & ->). exists l1, (l2 ++ b :: l3). split; [reflexivity |].
    apply singleton_sublist_l. apply elem_of_app. right. left.
Qed.

Lemma sorted_pair {A} (R : A -> A -> Prop) (l : list A) (a b : A) :
  StronglySorted R l -> [a; b] `sublist_of` l -> R a b.
Proof.
  intros Hs Hsub. apply (StronglySorted_sublist R _ _ Hsub) in Hs.
  apply StronglySorted_cons in Hs as [Hab _].
  apply Forall_cons in Hab as [Hab _]. exact Hab.
Qed.

(** a split of the selected list comes from a split of the source *)
Lemma omap_split {A B} (f : A -> option B) (l : list A) (k1 k2 : list B) (b : B) :
  omap f l = k1 ++ b :: k2 ->
  exists l1 x l2, l = l1 ++ x :: l2 /\ f x = Some b /\
                  omap f l1 = k1 /\ omap f l2 = k2.
Proof.
  revert k1. induction l as [|y l IH]; intros k1 H.
  - destruct k1; discriminate.
  - cbn [omap list_omap] in H. destruct (f y) as [z|] eqn:Ey.
    + destruct k1 as [|c k1]; simpl in H.
      * injection H as -> <-. exists [], y, l. simpl. auto.
      * injection H as -> H'. destruct (IH _ H') as (l1 & x & l2 & -> & Hx & H1 & H2).
        exists (y :: l1), x, l2. cbn [omap list_omap app]. rewrite Ey, H1. auto.
    + destruct (IH _ H) as (l1 & x & l2 & -> & Hx & H1 & H2).
      exists (y :: l1), x, l2. cbn [omap list_omap app]. rewrite Ey, H1. auto.
Qed.

Lemma omap_pair_split {A B} (f : A -> option B) (l : list A) (a b : B) :
  [a; b] `sublist_of` omap f l ->
  exists l1 x l2 y l3, l = l1 ++ x :: l2 ++ y :: l3 /\ f x = Some a /\ f y = Some b.
Proof.
  intros H. apply pair_sublist_split in H as (k1 & k2 & k3 & H).
  apply omap_split in H as (l1 & x & r & -> & Hx & _ & H).
  apply omap_split in H as (l2 & y & l3 & -> & Hy & _ & _).
  exists l1, x, l2, y, l3. auto.
Qed.

(** the first entry satisfying [P] in the selected list, traced back to
    the source *)
Lemma omap_filter_head {A B} (f : A -> option B) (P : B -> Prop)
    `{!forall x, Decision (P x)} (l : list A) (b : B) (rest : list B) :
  filter P (omap f l) = b :: rest ->
  exists l1 x l2, l = l1 ++ x :: l2 /\ f x = Some b /\
                  forall y c, y ∈ l1 -> f y = Some c -> ~ P c.
Proof.
  induction l as [|y l IH]; intros Hf; [discriminate |].
  cbn [omap list_omap] in Hf.
  assert (filter P (omap f l) = b :: rest ->
          (forall c, f y = Some c -> ~ P c) ->
          exists l1 x l2, y :: l = l1 ++ x :: l2 /\ f x = Some b /\
                          forall y0 c, y0 ∈ l1 -> f y0 = Some c -> ~ P c) as Hskip.
  { intros H' Hy. destruct (IH H') as (l1 & x & l2 & -> & Hx & Hl1).
    exists (y :: l1), x, l2. split; [reflexivity |]. split; [exact Hx |].
    intros y0 c Hin. apply elem_of_cons in Hin as [-> | Hin]; [apply Hy | eauto]. }
  destruct (f y) as [z|] eqn:Ey.
  - rewrite filter_cons in Hf. destruct (decide (P z)) as [Hz | Hz].
    + injection Hf as -> _. exists [], y, l. split; [reflexivity |].
      split; [exact Ey |]. intros y0 c Hin. inversion Hin.
    + apply Hskip; [exact Hf |]. intros c [= <-]. exact Hz.
  - apply Hskip; [exact Hf |]. intros c Hc. discriminate.
Qed.

Lemma filter_first {A} (P : A -> Prop) `{!forall x, Decision (P x)}
    (l1 l2 : list A) (e : A) :
  (forall x, x ∈ l1 -> ~ P x) -> P e ->
  filter P (l1 ++ e :: l2) = e :: filter P l2.
Proof.
  intros Hl1 He. induction l1 as [|x l1 IH]; simpl.
  - rewrite filter_cons. destruct (decide (P e)); [reflexivity | contradiction].
  - rewrite filter_cons. destruct (decide (P x)) as [Hx | Hx].
    + exfalso. apply (Hl1 x); [left | exact Hx].
    + apply IH. intros y Hy. apply Hl1. right. exact Hy.
Qed.

(** ** [scrape_and_match] as a whole *)

Lemma scrape_and_match_inv (w : World) (path : string) (min_score : Q)
    (max_results hours_old : Z) (res : list Job) :
  scrape_and_match w path min_score max_results hours_old = Ok res ->
  exists cv_data search_term,
    load_cv_profile w path = Ok cv_data /\
    build_search_term (extract_search_keywords cv_data) = Ok search_term /\
    res = slice_to max_results
            (firsts ∅ (sorted_of cv_data min_score
               (collect_all w search_term (extract_search_keywords cv_data) hours_old))).
Proof.
  unfold scrape_and_match. intros H.
  destruct (load_cv_profile w path) as [cv_data|] eqn:Hcv; [| discriminate].
  cbn [ebind] in H.
  destruct (build_search_term (extract_search_keywords cv_data)) as [term|] eqn:Ht;
    [| discriminate].
  cbn [ebind] in H. rewrite rank_jobs_eq in H. injection H as <-.
  exists cv_data, term. auto.
Qed.

(** [scrape_and_match] returns as soon as the profile loads and yields a
    search term: nothing after that point can raise. *)
Lemma scrape_and_match_returns (w : World) (path : string) (min_score : Q)
    (max_results hours_old : Z) (cv_data : CvData) (search_term : string) :
  load_cv_profile w path = Ok cv_data ->
  build_search_term (extract_search_keywords cv_data) = Ok search_term ->
  is_ok (scrape_and_match w path min_score max_results hours_old) = true.
Proof.
  intros Hcv Ht. unfold scrape_and_match. rewrite Hcv. cbn [ebind].
  rewrite Ht. cbn [ebind]. rewrite rank_jobs_eq. reflexivity.
Qed.

Lemma result_sublist_sorted (cv_data : CvData) (min_score : Q) (max_results : Z)
    (all_jobs : list Job) :
  slice_to max_results (firsts ∅ (sorted_of cv_data min_score all_jobs))
    `sublist_of` sorted_of cv_data min_score all_jobs.
Proof.
  destruct (slice_to_prefix max_results
              (firsts ∅ (sorted_of cv_data min_score all_jobs))) as [k ->].
  etransitivity; [apply sublist_take | apply firsts_sublist].
Qed.

Lemma elem_of_sorted (cv_data : CvData) (min_score : Q) (all_jobs : list Job)
    (e : Job) :
  e ∈ sorted_of cv_data min_score all_jobs <->
  e ∈ matched_of cv_data min_score all_jobs.
Proof. unfold sorted_of. rewrite sort_desc_perm. reflexivity. Qed.

Lemma sorted_of_sorted (cv_data : CvData) (min_score : Q) (all_jobs : list Job) :
  StronglySorted (fun a b => stored_score b <= stored_score a)%Q
                 (sorted_of cv_data min_score all_jobs).
Proof. apply sort_desc_sorted. Qed.

Lemma score_entry_ranked (cv_data : CvData) (min_score : Q) (job e : Job) :
  score_entry cv_data min_score job = Some e -> ranked_from cv_data job e.
Proof.
  unfold score_entry, ranked_from.
  destruct (calculate_match_score job cv_data) as [s|]; [| discriminate].
  destruct (Qle_bool min_score s); [| discriminate].
  intros [= <-]. eauto.
Qed.

(** stability, carried back to the collected list *)
Lemma sorted_pair_collected (cv_data : CvData) (min_score : Q)
    (all_jobs : list Job) (a b : Job) :
  [a; b] `sublist_of` sorted_of cv_data min_score all_jobs ->
  (stored_score a == stored_score b)%Q ->
  exists l1 ja l2 jb l3,
    all_jobs = l1 ++ ja :: l2 ++ jb :: l3 /\
    score_entry cv_data min_score ja = Some a /\
    score_entry cv_data min_score jb = Some b.
Proof.
  intros Hsub Heq.
  apply (filter_sublist_mono (fun y => stored_score y == stored_score a)%Q) in Hsub.
  unfold sorted_of in Hsub. rewrite sort_desc_stable in Hsub.
  rewrite !filter_cons, filter_nil in Hsub.
  destruct (decide (stored_score a == stored_score a)%Q) as [_ | Hn];
    [| exfalso; apply Hn; reflexivity].
  destruct (decide (stored_score b == stored_score a)%Q) as [_ | Hn];
    [| exfalso; apply Hn; symmetry; exact Heq].
  apply omap_pair_split. etransitivity; [exact Hsub | apply sublist_filter].
Qed.

(** ** C2 *)

(** C2. In the list returned by [scrape_and_match], an entry never has a
    smaller [match_score] than a later one; and when two entries have
    equal [match_score], the earlier one comes from a posting that was
    appended to the collected list before the posting of the later one.
    The statement is about the returned list, hence after the duplicate
    filter and the cut to [max_results]. *)
Theorem ranked_descending_stable (w : World) (path : string) (min_score : Q)
    (max_results hours_old : Z) (res : list Job) :
  scrape_and_match w path min_score max_results hours_old = Ok res ->
  exists cv_data search_term,
    load_cv_profile w path = Ok cv_data /\
    build_search_term (extract_search_keywords cv_data) = Ok search_term /\
    let all_jobs :=
      collect_all w search_term (extract_search_keywords cv_data) hours_old in
    forall (p q : nat) (a b : Job),
      (p < q)%nat -> res !! p = Some a -> res !! q = Some b ->
      exists sa sb,
        match_score a = Some sa /\ match_score b = Some sb /\ (sb <= sa)%Q /\
        ((sa == sb)%Q ->
         exists l1 ja l2 jb l3,
           all_jobs = l1 ++ ja :: l2 ++ jb :: l3 /\
           ranked_from cv_data ja a /\ ranked_from cv_data jb b).
Proof.
  intros H. apply scrape_and_match_inv in H as (cv_data & term & Hcv & Ht & ->).
  exists cv_data, term. split; [exact Hcv |]. split; [exact Ht |].
  intros all_jobs p q a b Hpq Hp Hq.
  pose proof (lookup_pair_sublist _ _ _ _ _ Hpq Hp Hq) as Hab.
  assert ([a; b] `sublist_of` sorted_of cv_data min_score all_jobs) as Hs.
  { etransitivity; [exact Hab | apply result_sublist_sorted]. }
  assert (a ∈ matched_of cv_data min_score all_jobs) as Ha.
  { apply elem_of_sorted. eapply elem_of_sublist; [| exact Hs]. left. }
  assert (b ∈ matched_of cv_data min_score all_jobs) as Hb.
  { apply elem_of_sorted. eapply elem_of_sublist; [| exact Hs]. right. left. }
  pose proof (matched_scored cv_data min_score all_jobs) as Hall.
  rewrite Forall_forall in Hall.
  exists (stored_score a), (stored_score b).
  split; [apply Hall, Ha |]. split; [apply Hall, Hb |]. split.
  - exact (sorted_pair _ _ a b (sorted_of_sorted cv_data min_score all_jobs) Hs).
  - intros Heq.
    destruct (sorted_pair_collected _ _ _ _ _ Hs Heq)
      as (l1 & ja & l2 & jb & l3 & Hsplit & Hja & Hjb).
    exists l1, ja, l2, jb, l3. split; [exact Hsplit |].
    split; eapply score_entry_ranked; eassumption.
Qed.

Lemma score_entry_inv (cv_data : CvData) (min_score : Q) (job e : Job) :
  score_entry cv_data min_score job = Some e <->
  exists s, calculate_match_score job cv_data = Ok s /\ (min_score <= s)%Q /\
            e = set_match_score job (round2 s).
Proof.
  unfold score_entry. split.
  - destruct (calculate_match_score job cv_data) as [s|]; [| discriminate].
    destruct (Qle_bool min_score s) eqn:E; [| discriminate].
    intros [= <-]. apply Qle_bool_iff in E. eauto.
  - intros (s & -> & Hle & ->). apply Qle_bool_iff in Hle. rewrite Hle. reflexivity.
Qed.

Lemma result_elem_firsts (cv_data : CvData) (min_score : Q) (max_results : Z)
    (all_jobs : list Job) (e : Job) :
  e ∈ slice_to max_results (firsts ∅ (sorted_of cv_data min_score all_jobs)) ->
  e ∈ firsts ∅ (sorted_of cv_data min_score all_jobs).
Proof.
  destruct (slice_to_prefix max_results
              (firsts ∅ (sorted_of cv_data min_score all_jobs))) as [k ->].
  intros H. eapply elem_of_sublist; [exact H | apply sublist_take].
Qed.

Lemma result_keys_NoDup (cv_data : CvData) (min_score : Q) (max_results : Z)
    (all_jobs : list Job) :
  NoDup (dedup_key <$>
         slice_to max_results (firsts ∅ (sorted_of cv_data min_score all_jobs))).
Proof.
  destruct (slice_to_prefix max_results
              (firsts ∅ (sorted_of cv_data min_score all_jobs))) as [k ->].
  rewrite fmap_take.
  eapply sublist_NoDup; [apply firsts_keys_NoDup | apply sublist_take].
Qed.

(** what being first with one's key in the sorted list means for the
    collected postings that share the key *)
Lemma first_in_sorted_best (cv_data : CvData) (min_score : Q)
    (all_jobs s1 s2 : list Job) (e : Job) :
  sorted_of cv_data min_score all_jobs = s1 ++ e :: s2 ->
  (forall x, x ∈ s1 -> dedup_key x <> dedup_key e) ->
  exists l1 je l2,
    all_jobs = l1 ++ je :: l2 /\ ranked_from cv_data je e /\
    (forall x s, x ∈ all_jobs -> dedup_key x = dedup_key e ->
       calculate_match_score x cv_data = Ok s -> (round2 s <= stored_score e)%Q) /\
    (forall x s, x ∈ l1 -> dedup_key x = dedup_key e ->
       calculate_match_score x cv_data = Ok s -> (min_score <= s)%Q ->
       (round2 s < stored_score e)%Q).
Proof.
  intros Hsplit Hs1.
  set (P := fun c : Job =>
              dedup_key c = dedup_key e /\ (stored_score c == stored_score e)%Q).
  assert (filter P (matched_of cv_data min_score all_jobs)
          = e :: filter P s2) as Hhead.
  { rewrite <- (filter_first P s1 s2 e).
    - rewrite <- Hsplit. unfold P, sorted_of.
      rewrite <- !(list_filter_filter (fun c => dedup_key c = dedup_key e)
                     (fun c => stored_score c == stored_score e)%Q).
      rewrite sort_desc_stable. reflexivity.
    - intros x Hx [Hk _]. exact (Hs1 x Hx Hk).
    - split; reflexivity. }
  assert (forall x s, x ∈ all_jobs -> dedup_key x = dedup_key e ->
            calculate_match_score x cv_data = Ok s -> (min_score <= s)%Q ->
            (round2 s <= stored_score e)%Q) as Hkept.
  { intros x s Hx Hk Hc Hle.
    assert (set_match_score x (round2 s) ∈ sorted_of cv_data min_score all_jobs) as Hin.
    { apply elem_of_sorted, elem_of_matched. exists x, s. auto. }
    pose proof (sorted_of_sorted cv_data min_score all_jobs) as Hsorted.
    rewrite Hsplit in Hin, Hsorted.
    apply elem_of_app in Hin as [Hin | Hin]; [exfalso; exact (Hs1 _ Hin Hk) |].
    apply StronglySorted_app_1_r, StronglySorted_cons in Hsorted as [Hall _].
    apply elem_of_cons in Hin as [<- | Hin]; [apply Qle_refl |].
    rewrite Forall_forall in Hall. exact (Hall _ Hin). }
  unfold matched_of in Hhead.
  apply omap_filter_head in Hhead as (l1 & je & l2 & Hall & Hje & Hl1).
  exists l1, je, l2. split; [exact Hall |].
  split; [eapply score_entry_ranked; exact Hje |].
  apply score_entry_inv in Hje as (se & Hcje & Hminje & He).
  split.
  - intros x s Hx Hk Hc.
    destruct (Qlt_le_dec s min_score) as [Hlt | Hle]; [| eauto].
    rewrite He. simpl. apply round2_mono. lra.
  - intros x s Hx Hk Hc Hle.
    assert (round2 s <= stored_score e)%Q as Hmax.
    { apply (Hkept x s); auto. rewrite Hall. apply elem_of_app. left. exact Hx. }
    destruct (Qlt_le_dec (round2 s) (stored_score e)) as [Hlt | Hge]; [exact Hlt |].
    exfalso. apply (Hl1 x (set_match_score x (round2 s)) Hx).
    + apply score_entry_inv. eauto.
    + split; [exact Hk |].
      change (round2 s == stored_score e)%Q. apply Qle_antisym; assumption.
Qed.

(** ** C3 *)

(** C3. Two different positions of the list returned by
    [scrape_and_match] never hold the same key (lower-cased title,
    lower-cased company).  Each returned entry is the first entry with
    its key in the sorted list; hence among all collected postings with
    that key none has a higher stored score, and those collected before
    it that passed the [min_score] filter have a strictly lower one. *)
Theorem dedup_keeps_first_of_key (w : World) (path : string) (min_score : Q)
    (max_results hours_old : Z) (res : list Job) :
  scrape_and_match w path min_score max_results hours_old = Ok res ->
  exists cv_data search_term,
    load_cv_profile w path = Ok cv_data /\
    build_search_term (extract_search_keywords cv_data) = Ok search_term /\
    let all_jobs :=
      collect_all w search_term (extract_search_keywords cv_data) hours_old in
    (forall (p q : nat) (a b : Job),
       p <> q -> res !! p = Some a -> res !! q = Some b ->
       dedup_key a <> dedup_key b) /\
    (forall e, e ∈ res ->
       (exists s1 s2,
          sorted_of cv_data min_score all_jobs = s1 ++ e :: s2 /\
          forall x, x ∈ s1 -> dedup_key x <> dedup_key e) /\
       exists l1 je l2,
         all_jobs = l1 ++ je :: l2 /\ ranked_from cv_data je e /\
         (forall x s, x ∈ all_jobs -> dedup_key x = dedup_key e ->
            calculate_match_score x cv_data = Ok s ->
            (round2 s <= stored_score e)%Q) /\
         (forall x s, x ∈ l1 -> dedup_key x = dedup_key e ->
            calculate_match_score x cv_data = Ok s -> (min_score <= s)%Q ->
            (round2 s < stored_score e)%Q)).
Proof.
  intros H. apply scrape_and_match_inv in H as (cv_data & term & Hcv & Ht & ->).
  exists cv_data, term. split; [exact Hcv |]. split; [exact Ht |].
  intros all_jobs. subst all_jobs. split.
  - intros p q a b Hpq Hp Hq Hk. apply Hpq.
    eapply (NoDup_lookup _ p q (dedup_key a));
      [apply (result_keys_NoDup cv_data min_score max_results) | |].
    + rewrite list_lookup_fmap, Hp. reflexivity.
    + rewrite list_lookup_fmap, Hq. simpl. rewrite Hk. reflexivity.
  - intros e He. apply result_elem_firsts, firsts_first in He as (s1 & s2 & Hs & Hs1).
    split; [exists s1, s2; auto |].
    eapply first_in_sorted_best; eassumption.
Qed.

Lemma result_elem_collected (cv_data : CvData) (min_score : Q) (max_results : Z)
    (all_jobs : list Job) (e : Job) :
  e ∈ slice_to max_results (firsts ∅ (sorted_of cv_data min_score all_jobs)) ->
  exists job s, job ∈ all_jobs /\ calculate_match_score job cv_data = Ok s /\
                (min_score <= s)%Q /\ e = set_match_score job (round2 s).
Proof.
  intros He. apply elem_of_matched, elem_of_sorted.
  eapply elem_of_sublist; [exact He | apply result_sublist_sorted].
Qed.

Lemma omap_length_le {A B} (f : A -> option B) (l : list A) :
  (length (omap f l) <= length l)%nat.
Proof.
  induction l as [|x l IH]; [reflexivity |].
  cbn [omap list_omap]. destruct (f x); simpl; lia.
Qed.

Lemma firsts_length_le (cv_data : CvData) (min_score : Q) (all_jobs : list Job) :
  (length (firsts ∅ (sorted_of cv_data min_score all_jobs)) <= length all_jobs)%nat.
Proof.
  etransitivity; [apply sublist_length, firsts_sublist |].
  unfold sorted_of. rewrite (Permutation_length (sort_desc_perm _ _)).
  apply omap_length_le.
Qed.

(** ** C4 *)

(** C4 (as the code has it).  Every entry of the returned list comes from
    a collected posting whose unrounded score is at least [min_score].
    The stored [match_score] is that score rounded to two decimals: it
    is at least [round(min_score, 2)], so never more than 0.005 below
    [min_score], and at least [min_score] itself whenever [min_score] is
    a whole number of hundredths. *)
Theorem kept_entries_reach_min_score (w : World) (path : string) (min_score : Q)
    (max_results hours_old : Z) (res : list Job) :
  scrape_and_match w path min_score max_results hours_old = Ok res ->
  exists cv_data search_term,
    load_cv_profile w path = Ok cv_data /\
    build_search_term (extract_search_keywords cv_data) = Ok search_term /\
    let all_jobs :=
      collect_all w search_term (extract_search_keywords cv_data) hours_old in
    forall e, e ∈ res ->
      exists job s,
        job ∈ all_jobs /\ calculate_match_score job cv_data = Ok s /\
        match_score e = Some (round2 s) /\
        (min_score <= s)%Q /\
        (round2 min_score <= round2 s)%Q /\
        (min_score - (1 # 200) <= round2 s)%Q /\
        (forall k : Z, (min_score == inject_Z k / 100)%Q -> (min_score <= round2 s)%Q).
Proof.
  intros H. apply scrape_and_match_inv in H as (cv_data & term & Hcv & Ht & ->).
  exists cv_data, term. split; [exact Hcv |]. split; [exact Ht |].
  intros all_jobs e He.
  apply result_elem_collected in He as (job & s & Hin & Hc & Hle & ->).
  exists job, s. split; [exact Hin |]. split; [exact Hc |].
  split; [reflexivity |]. split; [exact Hle |].
  pose proof (round2_mono _ _ Hle) as Hmono.
  split; [exact Hmono |]. split.
  - pose proof (round2_near min_score) as [H1 _]. lra.
  - intros k Hk. rewrite <- (round2_hundredths min_score k Hk) at 1. exact Hmono.
Qed.

(** ** C10 *)

(** C10. Every entry of the returned list is a collected posting with
    [match_score] set to [calculate_match_score] of that posting and the
    profile, rounded to two decimals, and the unrounded value is at
    least [min_score].  Conversely the test is on the unrounded value
    alone: a collected posting whose unrounded score reaches [min_score]
    is represented in the result by an entry with its key, unless
    [max_results] cuts the list. *)
Theorem stored_score_rounded_filter_unrounded (w : World) (path : string)
    (min_score : Q) (max_results hours_old : Z) (res : list Job) :
  scrape_and_match w path min_score max_results hours_old = Ok res ->
  exists cv_data search_term,
    load_cv_profile w path = Ok cv_data /\
    build_search_term (extract_search_keywords cv_data) = Ok search_term /\
    let all_jobs :=
      collect_all w search_term (extract_search_keywords cv_data) hours_old in
    (forall e, e ∈ res ->
       exists job s,
         job ∈ all_jobs /\ calculate_match_score job cv_data = Ok s /\
         e = set_match_score job (round2 s) /\ (min_score <= s)%Q) /\
    (forall job s,
       job ∈ all_jobs -> calculate_match_score job cv_data = Ok s ->
       (min_score <= s)%Q -> (Z.of_nat (length all_jobs) <= max_results)%Z ->
       exists e, e ∈ res /\ dedup_key e = dedup_key job).
Proof.
  intros H. apply scrape_and_match_inv in H as (cv_data & term & Hcv & Ht & ->).
  exists cv_data, term. split; [exact Hcv |]. split; [exact Ht |].
  intros all_jobs. subst all_jobs. split.
  - intros e He.
    apply result_elem_collected in He as (job & s & Hin & Hc & Hle & ->).
    exists job, s. auto.
  - intros job s Hin Hc Hle Hmax.
    match goal with |- context [sorted_of _ _ ?l] => set (all_jobs := l) in * end.
    rewrite slice_to_all
      by (pose proof (firsts_length_le cv_data min_score all_jobs); lia).
    assert (set_match_score job (round2 s) ∈ sorted_of cv_data min_score all_jobs)
      as Hs.
    { apply elem_of_sorted, elem_of_matched. exists job, s. auto. }
    destruct (firsts_complete ∅ _ _ Hs) as [Hempty | (e & He & Hk)].
    + exfalso. revert Hempty. apply not_elem_of_empty.
    + exists e. split; [exact He | exact Hk].
Qed.

(** ** The collection phase *)

Lemma append_each_omap {C} (parse : C -> exc (option Job)) (cards : list C)
    (jobs : list Job) :
  append_each parse cards jobs =
  jobs ++ omap (fun card => match parse card with
                            | Ok (Some job) => Some job
                            | Ok None | Raise _ => None
                            end) cards.
Proof.
  unfold append_each. revert jobs.
  induction cards as [|c cards IH]; intros jobs; simpl.
  - rewrite app_nil_r. reflexivity.
  - rewrite IH. cbn [omap list_omap].
    destruct (parse c) as [[job|]|]; [rewrite <- app_assoc |..]; reflexivity.
Qed.

Lemma omap_pointwise {A B} (f g : A -> option B) (l : list A) :
  (forall x, f x = g x) -> omap f l = omap g l.
Proof.
  intros H. induction l as [|x l IH]; [reflexivity |].
  cbn [omap list_omap]. rewrite H, IH. reflexivity.
Qed.

Lemma scrape_emploi_tn_eq (w : World) (search_term : string) (keywords : Keywords)
    (hours_old : Z) :
  scrape_emploi_tn w search_term 30 =
  Ok (contribution w search_term keywords hours_old Emploi).
Proof.
  unfold scrape_emploi_tn, contribution, source_outcome, source_enabled.
  destruct (SELENIUM_AVAILABLE w); [| reflexivity]. cbn [negb].
  destruct (emploi_page w search_term) as [cards|]; [| reflexivity].
  cbn [ebind catch]. rewrite append_each_omap. cbn [app]. f_equal.
  apply omap_pointwise. intros card. unfold emploi_posting.
  destruct (e_parent card) as [[c|]|]; cbn [ebind]; try reflexivity.
  destruct (_parse_emploi_tn_job (now w) c (Some card)); reflexivity.
Qed.

Lemma scrape_tanitjobs_eq (w : World) (search_term : string) (keywords : Keywords)
    (hours_old : Z) :
  scrape_tanitjobs w search_term 30 =
  Ok (contribution w search_term keywords hours_old Tanitjobs).
Proof.
  unfold scrape_tanitjobs, contribution, source_outcome, source_enabled.
  destruct (SELENIUM_AVAILABLE w); [| reflexivity]. cbn [negb].
  destruct (tanit_page w search_term) as [page|]; [| reflexivity].
  cbn [ebind catch]. rewrite append_each_omap. cbn [app]. f_equal.
  apply omap_pointwise. intros card. unfold tanit_posting.
  destruct card as [c|]; [| reflexivity]. cbn [ebind].
  destruct (_parse_tanitjobs_job (now w) c); reflexivity.
Qed.

Lemma scrape_keejob_eq (w : World) (search_term : string) (keywords : Keywords)
    (hours_old : Z) :
  scrape_keejob w search_term 30 =
  Ok (contribution w search_term keywords hours_old Keejob).
Proof.
  unfold scrape_keejob, contribution, source_outcome, source_enabled.
  destruct (SELENIUM_AVAILABLE w); [| reflexivity]. cbn [negb].
  destruct (keejob_page w search_term) as [cards|]; [| reflexivity].
  cbn [ebind catch]. rewrite append_each_omap. cbn [app]. f_equal.
  apply omap_pointwise. intros card. unfold keejob_posting.
  destruct (k_parent card) as [[c|]|]; cbn [ebind]; try reflexivity.
  destruct (_parse_keejob_job (now w) c (Some card)); reflexivity.
Qed.

Lemma foldl_append_map {A B} (f : A -> B) (l : list A) (acc : list B) :
  foldl (fun jobs x => jobs ++ [f x]) acc l = acc ++ map f l.
Proof.
  revert acc. induction l as [|x l IH]; intros acc; simpl.
  - rewrite app_nil_r. reflexivity.
  - rewrite IH, <- app_assoc. reflexivity.
Qed.

Lemma convert_jobspy_map (scraped : string) (jobs_df : list Row) (site_name : string) :
  _convert_jobspy_to_dict scraped jobs_df site_name =
  map (jobspy_job scraped site_name) jobs_df.
Proof.
  unfold _convert_jobspy_to_dict.
  exact (foldl_append_map (jobspy_job scraped site_name) jobs_df []).
Qed.

Lemma sub_market_eq (w : World) (query : JobSpyQuery) (site_name : string)
    (all_jobs : list Job) :
  sub_market w query site_name all_jobs =
  Ok (all_jobs ++
      match scrape_jobs w query with
      | Ok df => jobspy_postings (now w) site_name df
      | Raise _ => []
      end).
Proof.
  unfold sub_market.
  destruct (scrape_jobs w query) as [[rows|]|]; cbn [ebind catch jobspy_postings];
    rewrite ?app_nil_r; try reflexivity.
  destruct rows as [|r rows]; cbn [nonempty_list].
  - rewrite app_nil_r. reflexivity.
  - rewrite convert_jobspy_map. reflexivity.
Qed.

Lemma scrape_international_jobs_eq (w : World) (search_term : string)
    (keywords : Keywords) (hours_old : Z) :
  scrape_international_jobs w search_term
    (str_or (kw_location keywords) "Tunisia") 50 hours_old =
  Ok (contribution w search_term keywords hours_old LinkedIn
      ++ contribution w search_term keywords hours_old IndeedUSA
      ++ contribution w search_term keywords hours_old IndeedFrance
      ++ contribution w search_term keywords hours_old ZipRecruiter).
Proof.
  unfold scrape_international_jobs, contribution, source_outcome, source_enabled.
  destruct (JOBSPY_AVAILABLE w); [| reflexivity]. cbn [negb].
  rewrite !sub_market_eq. cbn [ebind]. rewrite !sub_market_eq. cbn [ebind].
  rewrite !sub_market_eq. cbn [ebind]. rewrite !sub_market_eq. cbn [ebind app].
  rewrite <- !app_assoc.
  repeat match goal with
         | |- context [scrape_jobs w ?q] => destruct (scrape_jobs w q)
         end; reflexivity.
Qed.

Lemma disabled_contribution (w : World) (search_term : string) (keywords : Keywords)
    (hours_old : Z) (s : Source) :
  source_enabled w s = false -> contribution w search_term keywords hours_old s = [].
Proof. unfold contribution. intros ->. reflexivity. Qed.

Lemma collect_all_eq (w : World) (search_term : string) (keywords : Keywords)
    (hours_old : Z) :
  collect_all w search_term keywords hours_old =
  contribution w search_term keywords hours_old Emploi
  ++ contribution w search_term keywords hours_old Tanitjobs
  ++ contribution w search_term keywords hours_old Keejob
  ++ contribution w search_term keywords hours_old LinkedIn
  ++ contribution w search_term keywords hours_old IndeedUSA
  ++ contribution w search_term keywords hours_old IndeedFrance
  ++ contribution w search_term keywords hours_old ZipRecruiter.
Proof.
  unfold collect_all, collect_tunisia, collect_international.
  rewrite (scrape_emploi_tn_eq w search_term keywords hours_old),
          (scrape_tanitjobs_eq w search_term keywords hours_old),
          (scrape_keejob_eq w search_term keywords hours_old),
          (scrape_international_jobs_eq w search_term keywords hours_old).
  destruct (SELENIUM_AVAILABLE w) eqn:Hs; destruct (JOBSPY_AVAILABLE w) eqn:Hj;
    rewrite ?(disabled_contribution w _ _ _ Emploi Hs),
            ?(disabled_contribution w _ _ _ Tanitjobs Hs),
            ?(disabled_contribution w _ _ _ Keejob Hs),
            ?(disabled_contribution w _ _ _ LinkedIn Hj),
            ?(disabled_contribution w _ _ _ IndeedUSA Hj),
            ?(disabled_contribution w _ _ _ IndeedFrance Hj),
            ?(disabled_contribution w _ _ _ ZipRecruiter Hj);
    cbn [app]; rewrite <- ?app_assoc, ?app_nil_r; reflexivity.
Qed.

(** ** C6 *)

(** C6. None of the collectors raises, whatever its fetch does, and the
    collected list is the concatenation, in visiting order, of what each
    source contributes: the postings of its fetch when that succeeded,
    and nothing when it failed.  A failing source (site or
    international sub-market) therefore contributes no posting and
    changes nothing to what the other sources contribute. *)
Theorem collection_isolates_failures (w : World) (search_term : string)
    (keywords : Keywords) (hours_old : Z) :
  is_ok (scrape_emploi_tn w search_term 30) = true /\
  is_ok (scrape_tanitjobs w search_term 30) = true /\
  is_ok (scrape_keejob w search_term 30) = true /\
  is_ok (scrape_international_jobs w search_term
           (str_or (kw_location keywords) "Tunisia") 50 hours_old) = true /\
  collect_all w search_term keywords hours_old =
    contribution w search_term keywords hours_old Emploi
    ++ contribution w search_term keywords hours_old Tanitjobs
    ++ contribution w search_term keywords hours_old Keejob
    ++ contribution w search_term keywords hours_old LinkedIn
    ++ contribution w search_term keywords hours_old IndeedUSA
    ++ contribution w search_term keywords hours_old IndeedFrance
    ++ contribution w search_term keywords hours_old ZipRecruiter /\
  (forall s e,
     source_outcome w search_term keywords hours_old s = Raise e ->
     contribution w search_term keywords hours_old s = []) /\
  (forall s jobs,
     source_enabled w s = true ->
     source_outcome w search_term keywords hours_old s = Ok jobs ->
     contribution w search_term keywords hours_old s = jobs).
Proof.
  rewrite (scrape_emploi_tn_eq w search_term keywords hours_old),
          (scrape_tanitjobs_eq w search_term keywords hours_old),
          (scrape_keejob_eq w search_term keywords hours_old),
          (scrape_international_jobs_eq w search_term keywords hours_old).
  repeat (split; [reflexivity |]).
  split; [apply collect_all_eq |]. split.
  - intros s e H. unfold contribution. rewrite H. destruct (source_enabled w s); reflexivity.
  - intros s jobs He H. unfold contribution. rewrite He, H. reflexivity.
Qed.

(** ** C7 *)

(** As stated the rule fails: for a long title and a first domain of two
    words the code returns the first word of the domain, not the
    domain. *)
Lemma build_search_term_not_first_domain :
  build_search_term kw_web = Ok "web" /\
  build_search_term_spec kw_web = "web development" /\
  build_search_term kw_web <> Ok (build_search_term_spec kw_web).
Proof.
  split; [reflexivity |]. split; [reflexivity |]. discriminate.
Qed.

(** C7 (as the code has it).  [build_search_term] returns the title when
    it is non-empty and has at most four words.  Otherwise, when the
    first declared domain contains a word, it returns the first word of
    that domain.  Otherwise, when there is no domain or the first domain
    is the empty string, it returns the first technical skill if there
    is one and ["informatique"] if there is none. *)
Theorem build_search_term_rule (keywords : Keywords) :
  (kw_title keywords <> "" ->
   (length (PyStr.split (kw_title keywords)) <= 4)%nat ->
   build_search_term keywords = Ok (kw_title keywords)) /\
  (kw_title keywords = "" \/ (4 < length (PyStr.split (kw_title keywords)))%nat ->
   (forall d ds word words,
      kw_domains keywords = d :: ds -> PyStr.split d = word :: words ->
      build_search_term keywords = Ok word) /\
   (kw_domains keywords = [] \/ (exists ds, kw_domains keywords = "" :: ds) ->
    (forall s ss, kw_skills keywords = s :: ss -> build_search_term keywords = Ok s) /\
    (kw_skills keywords = [] -> build_search_term keywords = Ok default_term))).
Proof.
  unfold build_search_term. split.
  - intros Hne Hlen. apply nonempty_true in Hne. rewrite Hne.
    apply Nat.leb_le in Hlen. rewrite Hlen. reflexivity.
  - intros Hlong.
    assert (PyStr.nonempty (kw_title keywords)
            && (length (PyStr.split (kw_title keywords)) <=? 4)%nat = false) as ->.
    { destruct Hlong as [-> | Hlen]; [reflexivity |].
      apply andb_false_iff. right. apply Nat.leb_gt. exact Hlen. }
    split.
    + intros d ds word words -> Hsplit.
      pose proof (split_cons_nonempty _ _ _ Hsplit) as Hd.
      cbn [nonempty_list andb index0 ebind]. rewrite Hd, Hsplit. reflexivity.
    + intros Hdom.
      assert (nonempty_list (kw_domains keywords)
              && match kw_domains keywords with
                 | d :: _ => PyStr.nonempty d
                 | [] => false
                 end = false) as ->.
      { destruct Hdom as [-> | [ds ->]]; reflexivity. }
      split.
      * intros s ss ->. reflexivity.
      * intros ->. reflexivity.
Qed.

Lemma build_search_term_rule_witness :
  (kw_title kw_web = "" \/ (4 < length (PyStr.split (kw_title kw_web)))%nat) /\
  kw_domains kw_web = ["web development"; "cloud"] /\
  PyStr.split "web development" = ["web"; "development"] /\
  build_search_term kw_web = Ok "web".
Proof.
  assert (kw_title kw_web = "" \/ (4 < length (PyStr.split (kw_title kw_web)))%nat)
    as Hlong by (right; vm_compute; lia).
  split; [exact Hlong |]. split; [reflexivity |]. split; [reflexivity |].
  exact (proj1 (proj2 (build_search_term_rule kw_web) Hlong)
           "web development" ["cloud"] "web" ["development"] eq_refl eq_refl).
Defined.

(** ** C5 *)

Lemma job_if_title_some (job j : Job) :
  job_if_title job = Some j -> j = job /\ has_title j.
Proof.
  unfold job_if_title, has_title.
  destruct (title job) as [t|] eqn:E; simpl; [| discriminate].
  destruct (PyStr.nonempty t) eqn:Ht; [| discriminate].
  intros [= <-]. split; [reflexivity |]. exists t. split; [exact E |].
  apply nonempty_true. exact Ht.
Qed.

Lemma job_if_title_none (job : Job) :
  title job = Some "" -> job_if_title job = None.
Proof. unfold job_if_title. intros ->. reflexivity. Qed.

(** The three Tunisia parsers only return postings that have a title. *)
Lemma tunisia_parsers_titled (scraped : string) :
  (forall c h j, _parse_emploi_tn_job scraped c h = Some j -> has_title j) /\
  (forall c j, _parse_tanitjobs_job scraped c = Some j -> has_title j) /\
  (forall c h j, _parse_keejob_job scraped c h = Some j -> has_title j).
Proof.
  repeat split; intros; eapply job_if_title_some; eassumption.
Qed.

(** Every posting the Tunisia collectors contribute has a title. *)
Lemma tunisia_contributions_titled (w : World) (search_term : string)
    (keywords : Keywords) (hours_old : Z) (s : Source) (job : Job) :
  s = Emploi \/ s = Tanitjobs \/ s = Keejob ->
  job ∈ contribution w search_term keywords hours_old s -> has_title job.
Proof.
  destruct (tunisia_parsers_titled (now w)) as (He & Ht & Hk).
  unfold contribution, source_outcome.
  intros [-> | [-> | ->]]; destruct (source_enabled w _);
    try (intros H; inversion H; fail).
  - destruct (emploi_page w search_term) as [cards|]; cbn [ebind];
      [| intros H; inversion H].
    rewrite list_elem_of_omap. intros (card & _ & H). unfold emploi_posting in H.
    destruct (e_parent card) as [[c|]|]; try discriminate. eapply He, H.
  - destruct (tanit_page w search_term) as [page|]; cbn [ebind];
      [| intros H; inversion H].
    rewrite list_elem_of_omap. intros (card & _ & H). unfold tanit_posting in H.
    destruct card as [c|]; try discriminate. eapply Ht, H.
  - destruct (keejob_page w search_term) as [cards|]; cbn [ebind];
      [| intros H; inversion H].
    rewrite list_elem_of_omap. intros (card & _ & H). unfold keejob_posting in H.
    destruct (k_parent card) as [[c|]|]; try discriminate. eapply Hk, H.
Qed.

(** A heading without link text yields no posting on Emploitunisie.com
    and Keejob, and an untitled card none on Tanitjobs. *)
Lemma tunisia_parsers_drop_untitled (scraped : string) :
  (forall c h, (e_link h = None \/ exists href, e_link h = Some {| a_text := ""; a_href := href |}) ->
     _parse_emploi_tn_job scraped c (Some h) = None) /\
  (forall c, (t_title_elem c = None \/ exists te, t_title_elem c = Some te /\ tt_text te = "") ->
     _parse_tanitjobs_job scraped c = None) /\
  (forall c h, (k_link h = None \/ exists href, k_link h = Some {| a_text := ""; a_href := href |}) ->
     _parse_keejob_job scraped c (Some h) = None).
Proof.
  assert (forall pats text job, title (first_location pats text job) = title job) as Hfl.
  { intros pats text job. unfold first_location.
    destruct (List.find _ pats); reflexivity. }
  assert (forall pats texts job, title (keejob_location pats texts job) = title job) as Hkl.
  { intros pats texts. induction texts as [|t texts IH]; intros job; [reflexivity |].
    simpl. destruct (negb _); [apply Hfl |]. rewrite IH. apply Hfl. }
  assert (forall o job, title (read_company o job) = title job) as Hrc
    by (intros [c|] job; reflexivity).
  assert (forall o job, title (read_description o job) = title job) as Hrd
    by (intros [c|] job; reflexivity).
  repeat split.
  - intros c h Hl. unfold _parse_emploi_tn_job. cbv zeta. apply job_if_title_none.
    rewrite Hrd, Hfl, Hrc. destruct Hl as [-> | [href ->]]; [reflexivity |].
    unfold read_title_link. cbv zeta. destruct (negb _); reflexivity.
  - intros c Hl. unfold _parse_tanitjobs_job. cbv zeta. apply job_if_title_none.
    assert (forall job v, title (set_location job v) = title job) as Hsl
      by reflexivity.
    rewrite Hrd. destruct (t_location c); rewrite ?Hsl, Hrc;
      (destruct Hl as [-> | (te & -> & Hte)]; [reflexivity |]);
      rewrite Hte; destruct (_ && _); try destruct (negb _); reflexivity.
  - intros c h Hl. unfold _parse_keejob_job. cbv zeta. apply job_if_title_none.
    rewrite Hrd, Hkl, Hrc. destruct Hl as [-> | [href ->]]; [reflexivity |].
    unfold read_title_link. cbv zeta. destruct (negb _); reflexivity.
Qed.

(** C5, at the input where the code departs from it.  The JobSpy
    converter keeps a row whose title is the empty string: the posting
    it builds has an empty title, and [scrape_and_match] returns it when
    [min_score] is 0. *)
Theorem jobspy_converter_keeps_empty_title :
  (forall scraped site_name,
     exists job,
       _convert_jobspy_to_dict scraped [empty_title_row] site_name = [job] /\
       title job = Some "" /\ ~ has_title job) /\
  exists res job,
    scrape_and_match demo_world "cv.json" 0 50 720 = Ok res /\
    job ∈ res /\ title job = Some "".
Proof.
  split.
  - intros scraped site_name. eexists. split; [reflexivity |].
    split; [reflexivity |]. intros (t & Ht & Hne). simpl in Ht. congruence.
  - eexists. eexists. split; [vm_compute; reflexivity |].
    split; [do 3 right; left | reflexivity].
Qed.

(** ** The statements at concrete inputs *)

Lemma missing_fields_contribute_zero_witness :
  no_domains bare_cv /\ no_skills bare_cv /\ no_text (cv_title bare_cv) /\
  no_text (title bare_job) /\ no_text (location bare_job) /\
  is_remote bare_job = None /\
  check_domains (job_text bare_job) bare_cv 0 = Ok 0%Q /\
  check_skills (job_text bare_job) bare_cv 0 = Ok 0%Q /\
  check_title bare_job bare_cv 0 = Ok 0%Q /\
  check_presence bare_job 0 = 0%Q /\
  check_location bare_job 0 = 0%Q.
Proof.
  assert (no_domains bare_cv) as Hd by exact I.
  assert (no_skills bare_cv) as Hs by exact I.
  assert (no_text (cv_title bare_cv)) as Hc by (left; reflexivity).
  assert (no_text (title bare_job)) as Ht by (left; reflexivity).
  assert (no_text (location bare_job)) as Hl by (left; reflexivity).
  assert (is_remote bare_job = None) as Hr by reflexivity.
  destruct (missing_fields_contribute_zero bare_job bare_cv 0)
    as (_ & H1 & H2 & H3 & H4 & H5).
  repeat (split; [assumption |]).
  split; [exact (H1 Hd) |]. split; [exact (H2 Hs) |]. split; [exact (H3 Hc) |].
  split; [exact (proj1 (H4 Ht)) | exact (H5 Hl Hr)].
Defined.

Lemma skill_overlap_contribution_witness :
  skills skills_cv = Some {| technical := Some ["Python"; "Machine Learning"; "Kubernetes"] |} /\
  (skill_overlap_spec (job_text python_job)
     ["Python"; "Machine Learning"; "Kubernetes"] == 35 # 2)%Q /\
  exists s, calculate_match_score python_job skills_cv = Ok s /\
    (s == presence_signal python_job + domain_signal (job_text python_job) skills_cv
          + skill_overlap_spec (job_text python_job)
              ["Python"; "Machine Learning"; "Kubernetes"]
          + location_signal python_job + title_signal python_job skills_cv)%Q.
Proof.
  split; [reflexivity |]. split; [vm_compute; reflexivity |].
  refine (proj2 (skill_overlap_contribution python_job skills_cv
                   {| technical := Some ["Python"; "Machine Learning"; "Kubernetes"] |}
                   ["Python"; "Machine Learning"; "Kubernetes"]
                   eq_refl eq_refl _)).
  discriminate.
Defined.

Lemma collection_isolates_failures_witness :
  source_outcome demo_world "alpha betas gamma" (extract_search_keywords demo_cv)
    720 IndeedUSA = Raise (OtherException "timeout") /\
  contribution demo_world "alpha betas gamma" (extract_search_keywords demo_cv)
    720 IndeedUSA = [] /\
  collect_all demo_world "alpha betas gamma" (extract_search_keywords demo_cv) 720 =
    map (jobspy_job "2024-01-01T00:00:00" "LinkedIn") linkedin_rows
    ++ [jobspy_job "2024-01-01T00:00:00" "Indeed France" empty_title_row].
Proof.
  assert (source_outcome demo_world "alpha betas gamma"
            (extract_search_keywords demo_cv) 720 IndeedUSA
          = Raise (OtherException "timeout")) as Hfail by reflexivity.
  destruct (collection_isolates_failures demo_world "alpha betas gamma"
              (extract_search_keywords demo_cv) 720)
    as (_ & _ & _ & _ & Hall & Hzero & _).
  split; [exact Hfail |]. split; [exact (Hzero _ _ Hfail) |].
  rewrite Hall. reflexivity.
Defined.

Lemma demo_run :
  scrape_and_match demo_world "cv.json" 13 50 720 = Ok demo_result.
Proof. vm_compute. reflexivity. Qed.

Lemma demo_run_fine_threshold :
  scrape_and_match demo_world "cv.json" (13333 # 1000) 50 720 = Ok demo_result.
Proof. vm_compute. reflexivity. Qed.

(** a threshold above every score gives the empty list, not an error *)
Example demo_run_high_threshold :
  scrape_and_match demo_world "cv.json" 50 50 720 = Ok [].
Proof. vm_compute. reflexivity. Qed.

(** [max_results] cuts the ranked list *)
Example demo_run_truncated :
  scrape_and_match demo_world "cv.json" 13 2 720 = Ok (take 2 demo_result).
Proof. vm_compute. reflexivity. Qed.

(** As stated C4 fails: with [min_score = 13.333] the posting
    "gamma analyst" scores 40/3, passes the filter, and is returned with
    [match_score = 13.33]. *)
Lemma stored_score_below_min_score :
  scrape_and_match demo_world "cv.json" (13333 # 1000) 50 720 = Ok demo_result /\
  exists e v, e ∈ demo_result /\ match_score e = Some v /\ (v < 13333 # 1000)%Q.
Proof.
  split; [exact demo_run_fine_threshold |].
  exists (demo_entry "LinkedIn" (row "gamma analyst" "Beta" "Lyon") (round2 (40 # 3))),
         (round2 (40 # 3)).
  split; [right; left |]. split; [reflexivity |]. vm_compute. reflexivity.
Qed.

Lemma kept_entries_reach_min_score_witness :
  scrape_and_match demo_world "cv.json" (13333 # 1000) 50 720 = Ok demo_result /\
  forall e, e ∈ demo_result ->
    exists job s,
      job ∈ collect_all demo_world "alpha betas gamma"
              (extract_search_keywords demo_cv) 720 /\
      calculate_match_score job demo_cv = Ok s /\
      match_score e = Some (round2 s) /\
      (13333 # 1000 <= s)%Q /\
      ((13333 # 1000) - (1 # 200) <= round2 s)%Q.
Proof.
  split; [exact demo_run_fine_threshold |].
  destruct (kept_entries_reach_min_score demo_world "cv.json" (13333 # 1000) 50 720
              demo_result demo_run_fine_threshold)
    as (cv_data & term & Hcv & Ht & Hres).
  injection Hcv as <-. injection Ht as <-.
  intros e He. destruct (Hres e He) as (job & s & H1 & H2 & H3 & H4 & _ & H6 & _).
  exists job, s. auto.
Defined.

Lemma ranked_descending_stable_witness :
  scrape_and_match demo_world "cv.json" 13 50 720 = Ok demo_result /\
  forall (p q : nat) (a b : Job),
    (p < q)%nat -> demo_result !! p = Some a -> demo_result !! q = Some b ->
    exists sa sb,
      match_score a = Some sa /\ match_score b = Some sb /\ (sb <= sa)%Q /\
      ((sa == sb)%Q ->
       exists l1 ja l2 jb l3,
         collect_all demo_world "alpha betas gamma"
           (extract_search_keywords demo_cv) 720 = l1 ++ ja :: l2 ++ jb :: l3 /\
         ranked_from demo_cv ja a /\ ranked_from demo_cv jb b).
Proof.
  split; [exact demo_run |].
  destruct (ranked_descending_stable demo_world "cv.json" 13 50 720
              demo_result demo_run)
    as (cv_data & term & Hcv & Ht & Hres).
  injection Hcv as <-. injection Ht as <-. exact Hres.
Defined.

Lemma dedup_keeps_first_of_key_witness :
  scrape_and_match demo_world "cv.json" 13 50 720 = Ok demo_result /\
  (forall (p q : nat) (a b : Job),
     p <> q -> demo_result !! p = Some a -> demo_result !! q = Some b ->
     dedup_key a <> dedup_key b) /\
  (forall e, e ∈ demo_result ->
     forall x s,
       x ∈ collect_all demo_world "alpha betas gamma"
             (extract_search_keywords demo_cv) 720 ->
       dedup_key x = dedup_key e -> calculate_match_score x demo_cv = Ok s ->
       (round2 s <= stored_score e)%Q).
Proof.
  split; [exact demo_run |].
  destruct (dedup_keeps_first_of_key demo_world "cv.json" 13 50 720
              demo_result demo_run)
    as (cv_data & term & Hcv & Ht & Hkeys & Hbest).
  injection Hcv as <-. injection Ht as <-.
  split; [exact Hkeys |].
  intros e He. destruct (Hbest e He) as (_ & l1 & je & l2 & _ & _ & Hmax & _).
  exact Hmax.
Defined.

Lemma stored_score_rounded_filter_unrounded_witness :
  scrape_and_match demo_world "cv.json" 13 50 720 = Ok demo_result /\
  forall e, e ∈ demo_result ->
    exists job s,
      job ∈ collect_all demo_world "alpha betas gamma"
              (extract_search_keywords demo_cv) 720 /\
      calculate_match_score job demo_cv = Ok s /\
      e = set_match_score job (round2 s) /\ (13 <= s)%Q.
Proof.
  split; [exact demo_run |].
  destruct (stored_score_rounded_filter_unrounded demo_world "cv.json" 13 50 720
              demo_result demo_run)
    as (cv_data & term & Hcv & Ht & Hres & _).
  injection Hcv as <-. injection Ht as <-. exact Hres.
Defined.

(* ===================================================================== *)
(** * Further properties of the scraper *)
(* ===================================================================== *)

(** ** Errors of [build_search_term] and [scrape_and_match] *)

Lemma split_nil_blank (s : string) : PyStr.split s = [] <-> blank s = true.
Proof.
  induction s as [|c r IH]; [simpl; tauto |].
  cbn [PyStr.split blank]. destruct (PyStr.is_space c); [exact IH |].
  simpl. split; [| discriminate].
  destruct (PyStr.starts_word r); [destruct (PyStr.split r) |]; discriminate.
Qed.

(** [build_search_term] raises only [IndexError], and exactly when the
    title is unusable (empty or longer than four words) and the first
    domain is a non-empty string of white space. *)
Theorem build_search_term_raises (keywords : Keywords) (e : exn) :
  build_search_term keywords = Raise e <->
  e = IndexError /\ title_unusable keywords /\
  exists d ds, kw_domains keywords = d :: ds /\ d <> "" /\ blank d = true.
Proof.
  unfold build_search_term, title_unusable.
  destruct (PyStr.nonempty (kw_title keywords)) eqn:Ht; cbn [andb].
  - destruct (length (PyStr.split (kw_title keywords)) <=? 4)%nat eqn:Hl.
    + split; [discriminate |]. intros (_ & [H | H] & _).
      * apply nonempty_false in H. congruence.
      * apply Nat.leb_le in Hl. lia.
    + apply Nat.leb_gt in Hl.
      destruct (kw_domains keywords) as [|d ds]; cbn [nonempty_list andb].
      * destruct (nonempty_list (kw_skills keywords)) eqn:Hs.
        -- destruct (kw_skills keywords); [discriminate |]. split; [discriminate |].
           intros (_ & _ & d & ds & H & _). discriminate.
        -- split; [discriminate |]. intros (_ & _ & d & ds & H & _). discriminate.
      * destruct (PyStr.nonempty d) eqn:Hd; cbn [index0 ebind].
        -- rewrite Hd. destruct (PyStr.split d) as [|wd wds] eqn:Hsp; cbn [index0].
           ++ split.
              ** intros [= <-]. split; [reflexivity |]. split; [right; exact Hl |].
                 exists d, ds. split; [reflexivity |].
                 split; [apply nonempty_true, Hd | apply split_nil_blank, Hsp].
              ** intros (-> & _). reflexivity.
           ++ split; [discriminate |].
              intros (_ & _ & d' & ds' & [= <- <-] & _ & Hb).
              apply split_nil_blank in Hb. congruence.
        -- assert (forall x, (if nonempty_list (kw_skills keywords)
                              then index0 (kw_skills keywords)
                              else Ok default_term) <> Raise x) as Hsk
             by (intros x; destruct (kw_skills keywords); discriminate).
           split; [intros H; exfalso; exact (Hsk _ H) |].
           intros (_ & _ & d' & ds' & [= <- <-] & Hne & _).
           apply nonempty_true in Hne. congruence.
  - assert (title_unusable keywords) as Htu.
    { left. apply nonempty_false, Ht. }
    destruct (kw_domains keywords) as [|d ds]; cbn [nonempty_list andb].
    + destruct (kw_skills keywords); cbn [nonempty_list index0];
        (split; [discriminate | intros (_ & _ & d & ds & H & _); discriminate]).
    + destruct (PyStr.nonempty d) eqn:Hd; cbn [index0 ebind].
      * rewrite Hd. destruct (PyStr.split d) as [|wd wds] eqn:Hsp; cbn [index0].
        -- split.
           ++ intros [= <-]. split; [reflexivity |]. split; [exact Htu |].
              exists d, ds. split; [reflexivity |].
              split; [apply nonempty_true, Hd | apply split_nil_blank, Hsp].
           ++ intros (-> & _). reflexivity.
        -- split; [discriminate |].
           intros (_ & _ & d' & ds' & [= <- <-] & _ & Hb).
           apply split_nil_blank in Hb. congruence.
      * destruct (kw_skills keywords); cbn [nonempty_list index0];
          (split; [discriminate |]);
          intros (_ & _ & d' & ds' & [= <- <-] & Hne & _);
          apply nonempty_true in Hne; congruence.
Qed.

(** the decision tree of [build_search_term], flattened *)
Lemma build_search_term_tree (keywords : Keywords) :
  build_search_term keywords =
  if PyStr.nonempty (kw_title keywords)
     && (length (PyStr.split (kw_title keywords)) <=? 4)%nat
  then Ok (kw_title keywords)
  else
    let from_skills :=
      match kw_skills keywords with
      | s :: _ => Ok s
      | [] => Ok default_term
      end in
    match kw_domains keywords with
    | d :: _ => if PyStr.nonempty d then index0 (PyStr.split d) else from_skills
    | [] => from_skills
    end.
Proof.
  unfold build_search_term.
  destruct (PyStr.nonempty (kw_title keywords) && _); [reflexivity |].
  destruct (kw_domains keywords) as [|d ds]; cbn [nonempty_list andb].
  - destruct (kw_skills keywords); reflexivity.
  - destruct (PyStr.nonempty d) eqn:Hd; cbn [index0 ebind].
    + rewrite Hd. reflexivity.
    + destruct (kw_skills keywords); reflexivity.
Qed.

Lemma title_test_false (keywords : Keywords) :
  PyStr.nonempty (kw_title keywords)
  && (length (PyStr.split (kw_title keywords)) <=? 4)%nat = false <->
  title_unusable keywords.
Proof.
  unfold title_unusable.
  rewrite andb_false_iff, nonempty_false, Nat.leb_gt. reflexivity.
Qed.

(** The search term is the empty string exactly when it is taken from
    the skills and the first skill is the empty string. *)
Theorem build_search_term_empty (keywords : Keywords) :
  build_search_term keywords = Ok "" <->
  title_unusable keywords /\
  (kw_domains keywords = [] \/ exists ds, kw_domains keywords = "" :: ds) /\
  exists ss, kw_skills keywords = "" :: ss.
Proof.
  rewrite build_search_term_tree, <- title_test_false.
  destruct (PyStr.nonempty (kw_title keywords) && _) eqn:Ht.
  - split; [| intros (H & _); discriminate].
    intros [= H]. apply andb_true_iff in Ht as [Ht _]. rewrite H in Ht. discriminate.
  - cbv zeta.
    assert ((match kw_skills keywords with
             | s :: _ => Ok s
             | [] => Ok default_term
             end = Ok "") <-> exists ss, kw_skills keywords = "" :: ss) as Hsk.
    { destruct (kw_skills keywords) as [|s ss].
      - split; [discriminate | intros [ss H]; discriminate].
      - split; [intros [= ->]; eauto | intros [ss' [= -> _]]; reflexivity]. }
    destruct (kw_domains keywords) as [|d ds].
    + rewrite Hsk. split; [intros H; auto | intros (_ & _ & H); exact H].
    + destruct d as [|c d']; cbn [PyStr.nonempty].
      * rewrite Hsk. split; [intros H; eauto 6 | intros (_ & _ & H); exact H].
      * split.
        -- intros H. exfalso.
           pose proof (split_words (String c d')) as Hw.
           destruct (PyStr.split (String c d')) as [|wd wds]; [discriminate |].
           injection H as ->. apply Forall_cons in Hw as [[Hw _] _]. discriminate.
        -- intros (_ & [H | [ds' H]] & _); discriminate.
Qed.

Lemma scrape_and_match_eq (w : World) (path : string) (min_score : Q)
    (max_results hours_old : Z) :
  scrape_and_match w path min_score max_results hours_old =
  (cv_data <-! load_cv_profile w path;
   search_term <-! build_search_term (extract_search_keywords cv_data);
   Ok (slice_to max_results
         (firsts ∅ (sorted_of cv_data min_score
            (collect_all w search_term (extract_search_keywords cv_data) hours_old))))).
Proof.
  unfold scrape_and_match.
  destruct (load_cv_profile w path) as [cv_data|]; [| reflexivity]. cbn [ebind].
  destruct (build_search_term (extract_search_keywords cv_data)); [| reflexivity].
  cbn [ebind]. apply rank_jobs_eq.
Qed.

(** The profile is read before any site: an error of [load_cv_profile]
    leaves [scrape_and_match] as it is, and a profile whose title is
    unusable (empty or longer than four words) while its first domain is
    a non-empty string of white space makes the run raise [IndexError],
    whatever the sites would return and whatever the thresholds. *)
Theorem profile_errors_abort_run (w : World) (path : string) (min_score : Q)
    (max_results hours_old : Z) :
  (forall e, load_cv_profile w path = Raise e ->
     scrape_and_match w path min_score max_results hours_old = Raise e) /\
  (forall cv_data d ds,
     load_cv_profile w path = Ok cv_data ->
     title_unusable (extract_search_keywords cv_data) ->
     kw_domains (extract_search_keywords cv_data) = d :: ds ->
     d <> "" -> blank d = true ->
     scrape_and_match w path min_score max_results hours_old = Raise IndexError).
Proof.
  split.
  - intros e H. unfold scrape_and_match. rewrite H. reflexivity.
  - intros cv_data d ds H Ht Hd Hne Hb.
    rewrite scrape_and_match_eq, H. cbn [ebind].
    rewrite build_search_term_tree.
    apply title_test_false in Ht. rewrite Ht, Hd. cbv zeta.
    apply nonempty_true in Hne. rewrite Hne.
    apply split_nil_blank in Hb. rewrite Hb. reflexivity.
Qed.

Lemma profile_errors_abort_run_witness :
  scrape_and_match blank_domain_world "cv.json" 15 50 720 = Raise IndexError.
Proof.
  apply (proj2 (profile_errors_abort_run blank_domain_world "cv.json" 15 50 720)
           blank_domain_cv "  " ["web development"]).
  - reflexivity.
  - right. vm_compute. lia.
  - reflexivity.
  - discriminate.
  - reflexivity.
Defined.

(** ** The score as a sum of signals *)

Lemma check_skills_signal (text : string) (cv_data : CvData) (score : Q) :
  exists r, check_skills text cv_data score = Ok r /\
            (r == score + skill_signal text cv_data)%Q.
Proof.
  unfold skill_signal, check_skills.
  destruct (skills cv_data) as [sk|]; [| exists score; split; [easy | lra]].
  destruct (technical sk) as [tech|]; [| exists score; split; [easy | lra]].
  cbv zeta.
  destruct (nonempty_list (slice_to 20 tech)) eqn:Hk;
    [| exists score; split; [easy | lra]].
  rewrite (py_div_pos _ _ (len_pos _ Hk)). simpl.
  eexists; split; [reflexivity | lra].
Qed.

Lemma signal_ranges (job : Job) (cv_data : CvData) :
  (0 <= presence_signal job <= 10)%Q /\
  (0 <= domain_signal (job_text job) cv_data <= 30)%Q /\
  (0 <= skill_signal (job_text job) cv_data <= 35)%Q /\
  (0 <= location_signal job <= 15)%Q /\
  (0 <= title_signal job cv_data <= 10)%Q.
Proof.
  unfold presence_signal, domain_signal, skill_signal, location_signal, title_signal.
  pose proof (check_presence_bounds job 0) as [P1 P2].
  destruct (check_domains_bounds (job_text job) cv_data 0) as (d & -> & D1 & D2).
  destruct (check_skills_bounds (job_text job) cv_data 0) as (k & -> & K1 & K2).
  pose proof (check_location_bounds job 0) as [L1 L2].
  destruct (check_title_bounds job cv_data 0) as (t & -> & T1 & T2).
  repeat split; lra.
Qed.

Lemma calculate_match_score_bounds (job : Job) (cv_data : CvData) :
  exists s, calculate_match_score job cv_data = Ok s /\ (0 <= s)%Q /\ (s <= 100)%Q.
Proof.
  destruct (calculate_match_score_sum job cv_data (skill_signal (job_text job) cv_data))
    as (s & Hs & E); [intros score; apply check_skills_signal |].
  pose proof (signal_ranges job cv_data) as (P & D & K & L & T).
  exists s. split; [exact Hs |]. split; lra.
Qed.

(** The score is the plain sum of five signals, each within its weight:
    presence in [0, 10], domains in [0, 30], skills in [0, 35], location
    0 or 15, title in [0, 10].  The weights add up to 100, so the
    closing [min(score, 100.0)] never changes the result. *)
Theorem score_is_sum_of_signals (job : Job) (cv_data : CvData) :
  exists s,
    calculate_match_score job cv_data = Ok s /\
    (s == presence_signal job + domain_signal (job_text job) cv_data
          + skill_signal (job_text job) cv_data
          + location_signal job + title_signal job cv_data)%Q /\
    (presence_signal job = 0%Q \/ presence_signal job = (0 + 10)%Q) /\
    (0 <= domain_signal (job_text job) cv_data <= 30)%Q /\
    (0 <= skill_signal (job_text job) cv_data <= 35)%Q /\
    (location_signal job = 0%Q \/ location_signal job = (0 + 15)%Q) /\
    (0 <= title_signal job cv_data <= 10)%Q.
Proof.
  destruct (calculate_match_score_sum job cv_data (skill_signal (job_text job) cv_data))
    as (s & Hs & E); [intros score; apply check_skills_signal |].
  pose proof (signal_ranges job cv_data) as (P & D & K & L & T).
  exists s. split; [exact Hs |]. split; [exact E |].
  split; [unfold presence_signal, check_presence; destruct (PyStr.nonempty _); auto |].
  split; [exact D |]. split; [exact K |].
  split; [unfold location_signal, check_location; destruct (_ || _); auto |].
  exact T.
Qed.

(** ** Truncation and thresholds *)

Lemma slice_to_length_nonneg {A} (n : Z) (l : list A) :
  (0 <= n)%Z -> length (slice_to n l) = Nat.min (Z.to_nat n) (length l).
Proof.
  intros Hn. unfold slice_to. apply Z.leb_le in Hn. rewrite Hn. apply length_take.
Qed.

(** The list returned by [scrape_and_match] has at most [max_results]
    entries when [max_results] is not negative. *)
Theorem result_length (w : World) (path : string) (min_score : Q)
    (max_results hours_old : Z) (res : list Job) :
  scrape_and_match w path min_score max_results hours_old = Ok res ->
  (0 <= max_results)%Z ->
  (Z.of_nat (length res) <= max_results)%Z.
Proof.
  intros H Hn. apply scrape_and_match_inv in H as (cv_data & term & Hcv & Ht & ->).
  rewrite slice_to_length_nonneg by exact Hn. lia.
Qed.

Lemma result_length_witness :
  scrape_and_match demo_world "cv.json" 13 2 720 = Ok (take 2 demo_result) /\
  (Z.of_nat (length (take 2 demo_result)) <= 2)%Z.
Proof.
  assert (scrape_and_match demo_world "cv.json" 13 2 720 = Ok (take 2 demo_result))
    as H by (vm_compute; reflexivity).
  split; [exact H |].
  apply (result_length demo_world "cv.json" 13 2 720 _ H). lia.
Defined.

(** A smaller non-negative [max_results] returns the beginning of what a
    larger one returns: the cut changes neither the ranking nor which
    duplicate survives. *)
Theorem result_prefix (w : World) (path : string) (min_score : Q)
    (k k' hours_old : Z) (res res' : list Job) :
  (0 <= k <= k')%Z ->
  scrape_and_match w path min_score k hours_old = Ok res ->
  scrape_and_match w path min_score k' hours_old = Ok res' ->
  res = take (Z.to_nat k) res'.
Proof.
  intros Hk H H'.
  apply scrape_and_match_inv in H as (cv_data & term & Hcv & Ht & ->).
  apply scrape_and_match_inv in H' as (cv' & term' & Hcv' & Ht' & ->).
  rewrite Hcv in Hcv'. injection Hcv' as <-.
  rewrite Ht in Ht'. injection Ht' as <-.
  unfold slice_to.
  assert ((0 <=? k)%Z = true) as -> by (apply Z.leb_le; lia).
  assert ((0 <=? k')%Z = true) as -> by (apply Z.leb_le; lia).
  rewrite take_take. f_equal. lia.
Qed.

Lemma result_prefix_witness :
  (0 <= 2 <= 50)%Z /\
  scrape_and_match demo_world "cv.json" 13 2 720 = Ok (take 2 demo_result) /\
  scrape_and_match demo_world "cv.json" 13 50 720 = Ok demo_result /\
  take 2 demo_result = take (Z.to_nat 2) demo_result.
Proof.
  assert (0 <= 2 <= 50)%Z as Hk by lia.
  assert (scrape_and_match demo_world "cv.json" 13 2 720 = Ok (take 2 demo_result))
    as H by (vm_compute; reflexivity).
  split; [exact Hk |]. split; [exact H |]. split; [exact demo_run |].
  exact (result_prefix demo_world "cv.json" 13 2 50 720 _ _ Hk H demo_run).
Defined.

Lemma matched_of_nil_above (cv_data : CvData) (min_score : Q) (all_jobs : list Job) :
  (100 < min_score)%Q -> matched_of cv_data min_score all_jobs = [].
Proof.
  intros Hmin. unfold matched_of.
  induction all_jobs as [|job rest IH]; [reflexivity |].
  cbn [omap list_omap]. rewrite IH. unfold score_entry.
  destruct (calculate_match_score job cv_data) as [s|] eqn:Hs; [| reflexivity].
  destruct (Qle_bool min_score s) eqn:Hle; [| reflexivity].
  apply Qle_bool_iff in Hle.
  destruct (calculate_match_score_bounds job cv_data) as (s' & Hs' & _ & Hhi).
  rewrite Hs in Hs'. injection Hs' as <-. exfalso. lra.
Qed.

(** ** What the parsers build *)

Lemma first_location_pattern (patterns : list string) (text : string) (job : Job) :
  first_location patterns text job =
  match first_pattern patterns text with
  | Some loc => set_location job loc
  | None => job
  end.
Proof. reflexivity. Qed.

Lemma parse_emploi_built (scraped : string) (card : EmploiContainer) (h : EmploiCard) :
  _parse_emploi_tn_job scraped card (Some h) =
  match e_link h with
  | Some link =>
      if PyStr.nonempty (a_text link) then Some (emploi_job scraped card link)
      else None
  | None => None
  end.
Proof.
  unfold _parse_emploi_tn_job, emploi_job, read_title_link, read_company,
    read_description, cut_description, absolute_url, job_if_title.
  cbv zeta. rewrite first_location_pattern. fold emploi_patterns.
  destruct (e_link h) as [link|]; destruct (ec_company card);
    destruct (first_pattern emploi_patterns (ec_text card));
    destruct (ec_desc card); try reflexivity;
    cbn -[PyStr.startswith PyStr.take_str String.append];
    destruct (PyStr.startswith (a_href link) "http");
    cbn -[PyStr.startswith PyStr.take_str String.append];
    destruct (PyStr.nonempty (a_text link)); reflexivity.
Qed.

Lemma parse_tanit_built (scraped : string) (card : TanitCard) :
  _parse_tanitjobs_job scraped card =
  match t_title_elem card with
  | Some title_elem =>
      if PyStr.nonempty (tt_text title_elem)
      then Some (tanit_job scraped card title_elem)
      else None
  | None => None
  end.
Proof.
  unfold _parse_tanitjobs_job, tanit_job, read_company, read_description,
    cut_description, absolute_url, job_if_title.
  cbv zeta.
  destruct (t_title_elem card) as [te|]; destruct (t_company card);
    destruct (t_location card); destruct (t_desc card); try reflexivity;
    destruct (String.eqb (tt_name te) "a" && PyStr.nonempty (default "" (tt_href te)));
    cbn -[PyStr.startswith PyStr.take_str String.append PyStr.strip];
    try (destruct (PyStr.startswith (default "" (tt_href te)) "http");
         cbn -[PyStr.startswith PyStr.take_str String.append PyStr.strip]);
    destruct (PyStr.nonempty (tt_text te)); reflexivity.
Qed.

Lemma keejob_location_hit (texts : list string) (job : Job) :
  location job = Some "Tunisie" ->
  keejob_location keejob_patterns texts job =
  match first_hit keejob_patterns texts with
  | Some loc => set_location job loc
  | None => job
  end.
Proof.
  intros Hloc. induction texts as [|t rest IH]; [reflexivity |].
  cbn [keejob_location first_hit]. cbv zeta. rewrite first_location_pattern.
  destruct (first_pattern keejob_patterns (PyStr.strip t)) as [loc|] eqn:Hf.
  - assert (String.eqb loc "Tunisie" = false) as Hne.
    { unfold first_pattern in Hf. apply find_some in Hf as [Hin _].
      simpl in Hin.
      repeat (destruct Hin as [<- | Hin]; [reflexivity |]). destruct Hin. }
    replace (default "" (location (set_location job loc))) with loc by reflexivity.
    rewrite Hne. reflexivity.
  - rewrite Hloc. replace (default "" (Some "Tunisie")) with "Tunisie" by reflexivity.
    rewrite String.eqb_refl. cbn [negb]. exact IH.
Qed.

Lemma parse_keejob_built (scraped : string) (card : KeejobContainer) (h : KeejobCard) :
  _parse_keejob_job scraped card (Some h) =
  match k_link h with
  | Some link =>
      if PyStr.nonempty (a_text link) then Some (keejob_job scraped card link)
      else None
  | None => None
  end.
Proof.
  unfold _parse_keejob_job, keejob_job, read_title_link, read_company,
    read_description, cut_description, absolute_url, job_if_title.
  cbv zeta. fold keejob_patterns.
  rewrite keejob_location_hit
    by (destruct (k_link h) as [link|]; [destruct (negb _) |];
        destruct (kc_company card); reflexivity).
  destruct (k_link h) as [link|]; destruct (kc_company card);
    destruct (first_hit keejob_patterns (kc_strings card));
    destruct (kc_desc card); try reflexivity;
    cbn -[PyStr.startswith PyStr.take_str String.append];
    destruct (PyStr.startswith (a_href link) "http");
    cbn -[PyStr.startswith PyStr.take_str String.append];
    destruct (PyStr.nonempty (a_text link)); reflexivity.
Qed.

(** where a collected posting comes from *)
Lemma contribution_origin (w : World) (search_term : string) (keywords : Keywords)
    (hours_old : Z) (s : Source) (job : Job) :
  job ∈ contribution w search_term keywords hours_old s ->
  match s with
  | Emploi => exists c link, job = emploi_job (now w) c link /\ a_text link <> ""
  | Tanitjobs => exists c te, job = tanit_job (now w) c te /\ tt_text te <> ""
  | Keejob => exists c link, job = keejob_job (now w) c link /\ a_text link <> ""
  | _ => exists r, job = jobspy_job (now w) (site_label s) r
  end.
Proof.
  assert (forall df label, job ∈ jobspy_postings (now w) label df ->
            exists r, job = jobspy_job (now w) label r) as Hspy.
  { intros [rows|] label H; [| inversion H]. unfold jobspy_postings in H.
    apply list_elem_of_fmap_1 in H as (r & -> & _). eauto. }
  unfold contribution, source_outcome. destruct (source_enabled w s);
    [| intros H; inversion H].
  destruct s; cbv zeta.
  - destruct (emploi_page w search_term) as [cards|]; cbn [ebind];
      [| intros H; inversion H].
    rewrite list_elem_of_omap. intros (card & _ & H). unfold emploi_posting in H.
    destruct (e_parent card) as [[c|]|]; try discriminate.
    rewrite parse_emploi_built in H.
    destruct (e_link card) as [link|]; [| discriminate].
    destruct (PyStr.nonempty (a_text link)) eqn:Hn; [| discriminate].
    injection H as <-. exists c, link. split; [reflexivity | apply nonempty_true, Hn].
  - destruct (tanit_page w search_term) as [page|]; cbn [ebind];
      [| intros H; inversion H].
    rewrite list_elem_of_omap. intros (card & _ & H). unfold tanit_posting in H.
    destruct card as [c|]; try discriminate. rewrite parse_tanit_built in H.
    destruct (t_title_elem c) as [te|]; [| discriminate].
    destruct (PyStr.nonempty (tt_text te)) eqn:Hn; [| discriminate].
    injection H as <-. exists c, te. split; [reflexivity | apply nonempty_true, Hn].
  - destruct (keejob_page w search_term) as [cards|]; cbn [ebind];
      [| intros H; inversion H].
    rewrite list_elem_of_omap. intros (card & _ & H). unfold keejob_posting in H.
    destruct (k_parent card) as [[c|]|]; try discriminate.
    rewrite parse_keejob_built in H.
    destruct (k_link card) as [link|]; [| discriminate].
    destruct (PyStr.nonempty (a_text link)) eqn:Hn; [| discriminate].
    injection H as <-. exists c, link. split; [reflexivity | apply nonempty_true, Hn].
  - destruct (scrape_jobs w _) as [df|]; cbn [ebind]; [apply Hspy | intros H; inversion H].
  - destruct (scrape_jobs w _) as [df|]; cbn [ebind]; [apply Hspy | intros H; inversion H].
  - destruct (scrape_jobs w _) as [df|]; cbn [ebind]; [apply Hspy | intros H; inversion H].
  - destruct (scrape_jobs w _) as [df|]; cbn [ebind]; [apply Hspy | intros H; inversion H].
Qed.

Lemma elem_of_collect_all (w : World) (search_term : string) (keywords : Keywords)
    (hours_old : Z) (job : Job) :
  job ∈ collect_all w search_term keywords hours_old <->
  exists s, job ∈ contribution w search_term keywords hours_old s.
Proof.
  rewrite collect_all_eq, !elem_of_app. split.
  - intros [H | [H | [H | [H | [H | [H | H]]]]]]; eauto.
  - intros [[] H]; tauto.
Qed.

Lemma contribution_complete (w : World) (search_term : string) (keywords : Keywords)
    (hours_old : Z) (s : Source) (job : Job) :
  job ∈ contribution w search_term keywords hours_old s -> complete_posting job.
Proof.
  intros H. apply contribution_origin in H. unfold complete_posting.
  destruct s;
    try (destruct H as (c & l & -> & _); cbn; repeat split; eauto; fail);
    destruct H as (r & ->); cbn; repeat split; eauto.
Qed.

(** ** Invariants of the collected postings *)

(** Every posting a source contributes has the eight keys [title],
    [company], [location], [description], [url], [site], [date_posted]
    and [scraped_at], the [site] of its source and no [match_score].  A
    posting of a Tunisia site has a non-empty title, an empty
    [date_posted] and no [is_remote] key; a JobSpy posting has an
    [is_remote] key. *)
Theorem collected_posting_shape (w : World) (search_term : string)
    (keywords : Keywords) (hours_old : Z) (s : Source) (job : Job) :
  job ∈ contribution w search_term keywords hours_old s ->
  complete_posting job /\
  site job = Some (site_label s) /\
  if is_tunisia_source s
  then has_title job /\ is_remote job = None /\ date_posted job = Some ""
  else is_Some (is_remote job).
Proof.
  intros H. apply contribution_origin in H. unfold complete_posting, has_title.
  destruct s; cbn [is_tunisia_source];
    try (destruct H as (c & l & -> & Hne); cbn;
         repeat split; eauto; fail);
    destruct H as (r & ->); cbn; repeat split; eauto.
Qed.

Lemma collected_posting_shape_witness :
  jobspy_job (now demo_world) "LinkedIn" (row "gamma analyst" "Beta" "Lyon")
    ∈ contribution demo_world "alpha betas gamma"
        (extract_search_keywords demo_cv) 720 LinkedIn /\
  site (jobspy_job (now demo_world) "LinkedIn" (row "gamma analyst" "Beta" "Lyon"))
    = Some (site_label LinkedIn).
Proof.
  assert (jobspy_job (now demo_world) "LinkedIn" (row "gamma analyst" "Beta" "Lyon")
            ∈ contribution demo_world "alpha betas gamma"
                (extract_search_keywords demo_cv) 720 LinkedIn) as Hin.
  { do 2 right. left. }
  split; [exact Hin |].
  exact (proj1 (proj2 (collected_posting_shape demo_world _ _ _ _ _ Hin))).
Defined.

Lemma take_str_length (n : nat) (s : string) :
  (String.length (PyStr.take_str n s) <= n)%nat.
Proof.
  revert s. induction n as [|n IH]; intros s; [simpl; lia |].
  destruct s as [|c r]; simpl; [lia |]. specialize (IH r). lia.
Qed.

Lemma take_str_short (n : nat) (s : string) :
  (String.length s <= n)%nat -> PyStr.take_str n s = s.
Proof.
  revert s. induction n as [|n IH]; intros s H.
  - destruct s; [reflexivity | simpl in H; lia].
  - destruct s as [|c r]; [reflexivity |]. simpl in *. rewrite IH by lia. reflexivity.
Qed.

Lemma cut_description_length (d : option string) :
  (String.length (cut_description d) <= 500)%nat.
Proof. destruct d; [apply take_str_length | simpl; lia]. Qed.

(** The description of a collected posting is cut at ingestion: at most
    500 characters for the Tunisia sites, at most 5000 for the JobSpy
    boards. *)
Theorem description_caps (w : World) (search_term : string)
    (keywords : Keywords) (hours_old : Z) (s : Source) (job : Job) :
  job ∈ contribution w search_term keywords hours_old s ->
  exists d, description job = Some d /\
            (String.length d <= if is_tunisia_source s then 500 else 5000)%nat.
Proof.
  intros H. apply contribution_origin in H.
  destruct s; cbn [is_tunisia_source];
    try (destruct H as (c & l & -> & _); eexists; split;
         [reflexivity | apply cut_description_length]);
    destruct H as (r & ->); eexists; split;
      [reflexivity | apply take_str_length | reflexivity | apply take_str_length
      | reflexivity | apply take_str_length | reflexivity | apply take_str_length].
Qed.

Lemma description_caps_witness :
  jobspy_job (now demo_world) "LinkedIn" (row "gamma analyst" "Beta" "Lyon")
    ∈ contribution demo_world "alpha betas gamma"
        (extract_search_keywords demo_cv) 720 LinkedIn /\
  exists d,
    description (jobspy_job (now demo_world) "LinkedIn"
                   (row "gamma analyst" "Beta" "Lyon")) = Some d /\
    (String.length d <= 5000)%nat.
Proof.
  assert (jobspy_job (now demo_world) "LinkedIn" (row "gamma analyst" "Beta" "Lyon")
            ∈ contribution demo_world "alpha betas gamma"
                (extract_search_keywords demo_cv) 720 LinkedIn) as Hin.
  { do 2 right. left. }
  split; [exact Hin |].
  exact (description_caps demo_world _ _ _ _ _ Hin).
Defined.

Lemma absolute_url_http (base href : string) :
  PyStr.startswith base "http" = true ->
  PyStr.startswith (absolute_url base href) "http" = true.
Proof.
  intros Hb. unfold absolute_url.
  destruct (PyStr.startswith href "http") eqn:Hh; [exact Hh |].
  apply startswith_spec in Hb as [b ->]. apply startswith_spec.
  exists (b +:+ href). reflexivity.
Qed.

(** The parsers make relative links absolute: a posting built from an
    Emploitunisie.com or Keejob card has a url that starts with "http",
    and one built from a Tanitjobs card has either such a url or the
    empty string. *)
Theorem parsed_urls_absolute (scraped : string) :
  (forall c h j, _parse_emploi_tn_job scraped c (Some h) = Some j ->
     exists u, url j = Some u /\ PyStr.startswith u "http" = true) /\
  (forall c h j, _parse_keejob_job scraped c (Some h) = Some j ->
     exists u, url j = Some u /\ PyStr.startswith u "http" = true) /\
  (forall c j, _parse_tanitjobs_job scraped c = Some j ->
     exists u, url j = Some u /\ (u = "" \/ PyStr.startswith u "http" = true)).
Proof.
  split; [| split].
  - intros c h j. rewrite parse_emploi_built.
    destruct (e_link h) as [link|]; [| discriminate].
    destruct (PyStr.nonempty (a_text link)); [| discriminate]. intros [= <-].
    eexists. split; [reflexivity |]. apply absolute_url_http. reflexivity.
  - intros c h j. rewrite parse_keejob_built.
    destruct (k_link h) as [link|]; [| discriminate].
    destruct (PyStr.nonempty (a_text link)); [| discriminate]. intros [= <-].
    eexists. split; [reflexivity |]. apply absolute_url_http. reflexivity.
  - intros c j. rewrite parse_tanit_built.
    destruct (t_title_elem c) as [te|]; [| discriminate].
    destruct (PyStr.nonempty (tt_text te)); [| discriminate]. intros [= <-].
    eexists. split; [reflexivity |].
    destruct (_ && _); [right; apply absolute_url_http; reflexivity | left; reflexivity].
Qed.

Lemma find_first {A} (f : A -> bool) (l : list A) (x : A) :
  List.find f l = Some x ->
  exists before after,
    l = before ++ x :: after /\ f x = true /\ forall y, y ∈ before -> f y = false.
Proof.
  induction l as [|a l IH]; [discriminate |]. simpl.
  destruct (f a) eqn:Ha.
  - intros [= <-]. exists [], l. split; [reflexivity |]. split; [exact Ha |].
    intros y Hy. inversion Hy.
  - intros H. destruct (IH H) as (before & after & -> & Hx & Hb).
    exists (a :: before), after. split; [reflexivity |]. split; [exact Hx |].
    intros y Hy. apply elem_of_cons in Hy as [-> | Hy]; auto.
Qed.

Lemma find_none {A} (f : A -> bool) (l : list A) :
  List.find f l = None -> forall y, y ∈ l -> f y = false.
Proof.
  induction l as [|a l IH]; intros H y Hy; [inversion Hy |]. simpl in H.
  destruct (f a) eqn:Ha; [discriminate |].
  apply elem_of_cons in Hy as [-> | Hy]; auto.
Qed.

(** The location of an Emploitunisie.com posting is the first city of
    the fixed list that occurs in the text of its card, and "Tunisie"
    when none occurs. *)
Theorem emploi_location (scraped : string) (c : EmploiContainer) (h : EmploiCard)
    (j : Job) :
  _parse_emploi_tn_job scraped c (Some h) = Some j ->
  exists loc, location j = Some loc /\
    ((loc = "Tunisie" /\
      forall p, p ∈ emploi_patterns -> PyStr.str_in p (ec_text c) = false) \/
     (exists before after,
        emploi_patterns = before ++ loc :: after /\
        PyStr.str_in loc (ec_text c) = true /\
        forall p, p ∈ before -> PyStr.str_in p (ec_text c) = false)).
Proof.
  rewrite parse_emploi_built.
  destruct (e_link h) as [link|]; [| discriminate].
  destruct (PyStr.nonempty (a_text link)); [| discriminate]. intros [= <-].
  cbn [location emploi_job].
  destruct (first_pattern emploi_patterns (ec_text c)) as [loc|] eqn:Hf.
  - exists loc. split; [reflexivity |]. right. apply find_first in Hf. exact Hf.
  - exists "Tunisie". split; [reflexivity |]. left. split; [reflexivity |].
    exact (find_none _ _ Hf).
Qed.

Lemma emploi_location_witness :
  _parse_emploi_tn_job "t" demo_container (Some demo_heading)
    = Some (emploi_job "t" demo_container
              {| a_text := "Developpeur web"; a_href := "/offre/42" |}) /\
  location (emploi_job "t" demo_container
              {| a_text := "Developpeur web"; a_href := "/offre/42" |}) = Some "Tunis" /\
  exists loc,
    location (emploi_job "t" demo_container
                {| a_text := "Developpeur web"; a_href := "/offre/42" |}) = Some loc /\
    ((loc = "Tunisie" /\
      forall p, p ∈ emploi_patterns -> PyStr.str_in p (ec_text demo_container) = false) \/
     (exists before after,
        emploi_patterns = before ++ loc :: after /\
        PyStr.str_in loc (ec_text demo_container) = true /\
        forall p, p ∈ before -> PyStr.str_in p (ec_text demo_container) = false)).
Proof.
  assert (_parse_emploi_tn_job "t" demo_container (Some demo_heading)
          = Some (emploi_job "t" demo_container
                    {| a_text := "Developpeur web"; a_href := "/offre/42" |})) as H
    by reflexivity.
  split; [exact H |]. split; [reflexivity |].
  exact (emploi_location "t" demo_container demo_heading _ H).
Defined.

(** ** Per-collector limits *)

Lemma first_nonempty_length {A} (a b c : list A) (n : nat) :
  (length a <= n)%nat -> (length b <= n)%nat -> (length c <= n)%nat ->
  (length (first_nonempty a b c) <= n)%nat.
Proof.
  intros. unfold first_nonempty.
  destruct (nonempty_list a); [| destruct (nonempty_list b)]; assumption.
Qed.

Lemma append_each_length {C} (parse : C -> exc (option Job)) (cards : list C) :
  (length (append_each parse cards []) <= length cards)%nat.
Proof. rewrite append_each_omap. cbn [app]. apply omap_length_le. Qed.

Lemma slice_to_length_le {A} (n : Z) (l : list A) :
  (0 <= n)%Z -> (Z.of_nat (length (slice_to n l)) <= n)%Z.
Proof. intros Hn. rewrite slice_to_length_nonneg by exact Hn. lia. Qed.

(** Each Tunisia collector returns (it never raises) at most [max_jobs]
    postings, for a [max_jobs] that is not negative: at most one per
    card among the first [max_jobs] cards of the page. *)
Theorem tunisia_collectors_capped (w : World) (search_term : string) (max_jobs : Z) :
  (0 <= max_jobs)%Z ->
  (exists jobs, scrape_emploi_tn w search_term max_jobs = Ok jobs /\
                (Z.of_nat (length jobs) <= max_jobs)%Z) /\
  (exists jobs, scrape_tanitjobs w search_term max_jobs = Ok jobs /\
                (Z.of_nat (length jobs) <= max_jobs)%Z) /\
  (exists jobs, scrape_keejob w search_term max_jobs = Ok jobs /\
                (Z.of_nat (length jobs) <= max_jobs)%Z).
Proof.
  intros Hn.
  assert (exists jobs : list Job, Ok (@nil Job) = Ok jobs /\
                                  (Z.of_nat (length jobs) <= max_jobs)%Z) as Hnil.
  { exists []. split; [reflexivity | simpl; lia]. }
  unfold scrape_emploi_tn, scrape_tanitjobs, scrape_keejob.
  destruct (SELENIUM_AVAILABLE w); cbn [negb]; [| auto].
  split; [| split].
  - destruct (emploi_page w search_term) as [cards|]; cbn [ebind catch]; [| exact Hnil].
    eexists. split; [reflexivity |].
    pose proof (append_each_length
      (fun card =>
         job_container <-! e_parent card;
         match job_container with
         | Some c => Ok (_parse_emploi_tn_job (now w) c (Some card))
         | None => Ok None
         end) (slice_to max_jobs cards)).
    pose proof (slice_to_length_le max_jobs cards Hn). lia.
  - destruct (tanit_page w search_term) as [page|]; cbn [ebind catch]; [| exact Hnil].
    eexists. split; [reflexivity |].
    match goal with |- context [append_each ?p ?l []] =>
      pose proof (append_each_length p l) as Hlen end.
    pose proof (slice_to_length_le max_jobs (tp_job_item page) Hn).
    pose proof (slice_to_length_le max_jobs (tp_offer page) Hn).
    pose proof (slice_to_length_le max_jobs (tp_article page) Hn).
    pose proof (first_nonempty_length
                  (slice_to max_jobs (tp_job_item page))
                  (slice_to max_jobs (tp_offer page))
                  (slice_to max_jobs (tp_article page)) (Z.to_nat max_jobs)).
    lia.
  - destruct (keejob_page w search_term) as [cards|]; cbn [ebind catch]; [| exact Hnil].
    eexists. split; [reflexivity |].
    pose proof (append_each_length
      (fun title_elem =>
         job_container <-! k_parent title_elem;
         match job_container with
         | Some c => Ok (_parse_keejob_job (now w) c (Some title_elem))
         | None => Ok None
         end) (slice_to max_jobs cards)).
    pose proof (slice_to_length_le max_jobs cards Hn). lia.
Qed.

(** ** The returned list, as its users read it *)

Lemma result_entry_origin (w : World) (path : string) (min_score : Q)
    (max_results hours_old : Z) (res : list Job) (e : Job) :
  scrape_and_match w path min_score max_results hours_old = Ok res ->
  e ∈ res ->
  exists cv_data search_term src job s,
    load_cv_profile w path = Ok cv_data /\
    job ∈ contribution w search_term (extract_search_keywords cv_data) hours_old src /\
    calculate_match_score job cv_data = Ok s /\
    (min_score <= s)%Q /\ e = set_match_score job (round2 s).
Proof.
  intros H He. apply scrape_and_match_inv in H as (cv_data & term & Hcv & Ht & ->).
  apply result_elem_collected in He as (job & s & Hin & Hc & Hle & ->).
  apply elem_of_collect_all in Hin as (src & Hin).
  exists cv_data, term, src, job, s. auto.
Qed.

Lemma round2_unit_range (s : Q) :
  (0 <= s)%Q -> (s <= 100)%Q -> (0 <= round2 s)%Q /\ (round2 s <= 100)%Q.
Proof.
  intros H0 H1. split.
  - rewrite <- (round2_hundredths 0 0) by reflexivity. apply round2_mono, H0.
  - rewrite <- (round2_hundredths 100 10000) by reflexivity. apply round2_mono, H1.
Qed.

(** Every entry of the returned list carries a [match_score], between 0
    and 100 (rounding to two decimals keeps the range of the score). *)
Theorem stored_scores_in_range (w : World) (path : string) (min_score : Q)
    (max_results hours_old : Z) (res : list Job) (e : Job) :
  scrape_and_match w path min_score max_results hours_old = Ok res ->
  e ∈ res ->
  exists v, match_score e = Some v /\ (0 <= v)%Q /\ (v <= 100)%Q.
Proof.
  intros H He.
  destruct (result_entry_origin _ _ _ _ _ _ _ H He)
    as (cv_data & term & src & job & s & _ & _ & Hc & _ & ->).
  destruct (calculate_match_score_bounds job cv_data) as (s' & Hs' & H0 & H1).
  rewrite Hc in Hs'. injection Hs' as <-.
  exists (round2 s). split; [reflexivity |]. apply round2_unit_range; assumption.
Qed.

Lemma stored_scores_in_range_witness :
  scrape_and_match demo_world "cv.json" 13 50 720 = Ok demo_result /\
  demo_entry "LinkedIn" (row "betas tester" "Gamma" "Nice") (round2 (40 # 3))
    ∈ demo_result /\
  exists v,
    match_score (demo_entry "LinkedIn" (row "betas tester" "Gamma" "Nice")
                   (round2 (40 # 3))) = Some v /\ (0 <= v)%Q /\ (v <= 100)%Q.
Proof.
  assert (demo_entry "LinkedIn" (row "betas tester" "Gamma" "Nice") (round2 (40 # 3))
            ∈ demo_result) as Hin by (do 2 right; left).
  split; [exact demo_run |]. split; [exact Hin |].
  exact (stored_scores_in_range demo_world _ _ _ _ _ _ demo_run Hin).
Defined.

Lemma map_exc_all_ok {A B} (f : A -> exc B) (l : list A) :
  (forall x, x ∈ l -> exists y, f x = Ok y) ->
  exists ys, map_exc f l = Ok ys /\ length ys = length l.
Proof.
  induction l as [|x l IH]; intros H; [exists []; auto |].
  destruct (H x) as [y Hy]; [left |].
  destruct IH as (ys & Hys & Hlen); [intros z Hz; apply H; right; exact Hz |].
  exists (y :: ys). cbn [map_exc]. rewrite Hy. cbn [ebind]. rewrite Hys. cbn [ebind].
  split; [reflexivity | simpl; lia].
Qed.

Lemma show_job_complete (job : Job) (v : Q) :
  complete_posting job -> exists r, show_job (set_match_score job v) = Ok r.
Proof.
  intros ([t Ht] & [c Hc] & [l Hl] & _ & [u Hu] & [s Hs] & _).
  unfold show_job. cbn [match_score title company location site url set_match_score].
  rewrite Ht, Hc, Hl, Hs, Hu. cbn [get_key ebind].
  destruct (PyStr.nonempty _); cbn [ebind]; eauto.
Qed.

(** The top-ten listing of [main] reads [match_score], [title],
    [company], [location] and [site] with [job[...]]: on a list
    returned by [scrape_and_match] none of these raises [KeyError], and
    the listing has one line per entry, ten at most. *)
Theorem show_top_returns (w : World) (path : string) (min_score : Q)
    (max_results hours_old : Z) (res : list Job) :
  scrape_and_match w path min_score max_results hours_old = Ok res ->
  exists rows, show_top res = Ok rows /\ length rows = Nat.min 10 (length res).
Proof.
  intros H. unfold show_top.
  destruct (map_exc_all_ok show_job (slice_to 10 res)) as (rows & Hrows & Hlen).
  - intros e He. apply (elem_of_sublist _ res) in He; [| apply sublist_take].
    destruct (result_entry_origin _ _ _ _ _ _ _ H He)
      as (cv_data & term & src & job & s & _ & Hin & _ & _ & ->).
    apply show_job_complete.
    exact (contribution_complete _ _ _ _ _ _ Hin).
  - exists rows. split; [exact Hrows |]. rewrite Hlen. apply length_take.
Qed.

Lemma show_top_returns_witness :
  scrape_and_match demo_world "cv.json" 13 50 720 = Ok demo_result /\
  exists rows, show_top demo_result = Ok rows /\
               length rows = Nat.min 10 (length demo_result).
Proof.
  split; [exact demo_run |].
  exact (show_top_returns demo_world "cv.json" 13 50 720 demo_result demo_run).
Defined.

Lemma py_sum_Q_bounds (a b : Q) (l : list Q) (acc : Q) :
  Forall (fun x => a <= x /\ x <= b)%Q l ->
  (acc + len l * a <= foldl Qplus acc l)%Q /\ (foldl Qplus acc l <= acc + len l * b)%Q.
Proof.
  intros Hl. revert acc. induction Hl as [|x l [Hx1 Hx2] _ IH]; intros acc.
  - cbn [foldl]. change (len (@nil Q)) with 0%Q. split; lra.
  - cbn [foldl]. destruct (IH (acc + x)%Q) as [I1 I2].
    assert (len (x :: l) == 1 + len l)%Q as E.
    { unfold len. cbn [length]. rewrite Nat2Z.inj_succ, <- Z.add_1_l, inject_Z_plus.
      reflexivity. }
    rewrite E. split; nra.
Qed.

Lemma average_bounds (a b : Q) (l : list Q) :
  nonempty_list l = true ->
  Forall (fun x => a <= x /\ x <= b)%Q l ->
  exists avg, py_div (py_sum_Q l) (len l) = Ok avg /\ (a <= avg)%Q /\ (avg <= b)%Q.
Proof.
  intros Hne Hl. pose proof (len_pos l Hne) as Hlen.
  rewrite (py_div_pos _ _ Hlen). eexists. split; [reflexivity |].
  destruct (py_sum_Q_bounds a b l 0 Hl) as [H1 H2]. fold (py_sum_Q l) in H1, H2.
  split.
  - apply Qle_shift_div_l; [exact Hlen | lra].
  - apply Qle_shift_div_r; [exact Hlen | lra].
Qed.

(** The result page of the application divides by the number of jobs
    only under [if jobs:].  On a list returned by [scrape_and_match]
    the statistics are therefore always computed without error; the
    average match lies between 0 and 100 and is at most 0.005 below
    [min_score], and neither count exceeds the number of jobs. *)
Theorem summary_statistics_sound (w : World) (path : string) (min_score : Q)
    (max_results hours_old : Z) (res : list Job) :
  scrape_and_match w path min_score max_results hours_old = Ok res ->
  match res with
  | [] => summary_statistics res = Ok None
  | _ :: _ =>
      exists st,
        summary_statistics res = Ok (Some st) /\
        st_total st = Z.of_nat (length res) /\
        (0 <= st_avg_score st)%Q /\ (st_avg_score st <= 100)%Q /\
        (min_score - (1 # 200) <= st_avg_score st)%Q /\
        (0 <= st_high_match st <= st_total st)%Z /\
        (0 <= st_tunisia_jobs st <= st_total st)%Z
  end.
Proof.
  intros H. destruct res as [|e0 rest] eqn:Eres; [reflexivity |]. rewrite <- Eres.
  assert (nonempty_list res = true) as Hne by (rewrite Eres; reflexivity).
  assert (Forall (fun x => 0 <= x /\ x <= 100)%Q
                 (map (fun job => default 0%Q (match_score job)) res)) as Hr1.
  { apply Forall_forall. intros x Hx. apply list_elem_of_fmap_1 in Hx as (e & -> & He).
    rewrite <- Eres in H.
    destruct (result_entry_origin _ _ _ _ _ _ _ H He)
      as (cv_data & term & src & job & s & _ & _ & Hc & _ & ->).
    destruct (calculate_match_score_bounds job cv_data) as (s' & Hs' & H0 & H1).
    rewrite Hc in Hs'. injection Hs' as <-.
    exact (round2_unit_range s H0 H1). }
  assert (Forall (fun x => min_score - (1 # 200) <= x /\ x <= 100)%Q
                 (map (fun job => default 0%Q (match_score job)) res)) as Hr2.
  { apply Forall_forall. intros x Hx. pose proof Hx as Hx'.
    eapply Forall_forall in Hx'; [| exact Hr1]. split; [| apply Hx'].
    apply list_elem_of_fmap_1 in Hx as (e & -> & He). rewrite <- Eres in H.
    destruct (result_entry_origin _ _ _ _ _ _ _ H He)
      as (cv_data & term & src & job & s & _ & _ & _ & Hle & ->).
    pose proof (round2_near s) as [Hn _].
    change (min_score - (1 # 200) <= round2 s)%Q. lra. }
  assert (nonempty_list (map (fun job => default 0%Q (match_score job)) res) = true)
    as Hne' by (rewrite Eres; reflexivity).
  destruct (average_bounds _ _ _ Hne' Hr1) as (avg & Havg & A0 & A1).
  destruct (average_bounds _ _ _ Hne' Hr2) as (avg' & Havg' & A2 & _).
  rewrite Havg in Havg'. injection Havg' as <-.
  assert (len (map (fun job => default 0%Q (match_score job)) res) = len res) as Hlen
    by (unfold len; rewrite length_map; reflexivity).
  rewrite Hlen in Havg.
  unfold summary_statistics. rewrite Hne, Havg. cbn [ebind]. cbv zeta.
  eexists. split; [reflexivity |]. cbn [st_total st_avg_score st_high_match st_tunisia_jobs].
  split; [reflexivity |]. split; [exact A0 |]. split; [exact A1 |]. split; [exact A2 |].
  split.
  - pose proof (filter_length_le
                  (fun j => Qle_bool 70 (default 0%Q (match_score j))) res). lia.
  - pose proof (filter_length_le
                  (fun j => PyStr.str_in "tunis" (PyStr.lower (default "" (location j))))
                  res). lia.
Qed.

Lemma summary_statistics_sound_witness :
  scrape_and_match demo_world "cv.json" 13 50 720 = Ok demo_result /\
  exists st,
    summary_statistics demo_result = Ok (Some st) /\
    st_total st = 3%Z /\ (0 <= st_avg_score st)%Q /\ (st_avg_score st <= 100)%Q.
Proof.
  split; [exact demo_run |].
  destruct (summary_statistics_sound demo_world "cv.json" 13 50 720 demo_result demo_run)
    as (st & H1 & H2 & H3 & H4 & _).
  exists st. auto.
Defined.

(** ** Extreme thresholds *)

Lemma passing_posting_represented (cv_data : CvData) (min_score : Q)
    (max_results : Z) (all_jobs : list Job) (job : Job) (s : Q) :
  job ∈ all_jobs -> calculate_match_score job cv_data = Ok s -> (min_score <= s)%Q ->
  (Z.of_nat (length all_jobs) <= max_results)%Z ->
  exists e,
    e ∈ slice_to max_results (firsts ∅ (sorted_of cv_data min_score all_jobs)) /\
    dedup_key e = dedup_key job.
Proof.
  intros Hin Hc Hle Hmax.
  rewrite slice_to_all
    by (pose proof (firsts_length_le cv_data min_score all_jobs); lia).
  assert (set_match_score job (round2 s) ∈ sorted_of cv_data min_score all_jobs) as Hs.
  { apply elem_of_sorted, elem_of_matched. exists job, s. auto. }
  destruct (firsts_complete ∅ _ _ Hs) as [Hempty | (e & He & Hk)].
  - exfalso. revert Hempty. apply not_elem_of_empty.
  - exists e. split; [exact He | exact Hk].
Qed.

(** With a [min_score] above 100 the returned list is empty.  With a
    [min_score] of 0 or less nothing is filtered: every collected
    posting is represented in the returned list by an entry with its
    key, as long as [max_results] is at least the number collected. *)
Theorem extreme_thresholds (w : World) (path : string) (min_score : Q)
    (max_results hours_old : Z) (res : list Job) :
  scrape_and_match w path min_score max_results hours_old = Ok res ->
  ((100 < min_score)%Q -> res = []) /\
  ((min_score <= 0)%Q ->
   exists cv_data search_term,
     load_cv_profile w path = Ok cv_data /\
     build_search_term (extract_search_keywords cv_data) = Ok search_term /\
     let all_jobs :=
       collect_all w search_term (extract_search_keywords cv_data) hours_old in
     (Z.of_nat (length all_jobs) <= max_results)%Z ->
     forall job, job ∈ all_jobs ->
       exists e, e ∈ res /\ dedup_key e = dedup_key job).
Proof.
  intros H. apply scrape_and_match_inv in H as (cv_data & term & Hcv & Ht & ->).
  split.
  - intros Hmin. unfold sorted_of. rewrite matched_of_nil_above by exact Hmin.
    simpl. apply slice_to_nil.
  - intros Hmin. exists cv_data, term. split; [exact Hcv |]. split; [exact Ht |].
    intros all_jobs Hmax job Hin.
    destruct (calculate_match_score_bounds job cv_data) as (s & Hs & H0 & _).
    apply (passing_posting_represented cv_data min_score max_results all_jobs job s);
      [exact Hin | exact Hs | lra | exact Hmax].
Qed.

Lemma extreme_thresholds_witness :
  scrape_and_match demo_world "cv.json" 101 50 720 = Ok [] /\ (100 < 101)%Q /\
  @nil Job = [].
Proof.
  assert (scrape_and_match demo_world "cv.json" 101 50 720 = Ok []) as H
    by (vm_compute; reflexivity).
  assert (100 < 101)%Q as Hlt by reflexivity.
  split; [exact H |]. split; [exact Hlt |].
  exact (proj1 (extreme_thresholds demo_world "cv.json" 101 50 720 [] H) Hlt).
Defined.

(** ** What the score depends on *)

Lemma lower_char_idem (c : ascii) :
  PyStr.lower_char (PyStr.lower_char c) = PyStr.lower_char c.
Proof. destruct c as [[] [] [] [] [] [] [] []]; reflexivity. Qed.

Lemma lower_char_space (c : ascii) :
  PyStr.is_space (PyStr.lower_char c) = PyStr.is_space c.
Proof. destruct c as [[] [] [] [] [] [] [] []]; reflexivity. Qed.

Lemma lower_idem (s : string) : PyStr.lower (PyStr.lower s) = PyStr.lower s.
Proof.
  induction s as [|c r IH]; [reflexivity |]. simpl. rewrite lower_char_idem, IH.
  reflexivity.
Qed.

Lemma lower_app (a b : string) :
  PyStr.lower (a +:+ b) = PyStr.lower a +:+ PyStr.lower b.
Proof.
  induction a as [|c r IH]; [reflexivity |].
  change (String c r +:+ b) with (String c (r +:+ b)). cbn [PyStr.lower].
  rewrite IH. reflexivity.
Qed.

Lemma lower_nonempty (s : string) : PyStr.nonempty (PyStr.lower s) = PyStr.nonempty s.
Proof. destruct s; reflexivity. Qed.

Lemma lower_length (s : string) : String.length (PyStr.lower s) = String.length s.
Proof. induction s as [|c r IH]; [reflexivity |]. simpl. rewrite IH. reflexivity. Qed.

Lemma lower_starts_word (s : string) :
  PyStr.starts_word (PyStr.lower s) = PyStr.starts_word s.
Proof. destruct s; [reflexivity |]. simpl. rewrite lower_char_space. reflexivity. Qed.

Lemma split_lower (s : string) :
  PyStr.split (PyStr.lower s) = map PyStr.lower (PyStr.split s).
Proof.
  induction s as [|c r IH]; [reflexivity |].
  cbn [PyStr.lower PyStr.split]. rewrite lower_char_space, lower_starts_word, IH.
  destruct (PyStr.is_space c); [reflexivity |].
  destruct (PyStr.starts_word r); [| reflexivity].
  destruct (PyStr.split r); reflexivity.
Qed.

Lemma default_lower (o : option string) :
  default "" (PyStr.lower <$> o) = PyStr.lower (default "" o).
Proof. destruct o; reflexivity. Qed.

Lemma job_text_lower (job : Job) : job_text (lower_posting job) = job_text job.
Proof.
  unfold job_text, lower_posting. cbn [title description].
  rewrite !default_lower, !lower_app, !lower_idem. reflexivity.
Qed.

(** re-scoring an entry that already has a score *)
Lemma score_of_scored (job : Job) (v : Q) (cv_data : CvData) :
  calculate_match_score (set_match_score job v) cv_data =
  calculate_match_score job cv_data.
Proof. reflexivity. Qed.

(** The score reads four fields of the posting only: two postings with
    the same [title], [description] and [location], and the same truth
    value of [is_remote], get the same score whatever their company,
    url, site, dates or previous [match_score]. *)
Theorem score_reads_four_fields (j1 j2 : Job) (cv_data : CvData) :
  title j1 = title j2 -> description j1 = description j2 ->
  location j1 = location j2 ->
  default false (is_remote j1) = default false (is_remote j2) ->
  calculate_match_score j1 cv_data = calculate_match_score j2 cv_data.
Proof.
  intros Ht Hd Hl Hr.
  unfold calculate_match_score, job_text, check_presence, check_location, check_title.
  rewrite Ht, Hd, Hl, Hr. reflexivity.
Qed.

Lemma score_reads_four_fields_witness :
  title (set_company python_job "Other") = title python_job /\
  calculate_match_score (set_company python_job "Other") skills_cv =
  calculate_match_score python_job skills_cv.
Proof.
  split; [reflexivity |].
  exact (score_reads_four_fields (set_company python_job "Other") python_job skills_cv
           eq_refl eq_refl eq_refl eq_refl).
Defined.

(** The score does not depend on letter case in the posting: putting
    [title], [description] and [location] in lower case leaves it
    unchanged. *)
Theorem score_ignores_posting_case (job : Job) (cv_data : CvData) :
  calculate_match_score (lower_posting job) cv_data =
  calculate_match_score job cv_data.
Proof.
  unfold calculate_match_score. rewrite job_text_lower. cbv zeta.
  assert (forall s, check_presence (lower_posting job) s = check_presence job s) as Hp.
  { intros s. unfold check_presence, lower_posting. cbn [title].
    rewrite default_lower, lower_nonempty. reflexivity. }
  assert (forall s, check_location (lower_posting job) s = check_location job s) as Hl.
  { intros s. unfold check_location, lower_posting. cbn [location is_remote].
    rewrite default_lower, lower_idem. reflexivity. }
  assert (forall s, check_title (lower_posting job) cv_data s
                    = check_title job cv_data s) as Ht.
  { intros s. unfold check_title, lower_posting. cbn [title].
    rewrite default_lower, lower_idem. reflexivity. }
  rewrite Hp.
  destruct (check_domains (job_text job) cv_data (check_presence job 0)) as [s1|];
    [| reflexivity]. cbn [ebind].
  destruct (check_skills (job_text job) cv_data s1) as [s2|]; [| reflexivity].
  cbn [ebind]. rewrite Hl, Ht. reflexivity.
Qed.

Lemma filter_map_lower (n : nat) (l : list string) :
  List.filter (fun w => (n <? String.length w)%nat) (map PyStr.lower l) =
  map PyStr.lower (List.filter (fun w => (n <? String.length w)%nat) l).
Proof.
  induction l as [|w l IH]; [reflexivity |]. simpl. rewrite lower_length, IH.
  destruct (n <? String.length w)%nat; reflexivity.
Qed.

Lemma domain_words_lower (d : string) : domain_words (PyStr.lower d) = domain_words d.
Proof.
  unfold domain_words. rewrite split_lower, filter_map_lower, map_map.
  apply map_ext. intros w. apply lower_idem.
Qed.

Lemma collect_domain_keywords_lower (doms : list string) :
  collect_domain_keywords (map PyStr.lower doms) = collect_domain_keywords doms.
Proof.
  unfold collect_domain_keywords. generalize (@nil string) as acc.
  induction doms as [|d doms IH]; intros acc; [reflexivity |].
  simpl. rewrite domain_words_lower. apply IH.
Qed.

Lemma skill_step_lower (text : string) (m : Q) (skill : string) :
  skill_step text m (PyStr.lower skill) = skill_step text m skill.
Proof. unfold skill_step. rewrite lower_idem. reflexivity. Qed.

Lemma skill_loop_lower (text : string) (l : list string) (m : Q) :
  foldl (skill_step text) m (map PyStr.lower l) = foldl (skill_step text) m l.
Proof.
  revert m. induction l as [|s l IH]; intros m; [reflexivity |].
  simpl. rewrite skill_step_lower. apply IH.
Qed.

Lemma slice_to_map {A B} (f : A -> B) (n : Z) (l : list A) :
  slice_to n (map f l) = map f (slice_to n l).
Proof.
  unfold slice_to. rewrite length_map.
  destruct (0 <=? n)%Z; symmetry; apply (fmap_take f).
Qed.

Lemma nonempty_list_map {A B} (f : A -> B) (l : list A) :
  nonempty_list (map f l) = nonempty_list l.
Proof. destruct l; reflexivity. Qed.

Lemma len_map {A B} (f : A -> B) (l : list A) : len (map f l) = len l.
Proof. unfold len. rewrite length_map. reflexivity. Qed.

(** The score does not depend on letter case in the profile either:
    for a profile whose domains are ASCII text, putting the title, the
    domains and the technical skills in lower case leaves it unchanged.
    (The domain block measures a word before it lowers it, so the
    statement is kept to domains on which lowering keeps the length;
    title and skills are lowered before every use.) *)
Theorem score_ignores_profile_case (job : Job) (cv_data : CvData) :
  ascii_domains cv_data = true ->
  calculate_match_score job (lower_cv cv_data) = calculate_match_score job cv_data.
Proof.
  intros _. unfold calculate_match_score. cbv zeta.
  assert (forall text s, check_domains text (lower_cv cv_data) s
                         = check_domains text cv_data s) as Hd.
  { intros text s. unfold check_domains, lower_cv. cbn [job_search_intent].
    destruct (job_search_intent cv_data) as [intent|]; [| reflexivity].
    cbn [fmap option_fmap option_map domains].
    destruct (domains intent) as [doms|]; [| reflexivity].
    change (map PyStr.lower <$> Some doms) with (Some (map PyStr.lower doms)).
    cbv beta iota. rewrite nonempty_list_map, collect_domain_keywords_lower.
    reflexivity. }
  assert (forall text s, check_skills text (lower_cv cv_data) s
                         = check_skills text cv_data s) as Hs.
  { intros text s. unfold check_skills, lower_cv. cbn [skills].
    destruct (skills cv_data) as [sk|]; [| reflexivity].
    cbn [fmap option_fmap option_map technical].
    destruct (technical sk) as [tech|]; [| reflexivity].
    change (map PyStr.lower <$> Some tech) with (Some (map PyStr.lower tech)).
    cbv beta iota zeta.
    rewrite slice_to_map, nonempty_list_map, skill_loop_lower, len_map.
    reflexivity. }
  assert (forall s, check_title job (lower_cv cv_data) s
                    = check_title job cv_data s) as Ht.
  { intros s. unfold check_title, lower_cv. cbn [cv_title].
    rewrite default_lower, lower_idem. reflexivity. }
  rewrite Hd.
  destruct (check_domains (job_text job) cv_data (check_presence job 0)) as [s1|];
    [| reflexivity]. cbn [ebind]. rewrite Hs.
  destruct (check_skills (job_text job) cv_data s1) as [s2|]; [| reflexivity].
  cbn [ebind]. rewrite Ht. reflexivity.
Qed.

Lemma score_ignores_profile_case_witness :
  ascii_domains upper_case_cv = true /\
  calculate_match_score posting_a (lower_cv upper_case_cv) =
  calculate_match_score posting_a upper_case_cv.
Proof.
  split; [reflexivity |].
  apply (score_ignores_profile_case posting_a upper_case_cv). reflexivity.
Defined.

(** Marking a posting remote never lowers its score: the score is the
    same when the location already mentions "tunis" (the bonus is given
    once), and strictly higher otherwise. *)
Theorem remote_raises_score (job : Job) (cv_data : CvData) :
  exists s s',
    calculate_match_score (set_is_remote job false) cv_data = Ok s /\
    calculate_match_score (set_is_remote job true) cv_data = Ok s' /\
    if PyStr.str_in "tunis" (PyStr.lower (default "" (location job)))
    then (s' == s)%Q else (s < s')%Q.
Proof.
  destruct (calculate_match_score_sum (set_is_remote job false) cv_data
              (skill_signal (job_text job) cv_data))
    as (s & Hs & E); [intros score; apply check_skills_signal |].
  destruct (calculate_match_score_sum (set_is_remote job true) cv_data
              (skill_signal (job_text job) cv_data))
    as (s' & Hs' & E'); [intros score; apply check_skills_signal |].
  exists s, s'. split; [exact Hs |]. split; [exact Hs' |].
  change (presence_signal (set_is_remote job true)) with (presence_signal job) in E'.
  change (presence_signal (set_is_remote job false)) with (presence_signal job) in E.
  change (job_text (set_is_remote job true)) with (job_text job) in E'.
  change (job_text (set_is_remote job false)) with (job_text job) in E.
  change (title_signal (set_is_remote job true) cv_data)
    with (title_signal job cv_data) in E'.
  change (title_signal (set_is_remote job false) cv_data)
    with (title_signal job cv_data) in E.
  unfold location_signal, check_location in E, E'.
  change (location (set_is_remote job true)) with (location job) in E'.
  change (location (set_is_remote job false)) with (location job) in E.
  change (default false (is_remote (set_is_remote job true))) with true in E'.
  change (default false (is_remote (set_is_remote job false))) with false in E.
  destruct (PyStr.str_in "tunis" (PyStr.lower (default "" (location job))));
    cbn [orb] in E, E'; lra.
Qed.

(** ** Ranking a ranked list again *)

Lemma omap_fixed {A} (f : A -> option A) (l : list A) :
  (forall x, x ∈ l -> f x = Some x) -> omap f l = l.
Proof.
  induction l as [|x l IH]; intros H; [reflexivity |].
  cbn [omap list_omap]. rewrite (H x) by left.
  rewrite IH; [reflexivity |]. intros y Hy. apply H. right. exact Hy.
Qed.

Lemma sort_desc_fixed {A} (key : A -> Q) (l : list A) :
  StronglySorted (fun a b => key b <= key a)%Q l -> sort_desc key l = l.
Proof.
  induction 1 as [|x l Hs IH Hx]; [reflexivity |].
  cbn [sort_desc foldr]. fold (sort_desc key l). rewrite IH.
  destruct l as [|y r]; [reflexivity |]. cbn [insert_desc].
  apply Forall_cons in Hx as [Hy _]. apply Qle_bool_iff in Hy. rewrite Hy.
  reflexivity.
Qed.

Lemma firsts_fixed (seen : gset (string * string)) (l : list Job) :
  NoDup (dedup_key <$> l) -> (forall x, x ∈ l -> dedup_key x ∉ seen) ->
  firsts seen l = l.
Proof.
  revert seen. induction l as [|x l IH]; intros seen Hnd Hseen; [reflexivity |].
  cbn [firsts]. rewrite fmap_cons in Hnd. apply NoDup_cons in Hnd as [Hx Hnd].
  destruct (decide (dedup_key x ∈ seen)) as [Hin | _].
  - exfalso. apply (Hseen x); [left | exact Hin].
  - f_equal. apply IH; [exact Hnd |].
    intros y Hy Hin. apply elem_of_union in Hin as [Hin | Hin].
    + apply elem_of_singleton in Hin. apply Hx. rewrite <- Hin.
      apply list_elem_of_fmap_2. exact Hy.
    + apply (Hseen y); [right; exact Hy | exact Hin].
Qed.

(** Ranking is idempotent: the part of [scrape_and_match] that follows
    the collection (score, filter, sort, de-duplicate, cut), applied to
    a list it has produced with the same profile, [min_score] and
    non-negative [max_results], returns that list unchanged. *)
Theorem rank_jobs_idempotent (cv_data : CvData) (min_score : Q) (max_results : Z)
    (all_jobs res : list Job) :
  rank_jobs cv_data min_score max_results all_jobs = Ok res ->
  (0 <= max_results)%Z ->
  rank_jobs cv_data min_score max_results res = Ok res.
Proof.
  rewrite !rank_jobs_eq. intros [= Hres] Hmax.
  assert (matched_of cv_data min_score res = res) as Hm.
  { unfold matched_of. apply omap_fixed. intros e He. rewrite <- Hres in He.
    apply result_elem_collected in He as (job & s & _ & Hc & Hle & ->).
    apply score_entry_inv. exists s. rewrite score_of_scored. auto. }
  assert (sorted_of cv_data min_score res = res) as Hs.
  { unfold sorted_of. rewrite Hm. apply sort_desc_fixed.
    rewrite <- Hres.
    eapply StronglySorted_sublist;
      [apply result_sublist_sorted | apply sorted_of_sorted]. }
  rewrite Hs, firsts_fixed.
  - rewrite slice_to_all; [reflexivity |].
    rewrite <- Hres. apply slice_to_length_le, Hmax.
  - rewrite <- Hres. apply result_keys_NoDup.
  - intros x _. apply not_elem_of_empty.
Qed.

Lemma rank_jobs_idempotent_witness :
  rank_jobs demo_cv 13 50
    (collect_all demo_world "alpha betas gamma" (extract_search_keywords demo_cv) 720)
    = Ok demo_result /\
  (0 <= 50)%Z /\
  rank_jobs demo_cv 13 50 demo_result = Ok demo_result.
Proof.
  assert (rank_jobs demo_cv 13 50
            (collect_all demo_world "alpha betas gamma"
               (extract_search_keywords demo_cv) 720) = Ok demo_result) as H
    by (vm_compute; reflexivity).
  assert (0 <= 50)%Z as Hmax by lia.
  split; [exact H |]. split; [exact Hmax |].
  exact (rank_jobs_idempotent demo_cv 13 50 _ demo_result H Hmax).
Defined.

(** ** The summary by source of [save_results] *)

Lemma count_site_lookup (sources : gmap string Z) (job : Job) (k : string) :
  count_site sources job !! k =
  if decide (site_of job = k) then Some (default 0%Z (sources !! k) + 1)%Z
  else sources !! k.
Proof.
  unfold count_site. fold (site_of job). cbv zeta.
  destruct (decide (site_of job = k)) as [<- | Hne].
  - apply lookup_insert_eq.
  - apply lookup_insert_ne. exact Hne.
Qed.

Lemma summary_loop_lookup (jobs : list Job) (sources : gmap string Z) (k : string) :
  foldl count_site sources jobs !! k =
  match count_of_site k jobs with
  | O => sources !! k
  | S _ => Some (default 0%Z (sources !! k) + Z.of_nat (count_of_site k jobs))%Z
  end.
Proof.
  unfold count_of_site. revert sources.
  induction jobs as [|job jobs IH]; intros sources; [reflexivity |].
  cbn [foldl]. rewrite IH, count_site_lookup, filter_cons.
  destruct (decide (site_of job = k)) as [Hk | Hk].
  - cbn [length default].
    destruct (length (filter (fun job0 => site_of job0 = k) jobs)) as [|n].
    + reflexivity.
    + f_equal. unfold id. lia.
  - reflexivity.
Qed.

Lemma sum_counts_insert (sources : gmap string Z) (k : string) (v : Z) :
  sum_counts (<[k := v]> sources) =
  (sum_counts sources - default 0%Z (sources !! k) + v)%Z.
Proof.
  unfold sum_counts.
  assert (forall z1 z2 y : Z, (z1 + (z2 + y))%Z = (z2 + (z1 + y))%Z) as Hcomm
    by (intros; lia).
  destruct (sources !! k) as [x|] eqn:Hk.
  - rewrite <- (insert_delete_eq sources k v).
    rewrite (map_fold_insert_L _ 0%Z k v (delete k sources));
      [| intros; apply Hcomm | apply lookup_delete_eq].
    rewrite (map_fold_delete_L _ 0%Z k x sources);
      [| intros; apply Hcomm | exact Hk].
    cbn [from_option id]. lia.
  - rewrite (map_fold_insert_L _ 0%Z k v sources);
      [| intros; apply Hcomm | exact Hk].
    cbn [from_option id]. lia.
Qed.

Lemma summary_loop_sum (jobs : list Job) (sources : gmap string Z) :
  sum_counts (foldl count_site sources jobs) =
  (sum_counts sources + Z.of_nat (length jobs))%Z.
Proof.
  revert sources. induction jobs as [|job jobs IH]; intros sources.
  - simpl. lia.
  - cbn [foldl]. rewrite IH. unfold count_site. cbv zeta.
    rewrite sum_counts_insert. cbn [length]. lia.
Qed.

(** In the document written by [save_results], the count stored for a
    site is the number of jobs with that site ("Unknown" standing for an
    absent [site]), a site without job has no entry, and the counts add
    up to [total_matches]. *)
Theorem save_results_counts (w : World) (jobs : list Job) :
  (forall k,
     out_sources_summary (save_results w jobs) !! k =
     match count_of_site k jobs with
     | O => None
     | S n => Some (Z.of_nat (S n))
     end) /\
  sum_counts (out_sources_summary (save_results w jobs)) =
  total_matches (save_results w jobs).
Proof.
  cbn [save_results out_sources_summary total_matches]. unfold sources_summary. split.
  - intros k. rewrite summary_loop_lookup, lookup_empty.
    destruct (count_of_site k jobs); [reflexivity |]. f_equal.
  - rewrite summary_loop_sum. unfold sum_counts. rewrite map_fold_empty. lia.
Qed.

Lemma contribution_site (w : World) (search_term : string) (keywords : Keywords)
    (hours_old : Z) (s : Source) (job : Job) :
  job ∈ contribution w search_term keywords hours_old s ->
  site job = Some (site_label s).
Proof.
  intros H. apply contribution_origin in H.
  destruct s; try (destruct H as (c & l & -> & _); reflexivity);
    destruct H as (r & ->); reflexivity.
Qed.

(** On a list returned by [scrape_and_match] the summary by source has
    no "Unknown" entry: every key is the name one of the seven sources
    writes, and every count is between 1 and the number of jobs. *)
Theorem summary_sites_known (w : World) (path : string) (min_score : Q)
    (max_results hours_old : Z) (res : list Job) (k : string) (n : Z) :
  scrape_and_match w path min_score max_results hours_old = Ok res ->
  sources_summary res !! k = Some n ->
  (exists src, k = site_label src) /\ (1 <= n <= Z.of_nat (length res))%Z.
Proof.
  intros H Hk. unfold sources_summary in Hk.
  rewrite summary_loop_lookup, lookup_empty in Hk.
  destruct (count_of_site k res) as [|c] eqn:Hc; [discriminate |].
  injection Hk as <-. cbn [default]. split.
  - unfold count_of_site in Hc.
    destruct (filter (fun job => site_of job = k) res) as [|e l] eqn:Hf;
      [discriminate |].
    assert (e ∈ filter (fun job => site_of job = k) res) as He
      by (rewrite Hf; left).
    apply list_elem_of_filter in He as [Hsite He].
    destruct (result_entry_origin _ _ _ _ _ _ _ H He)
      as (cv_data & term & src & job & s & _ & Hin & _ & _ & ->).
    apply contribution_site in Hin. exists src. rewrite <- Hsite.
    unfold site_of. cbn [site set_match_score]. rewrite Hin. reflexivity.
  - assert (count_of_site k res <= length res)%nat as Hle.
    { unfold count_of_site. apply sublist_length, sublist_filter. }
    rewrite Hc in Hle. lia.
Qed.

Lemma summary_sites_known_witness :
  scrape_and_match demo_world "cv.json" 13 50 720 = Ok demo_result /\
  sources_summary demo_result !! "LinkedIn" = Some 3%Z /\
  (exists src, "LinkedIn" = site_label src) /\
  (1 <= 3 <= Z.of_nat (length demo_result))%Z.
Proof.
  assert (sources_summary demo_result !! "LinkedIn" = Some 3%Z) as Hk
    by (vm_compute; reflexivity).
  split; [exact demo_run |]. split; [exact Hk |].
  exact (summary_sites_known demo_world "cv.json" 13 50 720 demo_result
           "LinkedIn" 3 demo_run Hk).
Defined.

Lemma tunisia_collectors_capped_witness :
  (0 <= 1)%Z /\
  scrape_emploi_tn tunisia_world "web" 1
    = Ok [emploi_job "2024-01-01T00:00:00" demo_container
            {| a_text := "Developpeur web"; a_href := "/offre/42" |}] /\
  exists jobs, scrape_emploi_tn tunisia_world "web" 1 = Ok jobs /\
               (Z.of_nat (length jobs) <= 1)%Z.
Proof.
  assert (0 <= 1)%Z as Hn by lia.
  split; [exact Hn |]. split; [reflexivity |].
  exact (proj1 (tunisia_collectors_capped tunisia_world "web" 1 Hn)).
Defined.

(** ** More on thresholds, empty runs and long skill lists *)

Lemma slice_to_untruncated {A} (n : Z) (l : list A) :
  (Z.of_nat (length (slice_to n l)) < n)%Z -> slice_to n l = l.
Proof.
  intros H. assert (0 <= n)%Z as Hn by lia.
  rewrite slice_to_length_nonneg in H by exact Hn.
  apply slice_to_all. lia.
Qed.

(** Raising [min_score] never brings in a new key: when the list
    returned for the lower threshold is shorter than [max_results] (so
    nothing was cut), every (title, company) key of the list returned
    for a higher threshold is the key of one of its entries.  (The
    entry itself can differ: another posting with the same key and the
    same rounded score.) *)
Theorem higher_threshold_fewer_keys (w : World) (path : string)
    (min_score min_score' : Q) (max_results max_results' hours_old : Z)
    (res res' : list Job) (e' : Job) :
  (min_score <= min_score')%Q ->
  scrape_and_match w path min_score max_results hours_old = Ok res ->
  scrape_and_match w path min_score' max_results' hours_old = Ok res' ->
  (Z.of_nat (length res) < max_results)%Z ->
  e' ∈ res' ->
  exists e, e ∈ res /\ dedup_key e = dedup_key e'.
Proof.
  intros Hmin H H' Hmax He'.
  apply scrape_and_match_inv in H as (cv_data & term & Hcv & Ht & ->).
  apply scrape_and_match_inv in H' as (cv' & term' & Hcv' & Ht' & ->).
  rewrite Hcv in Hcv'. injection Hcv' as <-.
  rewrite Ht in Ht'. injection Ht' as <-.
  rewrite (slice_to_untruncated _ _ Hmax).
  apply result_elem_collected in He' as (job & s & Hin & Hc & Hle & ->).
  set (all_jobs := collect_all _ _ _ _) in *.
  assert (set_match_score job (round2 s) ∈ sorted_of cv_data min_score all_jobs) as Hs.
  { apply elem_of_sorted, elem_of_matched. exists job, s.
    repeat split; [exact Hin | exact Hc | lra]. }
  destruct (firsts_complete ∅ _ _ Hs) as [Hempty | (e & He & Hk)].
  - exfalso. revert Hempty. apply not_elem_of_empty.
  - exists e. split; [exact He | exact Hk].
Qed.

Lemma higher_threshold_fewer_keys_witness :
  (13 <= 20)%Q /\
  scrape_and_match demo_world "cv.json" 13 50 720 = Ok demo_result /\
  scrape_and_match demo_world "cv.json" 20 50 720 = Ok (take 1 demo_result) /\
  (Z.of_nat (length demo_result) < 50)%Z /\
  demo_entry "LinkedIn" (row "Alpha Engineer" "ACME" "Tunis") (round2 (85 # 3))
    ∈ take 1 demo_result /\
  exists e, e ∈ demo_result /\
    dedup_key e =
    dedup_key (demo_entry "LinkedIn" (row "Alpha Engineer" "ACME" "Tunis")
                 (round2 (85 # 3))).
Proof.
  assert (13 <= 20)%Q as Hmin by (unfold Qle; simpl; lia).
  assert (scrape_and_match demo_world "cv.json" 20 50 720 = Ok (take 1 demo_result))
    as H' by (vm_compute; reflexivity).
  assert (Z.of_nat (length demo_result) < 50)%Z as Hmax by (simpl; lia).
  assert (demo_entry "LinkedIn" (row "Alpha Engineer" "ACME" "Tunis") (round2 (85 # 3))
            ∈ take 1 demo_result) as Hin by left.
  split; [exact Hmin |]. split; [exact demo_run |]. split; [exact H' |].
  split; [exact Hmax |]. split; [exact Hin |].
  exact (higher_threshold_fewer_keys demo_world "cv.json" 13 20 50 50 720
           demo_result (take 1 demo_result) _ Hmin demo_run H' Hmax Hin).
Defined.

(** When no source contributes a posting (all disabled, failing or
    without result), [scrape_and_match] returns the empty list; it
    raises only if the profile cannot be loaded or gives no search
    term. *)
Theorem no_posting_no_error (w : World) (path : string) (min_score : Q)
    (max_results hours_old : Z) (cv_data : CvData) (search_term : string) :
  load_cv_profile w path = Ok cv_data ->
  build_search_term (extract_search_keywords cv_data) = Ok search_term ->
  (forall s, contribution w search_term (extract_search_keywords cv_data)
               hours_old s = []) ->
  scrape_and_match w path min_score max_results hours_old = Ok [].
Proof.
  intros Hcv Ht Hnone. rewrite scrape_and_match_eq, Hcv. cbn [ebind].
  rewrite Ht. cbn [ebind]. rewrite collect_all_eq, !Hnone. cbn [app].
  unfold sorted_of, matched_of. simpl. rewrite slice_to_nil. reflexivity.
Qed.

Lemma no_posting_no_error_witness :
  load_cv_profile silent_world "cv.json" = Ok demo_cv /\
  build_search_term (extract_search_keywords demo_cv) = Ok "alpha betas gamma" /\
  (forall s, contribution silent_world "alpha betas gamma"
               (extract_search_keywords demo_cv) 720 s = []) /\
  scrape_and_match silent_world "cv.json" 15 50 720 = Ok [].
Proof.
  assert (forall s, contribution silent_world "alpha betas gamma"
                      (extract_search_keywords demo_cv) 720 s = []) as Hnone
    by (intros []; reflexivity).
  split; [reflexivity |]. split; [reflexivity |]. split; [exact Hnone |].
  exact (no_posting_no_error silent_world "cv.json" 15 50 720 demo_cv
           "alpha betas gamma" eq_refl eq_refl Hnone).
Defined.

(** Only the first 20 technical skills count: skills listed after the
    twentieth do not change the score. *)
Theorem skills_after_twentieth_ignored (job : Job) (cv_data : CvData)
    (tech more : list string) :
  (20 <= length tech)%nat ->
  calculate_match_score job (with_technical cv_data (tech ++ more)) =
  calculate_match_score job (with_technical cv_data tech).
Proof.
  intros Hlen. unfold calculate_match_score, check_skills, with_technical.
  cbn [skills technical]. rewrite !slice_to_20, take_app_le by exact Hlen.
  reflexivity.
Qed.

Lemma skills_after_twentieth_ignored_witness :
  (20 <= length (replicate 20 "Python"))%nat /\
  calculate_match_score python_job
    (with_technical skills_cv (replicate 20 "Python" ++ ["developer"])) =
  calculate_match_score python_job
    (with_technical skills_cv (replicate 20 "Python")).
Proof.
  assert (20 <= length (replicate 20 "Python"))%nat as H by (simpl; lia).
  split; [exact H |].
  exact (skills_after_twentieth_ignored python_job skills_cv _ ["developer"] H).
Defined.

(** ** Cleaning before saving (app.py) *)

Lemma json_induction (P : json -> Prop) :
  P JNone -> (forall b, P (JBool b)) -> (forall z, P (JInt z)) ->
  (forall x, P (JFloat x)) -> (forall s, P (JStr s)) ->
  (forall items, Forall P items -> P (JList items)) ->
  (forall items, Forall (fun kv => P (snd kv)) items -> P (JDict items)) ->
  forall data, P data.
Proof.
  intros HN HB HI HF HS HL HD.
  refine (fix IH (data : json) : P data :=
            match data with
            | JNone => HN
            | JBool b => HB b
            | JInt z => HI z
            | JFloat x => HF x
            | JStr s => HS s
            | JList items =>
                HL items
                   ((fix go (l : list json) : Forall P l :=
                       match l with
                       | [] => @List.Forall_nil _ P
                       | x :: r => @List.Forall_cons _ P x r (IH x) (go r)
                       end) items)
            | JDict items =>
                HD items
                   ((fix go (l : list (string * json))
                       : Forall (fun kv => P (snd kv)) l :=
                       match l with
                       | [] => @List.Forall_nil _ _
                       | x :: r => @List.Forall_cons _ _ x r (IH (snd x)) (go r)
                       end) items)
            end).
Qed.

Section CleanJsonFacts.
Variable str_int : Z -> string.
Variable str_float : Q -> string.
Variable utf8_ignore : string -> string.

(** After [clean_json_data] every leaf is a string: numbers, booleans
    and [None] are gone, at any depth. *)
Theorem clean_only_strings (data : json) :
  only_strings (clean_json_data str_int str_float utf8_ignore data) = true.
Proof.
  induction data as [| b | z | x | s | items IH | items IH] using json_induction;
    try reflexivity.
  - cbn [clean_json_data only_strings]. induction IH as [|x l Hx _ IHl]; [reflexivity |].
    cbn [map forallb]. rewrite Hx, IHl. reflexivity.
  - cbn [clean_json_data only_strings]. induction IH as [|x l Hx _ IHl]; [reflexivity |].
    cbn [map forallb snd]. rewrite Hx, IHl. reflexivity.
Qed.

(** [clean_json_data] keeps the structure: the same dictionary keys in
    the same order and lists of the same length, at every depth. *)
Theorem clean_same_shape (data : json) :
  same_shape data (clean_json_data str_int str_float utf8_ignore data) = true.
Proof.
  induction data as [| b | z | x | s | items IH | items IH] using json_induction;
    try reflexivity.
  - cbn [clean_json_data same_shape]. induction IH as [|x l Hx _ IHl]; [reflexivity |].
    cbn [map]. rewrite Hx, IHl. reflexivity.
  - cbn [clean_json_data same_shape]. induction IH as [|x l Hx _ IHl]; [reflexivity |].
    cbn [map fst snd]. rewrite Hx, IHl, String.eqb_refl. reflexivity.
Qed.

(** Cleaning twice is cleaning once, as soon as the strings the function
    itself produces (the result of the UTF-8 round trip, [str] of a
    number, ["True"], ["False"] and [""]) survive the UTF-8 round trip. *)
Theorem clean_idempotent (data : json) :
  (forall s, encodable utf8_ignore (utf8_ignore s)) ->
  (forall z, encodable utf8_ignore (str_int z)) ->
  (forall x, encodable utf8_ignore (str_float x)) ->
  encodable utf8_ignore "True" -> encodable utf8_ignore "False" ->
  encodable utf8_ignore "" ->
  clean_json_data str_int str_float utf8_ignore
    (clean_json_data str_int str_float utf8_ignore data) =
  clean_json_data str_int str_float utf8_ignore data.
Proof.
  unfold encodable. intros Hu Hi Hf Ht Hff He.
  induction data as [| b | z | x | s | items IH | items IH] using json_induction;
    cbn [clean_json_data].
  - rewrite He. reflexivity.
  - destruct b; [rewrite Ht | rewrite Hff]; reflexivity.
  - rewrite Hi. reflexivity.
  - rewrite Hf. reflexivity.
  - rewrite Hu. reflexivity.
  - f_equal. induction IH as [|x l Hx _ IHl]; [reflexivity |].
    cbn [map]. rewrite Hx, IHl. reflexivity.
  - f_equal. induction IH as [|x l Hx _ IHl]; [reflexivity |].
    cbn [map fst snd]. rewrite Hx, IHl. reflexivity.
Qed.
End CleanJsonFacts.

Lemma clean_idempotent_witness :
  clean_json_data demo_str_int demo_str_float (fun s => s)
    (clean_json_data demo_str_int demo_str_float (fun s => s) demo_saved) =
  clean_json_data demo_str_int demo_str_float (fun s => s) demo_saved.
Proof.
  apply (clean_idempotent demo_str_int demo_str_float (fun s => s) demo_saved);
    unfold encodable; reflexivity.
Defined.
